(** * dtool-lookup-server: registration consistency and permission-scoped queries

    A shallow embedding of [dtool_lookup_server/utils.py] and of the views of
    [app/routes.py] and [app/__init__.py]; the properties of the
    specification proved of it, and further properties of the program.

    The program is Python over two stores: a relational admin store reached
    through SQLAlchemy and a document store reached through pymongo.  The
    embedding keeps what the properties depend on:

    - values are Python's: a decoded JSON value or an [ObjectId]; [len],
      [endswith] and the item access fail on the values Python fails on, with
      the exception Python raises.  A string is the sequence of its
      characters;
    - a [dict] that the program mutates or copies is an object of a heap, so
      that a caller and a callee share it; a dict that is only read is passed
      as a value;
    - a function of the program is a function from the world (both stores and
      the heap) to an outcome, a value or the exception raised, and the world
      it leaves;
    - a table of the admin store is the list of its rows in the order they
      were added; [first()] takes the first row; a relationship is the join
      it stands for; the session's rows are visible to its own queries and
      [commit] makes them the committed store;
    - a string column holds text, also for a number bound to it, and the
      Boolean column a truth value, also for 0 or 1; a unique key refuses a
      second row, and a relationship holds a pair once; the username, the
      base URI or the uuid that a lookup is given is compared as it is, a
      string with the text of the column;
    - the collection is the list of its documents in the order they were
      inserted; a filter is the conjunction of its entries; an entry with a
      plain value asks for equality ([None] also for the absence of the
      field), and what the store's operators mean is a parameter. *)

From stdpp Require Import base option list gmap strings pretty.
From Stdlib Require Import ZArith Lia.

Local Open Scope string_scope.
Local Open Scope list_scope.

Set Warnings "-register-all".

(** ** Python values *)

(** The values a decoded JSON body can hold, and the identifiers the document
    store generates. *)
Inductive pyval : Type :=
  | VNone
  | VBool (b : bool)
  | VInt (z : Z)
  | VStr (s : string)
  | VObjectId (n : nat)
  | VList (l : list pyval)
  | VDict (kvs : list (string * pyval)).

Definition pyval_eq_dec : ∀ a b : pyval, {a = b} + {a ≠ b}.
Proof.
  fix IH 1. intros a b.
  destruct a as [|b1|z1|s1|n1|l1|kvs1], b as [|b2|z2|s2|n2|l2|kvs2];
    try (right; discriminate).
  - left; reflexivity.
  - destruct (bool_eq_dec b1 b2) as [->|Hne]; [left; reflexivity | right; congruence].
  - destruct (Z.eq_dec z1 z2) as [->|Hne]; [left; reflexivity | right; congruence].
  - destruct (String.string_dec s1 s2) as [->|Hne]; [left; reflexivity | right; congruence].
  - destruct (Nat.eq_dec n1 n2) as [->|Hne]; [left; reflexivity | right; congruence].
  - assert (Hl : {l1 = l2} + {l1 ≠ l2}).
    { revert l1 l2. fix IHl 1. intros [|x xs] [|y ys];
        [ left; reflexivity | right; discriminate | right; discriminate | ].
      destruct (IH x y) as [->|Hne]; [|right; congruence].
      destruct (IHl xs ys) as [->|Hne]; [left; reflexivity | right; congruence]. }
    destruct Hl as [->|Hne]; [left; reflexivity | right; congruence].
  - assert (Hl : {kvs1 = kvs2} + {kvs1 ≠ kvs2}).
    { revert kvs1 kvs2. fix IHl 1. intros [|[k x] xs] [|[k' y] ys];
        [ left; reflexivity | right; discriminate | right; discriminate | ].
      destruct (String.string_dec k k') as [->|Hne]; [|right; congruence].
      destruct (IH x y) as [->|Hne]; [|right; congruence].
      destruct (IHl xs ys) as [->|Hne]; [left; reflexivity | right; congruence]. }
    destruct Hl as [->|Hne]; [left; reflexivity | right; congruence].
Defined.

#[global] Instance pyval_eq_decision : EqDecision pyval := pyval_eq_dec.

(** A Python [dict] with string keys. *)
Abbreviation pydict := (gmap string pyval).

(** ** Exceptions *)

(** The text of a [ValidationError] is a template filled with a value; the
    template and the value are kept apart. *)
Inductive validation_msg : Type :=
  | Dataset_info_not_valid (dataset_info : pydict)
  | Base_URI_not_registered (base_uri : pyval)
  | Base_URI_is_not_registered (base_uri : pyval).

Inductive exn : Type :=
  | ValidationError (msg : validation_msg)
  | AuthenticationError
  | KeyError (key : string)
  | TypeError
  | AttributeError
  | StatementError
  | IntegrityError
  | DuplicateKeyError
  | OperationFailure
  | HTTPException (code : nat).

(** The two exceptions the package declares; the others come from the
    interpreter and from the store drivers. *)
Definition is_typed_error (e : exn) : bool :=
  match e with
  | ValidationError _ | AuthenticationError => true
  | _ => false
  end.

Inductive outcome (A : Type) : Type :=
  | Ok (a : A)
  | Raise (e : exn).
Arguments Ok {A} a.
Arguments Raise {A} e.

(** ** Operations of Python's values *)

(** [len(v)]: strings, lists and dicts have a length, the other values raise
    [TypeError]. *)
Definition py_len (v : pyval) : outcome nat :=
  match v with
  | VStr s => Ok (String.length s)
  | VList l => Ok (length l)
  | VDict kvs => Ok (length kvs)
  | _ => Raise TypeError
  end.

(** [str.endswith]. *)
Definition str_endswith (s suffix : string) : bool :=
  let n := String.length s in
  let m := String.length suffix in
  Nat.leb m n && String.eqb (String.substring (n - m) m s) suffix.

(** [v.endswith(suffix)]: only strings have the method. *)
Definition py_endswith (v : pyval) (suffix : string) : outcome bool :=
  match v with
  | VStr s => Ok (str_endswith s suffix)
  | _ => Raise AttributeError
  end.

(** [for x in v]: a list yields its items, a string its characters, a dict
    its keys; the other values are not iterable. *)
Fixpoint str_chars (s : string) : list pyval :=
  match s with
  | EmptyString => []
  | String c s' => VStr (String c EmptyString) :: str_chars s'
  end.

Definition py_iter (v : pyval) : outcome (list pyval) :=
  match v with
  | VList l => Ok l
  | VStr s => Ok (str_chars s)
  | VDict kvs => Ok (VStr <$> kvs.*1)
  | _ => Raise TypeError
  end.

(** ** The admin store (SQLAlchemy)

    Modelled from the spec: [User], [BaseURI] and [Dataset] are declared in
    [sql_models.py], which is not among the sources.  The specification gives
    the admin store three relations (users, base URIs, datasets) and two
    permission join relations (§3, §6); the columns are the ones [utils.py]
    reads and writes. *)

Record User : Type := mkUser {
  User_id : nat;
  User_username : string;
  User_is_admin : bool
}.

Record BaseURI : Type := mkBaseURI {
  BaseURI_id : nat;
  BaseURI_base_uri : string
}.

Record Dataset : Type := mkDataset {
  Dataset_uri : string;
  Dataset_base_uri_id : nat;
  Dataset_uuid : string;
  Dataset_name : string
}.

#[global] Instance User_eq_dec : EqDecision User.
Proof. solve_decision. Defined.
#[global] Instance BaseURI_eq_dec : EqDecision BaseURI.
Proof. solve_decision. Defined.
#[global] Instance Dataset_eq_dec : EqDecision Dataset.
Proof. solve_decision. Defined.

(** The five relations; a row of a permission relation is a pair (user id,
    base URI id). *)
Record sql_db : Type := mkSqlDb {
  users : list User;
  base_uris : list BaseURI;
  datasets : list Dataset;
  search_permissions : list (nat * nat);
  register_permissions : list (nat * nat)
}.

(** The key an autoincrement column gives to the next row. *)
Definition next_id (ids : list nat) : nat := S (foldr Nat.max 0 ids).

(** [user.search_base_uris] and [user.register_base_uris]: the base URIs
    joined to the user through the permission relation. *)
Definition related_base_uris (perms : list (nat * nat)) (db : sql_db) (u : User)
  : list BaseURI :=
  p ← perms;
  if bool_decide (p.1 = User_id u)
  then filter (λ b, BaseURI_id b = p.2) (base_uris db)
  else [].

Definition User_search_base_uris (db : sql_db) (u : User) : list BaseURI :=
  related_base_uris (search_permissions db) db u.

Definition User_register_base_uris (db : sql_db) (u : User) : list BaseURI :=
  related_base_uris (register_permissions db) db u.

(** [base_uri.datasets]: the reverse relation. *)
Definition BaseURI_datasets (db : sql_db) (b : BaseURI) : list Dataset :=
  filter (λ ds, Dataset_base_uri_id ds = BaseURI_id b) (datasets db).

(** ** The descriptive store (pymongo) *)

(** A document of the collection is a dict that carries its [_id]. *)
Definition doc_id (d : pydict) : option pyval := d !! "_id".

Definition oid_numbers (coll : list pydict) : list nat :=
  omap (λ d, match doc_id d with Some (VObjectId n) => Some n | _ => None end) coll.

(** A new [ObjectId()]: different from every identifier of the collection. *)
Definition fresh_oid (coll : list pydict) : nat := next_id (oid_numbers coll).

Definition is_dict (v : pyval) : bool :=
  match v with VDict _ => true | _ => false end.

Section Model.

(** The meaning of the store's query operators ([$text], [$or], a field with
    an operator document such as [{"$regex": ...}]) is left open: whatever
    they mean, they are one more conjunct of the filter. *)
Variable mongo_op : string → pyval → pydict → bool.

(** Modelled from the spec: [Dataset.as_dict] belongs to the absent
    [sql_models.py]; it renders one admin record, possibly following the
    record's relations. *)
Variable Dataset_as_dict : sql_db → Dataset → pydict.

(** Likewise [User.as_dict] and [BaseURI.as_dict]. *)
Variable User_as_dict : sql_db → User → pydict.
Variable BaseURI_as_dict : sql_db → BaseURI → pydict.

(** One entry [k: v] of a filter against one document: an operator, or the
    equality of the document's field [k] with [v]; [None] is also matched by
    a document that has no field [k]. *)
Definition field_match (k : string) (v : pyval) (d : pydict) : bool :=
  if String.prefix "$" k || is_dict v
  then mongo_op k v d
  else bool_decide (d !! k = Some v)
       || bool_decide (v = VNone ∧ d !! k = None).

(** A filter is the conjunction of its entries. *)
Definition matches (q d : pydict) : bool :=
  forallb (λ kv, field_match kv.1 kv.2 d) (map_to_list q).

(** ** The world and the monad of the program *)

(** The admin store as the session sees it (rows added and flushed, visible
    to the session's own queries) and as it was last committed; the
    collection of the descriptive store; the heap of the dict objects the
    program passes around. *)
Record world : Type := mkWorld {
  w_sql : sql_db;
  w_committed : sql_db;
  w_mongo : list pydict;
  w_heap : gmap nat pydict
}.

Definition M (A : Type) : Type := world → outcome A * world.

#[global] Instance M_ret : MRet M := λ A a w, (Ok a, w).
#[global] Instance M_bind : MBind M := λ A B f m w,
  match m w with
  | (Ok a, w') => f a w'
  | (Raise e, w') => (Raise e, w')
  end.

Definition raise {A} (e : exn) : M A := λ w, (Raise e, w).

Definition lift {A} (o : outcome A) : M A := λ w, (o, w).

(** [for x in xs: body x]. *)
Fixpoint for_each {A} (xs : list A) (body : A → M unit) : M unit :=
  match xs with
  | [] => mret ()
  | x :: xs' => body x ;; for_each xs' body
  end.

(** [for x in xs: acc = body acc x], for a loop that grows a local list. *)
Fixpoint for_fold {A S} (xs : list A) (acc : S) (body : S → A → M S) : M S :=
  match xs with
  | [] => mret acc
  | x :: xs' => acc' ← body acc x; for_fold xs' acc' body
  end.

(** *** The SQLAlchemy session *)

Definition session : M sql_db := λ w, (Ok (w_sql w), w).

Definition set_session (db : sql_db) : M unit :=
  λ w, (Ok (), mkWorld db (w_committed w) (w_mongo w) (w_heap w)).

(** [sql_db.session.commit()]. *)
Definition commit : M unit :=
  λ w, (Ok (), mkWorld (w_sql w) (w_sql w) (w_mongo w) (w_heap w)).

(** A flush that fails rolls the transaction back: the session is the
    committed store again.  [StatementError] is the failure of a value that
    cannot be bound to its column. *)
Definition statement_error {A} : M A :=
  λ w, (Raise StatementError,
        mkWorld (w_committed w) (w_committed w) (w_mongo w) (w_heap w)).

(** Modelled from the spec: the unique keys of the admin store (§3:
    [username], [base_uri] and the [uri] of a dataset) are declared in the
    absent [sql_models.py], whose string columns are taken to be required.
    The store refuses a row that repeats a key or leaves a column empty:
    the flush fails with [IntegrityError]. *)
Definition integrity_error {A} : M A :=
  λ w, (Raise IntegrityError,
        mkWorld (w_committed w) (w_committed w) (w_mongo w) (w_heap w)).

(** What a string column of the store holds for a value bound to it: a
    [str] as it is; a number as its decimal text and a truth value as the
    text of 1 or 0, by the text affinity of the column.  [None] is no text,
    and a list, a dict or an [ObjectId] cannot be bound. *)
Definition column_text (v : pyval) : option string :=
  match v with
  | VStr s => Some s
  | VInt z => Some (pretty z)
  | VBool b => Some (if b then "1" else "0")
  | _ => None
  end.

(** What a query on a string column looks for, given a value from a
    payload: the text that the value is bound as; a value without text,
    [None] among them, is the text of no row. *)
Definition bound (v : pyval) : pyval :=
  match column_text v with
  | Some s => VStr s
  | None => v
  end.

Definition column_str (v : pyval) : M string :=
  match column_text v with
  | Some s => mret s
  | None => if bool_decide (v = VNone) then integrity_error else statement_error
  end.

(** What the Boolean column [is_admin] holds for a value bound to it: a
    truth value, or the one that 0 or 1 stands for; [None] leaves the column
    to its default, [False]; the column takes no other value. *)
Definition column_bool (v : pyval) : M bool :=
  match v with
  | VBool b => mret b
  | VInt 0 => mret false
  | VInt 1 => mret true
  | VNone => mret false
  | _ => statement_error
  end.

(** [sql_db.session.add(BaseURI(base_uri=...))]: the row gets the next id. *)
Definition session_add_base_uri (base_uri : string) : M unit :=
  db ← session;
  if bool_decide (base_uri ∈ BaseURI_base_uri <$> base_uris db)
  then integrity_error
  else
    let row := mkBaseURI (next_id (BaseURI_id <$> base_uris db)) base_uri in
    set_session (mkSqlDb (users db) (base_uris db ++ [row]) (datasets db)
                   (search_permissions db) (register_permissions db)).

(** [sql_db.session.add(User(username=..., is_admin=...))]. *)
Definition session_add_user (username : string) (is_admin : bool) : M unit :=
  db ← session;
  if bool_decide (username ∈ User_username <$> users db)
  then integrity_error
  else
    let row := mkUser (next_id (User_id <$> users db)) username is_admin in
    set_session (mkSqlDb (users db ++ [row]) (base_uris db) (datasets db)
                   (search_permissions db) (register_permissions db)).

(** [sql_db.session.add(dataset)]. *)
Definition session_add_dataset (dataset : Dataset) : M unit :=
  db ← session;
  if bool_decide (Dataset_uri dataset ∈ Dataset_uri <$> datasets db)
  then integrity_error
  else
    set_session (mkSqlDb (users db) (base_uris db) (datasets db ++ [dataset])
                   (search_permissions db) (register_permissions db)).

(** [user.search_base_uris.append(base_uri)]: the pair gets a row of the
    permission relation, unless the relation holds that row already. *)
Definition search_base_uris_append (user : User) (base_uri : BaseURI) : M unit :=
  db ← session;
  if bool_decide ((User_id user, BaseURI_id base_uri) ∈ search_permissions db)
  then mret ()
  else
    set_session (mkSqlDb (users db) (base_uris db) (datasets db)
                   (search_permissions db ++ [(User_id user, BaseURI_id base_uri)])
                   (register_permissions db)).

(** [user.register_base_uris.append(base_uri)], likewise. *)
Definition register_base_uris_append (user : User) (base_uri : BaseURI) : M unit :=
  db ← session;
  if bool_decide ((User_id user, BaseURI_id base_uri) ∈ register_permissions db)
  then mret ()
  else
    set_session (mkSqlDb (users db) (base_uris db) (datasets db)
                   (search_permissions db)
                   (register_permissions db ++ [(User_id user, BaseURI_id base_uri)])).

(** *** Dict objects *)

Definition heap_dict (w : world) (l : nat) : pydict := default ∅ (w_heap w !! l).

Definition deref (l : nat) : M pydict := λ w, (Ok (heap_dict w l), w).

Definition store (l : nat) (d : pydict) : M unit :=
  λ w, (Ok (), mkWorld (w_sql w) (w_committed w) (w_mongo w) (<[l := d]> (w_heap w))).

(** A new dict object. *)
Definition new_dict (d : pydict) : M nat :=
  λ w, let l := fresh (dom (w_heap w)) in
       (Ok l, mkWorld (w_sql w) (w_committed w) (w_mongo w) (<[l := d]> (w_heap w))).

(** [d[k]] on a dict value. *)
Definition getitem (d : pydict) (k : string) : outcome pyval :=
  match d !! k with
  | Some v => Ok v
  | None => Raise (KeyError k)
  end.

(** [l[k]]. *)
Definition dict_getitem (l : nat) (k : string) : M pyval :=
  d ← deref l; lift (getitem d k).

(** [k in l]. *)
Definition dict_contains (l : nat) (k : string) : M bool :=
  d ← deref l; mret (bool_decide (is_Some (d !! k))).

(** [l[k] = v]. *)
Definition dict_setitem (l : nat) (k : string) (v : pyval) : M unit :=
  d ← deref l; store l (<[k := v]> d).

(** [del l[k]]. *)
Definition dict_delitem (l : nat) (k : string) : M unit :=
  d ← deref l;
  match d !! k with
  | Some _ => store l (delete k d)
  | None => raise (KeyError k)
  end.

(** [l.copy()]. *)
Definition dict_copy (l : nat) : M nat :=
  d ← deref l; new_dict d.

(** *** The collection [mongo.db[MONGO_COLLECTION]] *)

Definition collection : M (list pydict) := λ w, (Ok (w_mongo w), w).

Definition set_collection (coll : list pydict) : M unit :=
  λ w, (Ok (), mkWorld (w_sql w) (w_committed w) coll (w_heap w)).

(** [collection.count()]. *)
Definition collection_count : M nat :=
  coll ← collection; mret (length coll).

(** [collection.find_one(q)]: the first document that matches, or [None]. *)
Definition collection_find_one (q : pydict) : M (option pydict) :=
  coll ← collection; mret (head (filter (λ d, matches q d) coll)).

(** [collection.find_one()], without a filter: the first document, or
    [None] for an empty collection. *)
Definition collection_find_one_any : M (option pydict) :=
  coll ← collection; mret (head coll).

(** [collection.find(q, {"_id": False})]: the matching documents in the
    store's order, without their [_id]. *)
Definition collection_find (q : pydict) : M (list pydict) :=
  coll ← collection; mret (delete "_id" <$> filter (λ d, matches q d) coll).

(** [collection.insert_one(l)]: a document without [_id] gets a new
    [ObjectId], which the driver also writes into the caller's dict. *)
Definition collection_insert_one (l : nat) : M unit :=
  d ← deref l;
  coll ← collection;
  d' ← match doc_id d with
       | Some _ => mret d
       | None =>
           let d' := <["_id" := VObjectId (fresh_oid coll)]> d in
           store l d' ;; mret d'
       end;
  if existsb (λ stored, bool_decide (doc_id stored = doc_id d')) coll
  then raise DuplicateKeyError
  else set_collection (coll ++ [d']).

(** [collection.find_one_and_replace(q, l)]: the first matching document is
    replaced where it stands and keeps its [_id]; the store refuses a
    replacement that carries another [_id]. *)
Definition collection_find_one_and_replace (q : pydict) (l : nat)
  : M (option pydict) :=
  d ← deref l;
  coll ← collection;
  match list_find (λ d, matches q d) coll with
  | None => mret None
  | Some (i, old) =>
      if bool_decide (doc_id d = None ∨ doc_id d = doc_id old)
      then
        let d' := match doc_id old with
                  | Some oid => <["_id" := oid]> d
                  | None => d
                  end in
        set_collection (<[i := d']> coll) ;; mret (Some old)
      else raise OperationFailure
  end.

(** ** [dtool_lookup_server/utils.py] *)

Definition DATASET_INFO_REQUIRED_KEYS : list string :=
  ["uuid"; "base_uri"; "uri"; "name"; "type"; "readme"].

(** *** Private helper functions *)

Definition _get_user_obj (username : pyval) : M (option User) :=
  db ← session;
  mret (head (filter (λ u, VStr (User_username u) = username) (users db))).

Definition _get_base_uri_obj (base_uri : pyval) : M (option BaseURI) :=
  db ← session;
  mret (head (filter (λ b, VStr (BaseURI_base_uri b) = base_uri) (base_uris db))).

(** *** User helper functions *)

Definition user_exists (username : pyval) : M bool :=
  u ← _get_user_obj username;
  match u with
  | None => mret false
  | Some _ => mret true
  end.

Definition get_user_obj (username : pyval) : M User :=
  user ← _get_user_obj username;
  match user with
  | None => raise AuthenticationError
  | Some user => mret user
  end.

(** [user.get("is_admin", False)]. *)
Definition get_is_admin (user : pydict) : pyval :=
  default (VBool false) (user !! "is_admin").

Definition register_users (users_in : list pydict) : M unit :=
  for_each users_in (λ user,
    username ← lift (getitem user "username");
    let is_admin := get_is_admin user in
    db ← session;
    if existsb (λ u, bool_decide (VStr (User_username u) = bound username)) (users db)
    then mret ()
    else
      username ← column_str username;
      is_admin ← column_bool is_admin;
      session_add_user username is_admin) ;;
  commit.

Definition list_users : M (list pydict) :=
  db ← session;
  mret (User_as_dict db <$> users db).

Definition get_user_info (username : pyval) : M (option pydict) :=
  db ← session;
  match head (filter (λ u, VStr (User_username u) = username) (users db)) with
  | None => mret None
  | Some user => mret (Some (User_as_dict db user))
  end.

(** *** Dataset list/search/lookup helper functions *)

Definition list_datasets_by_user (username : pyval) : M (list pydict) :=
  user ← get_user_obj username;
  db ← session;
  mret (base_uri ← User_search_base_uris db user;
        ds ← BaseURI_datasets db base_uri;
        [Dataset_as_dict db ds]).

Definition search_datasets_by_user (username : pyval) (query : nat)
  : M (list pydict) :=
  user ← get_user_obj username;
  db ← session;
  for_fold (User_search_base_uris db user) [] (λ datasets base_uri,
    base_uri_query ← dict_copy query;
    dict_setitem base_uri_query "base_uri" (VStr (BaseURI_base_uri base_uri)) ;;
    q ← deref base_uri_query;
    cx ← collection_find q;
    mret (datasets ++ cx)).

(** The rows of the query over [Dataset], [BaseURI] and [User]: the product
    of the three relations under the four filters.  [any] asks for a base
    URI related to the user whose id is the dataset's. *)
Definition lookup_query (db : sql_db) (username uuid : pyval)
  : list (Dataset * BaseURI * User) :=
  ds ← datasets db;
  base_uri ← base_uris db;
  user ← users db;
  if bool_decide (VStr (Dataset_uuid ds) = uuid)
     && bool_decide (VStr (User_username user) = username)
     && bool_decide (BaseURI_id base_uri = Dataset_base_uri_id ds)
     && existsb (λ b, bool_decide (BaseURI_id b = Dataset_base_uri_id ds))
                (User_search_base_uris db user)
  then [(ds, base_uri, user)]
  else [].

Definition lookup_datasets_by_user_and_uuid (username uuid : pyval)
  : M (list pydict) :=
  user ← get_user_obj username;
  db ← session;
  mret ((λ row, Dataset_as_dict db row.1.1) <$> lookup_query db username uuid).

(** *** Base URI helper functions *)

Definition base_uri_exists (base_uri : pyval) : M bool :=
  b ← _get_base_uri_obj base_uri;
  match b with
  | None => mret false
  | Some _ => mret true
  end.

Definition get_base_uri_obj (base_uri : pyval) : M BaseURI :=
  base_uri_obj ← _get_base_uri_obj base_uri;
  match base_uri_obj with
  | None => raise (ValidationError (Base_URI_not_registered base_uri))
  | Some b => mret b
  end.

Definition register_base_uri (base_uri : pyval) : M unit :=
  s ← column_str base_uri;
  session_add_base_uri s ;;
  commit.

Definition list_base_uris : M (list pydict) :=
  db ← session;
  mret (BaseURI_as_dict db <$> base_uris db).

(** *** Permission helper functions *)

Definition show_permissions (base_uri_str : pyval) : M pydict :=
  base_uri ← get_base_uri_obj base_uri_str;
  db ← session;
  mret (BaseURI_as_dict db base_uri).

Definition update_permissions (permissions : pydict) : M unit :=
  b ← lift (getitem permissions "base_uri");
  base_uri ← get_base_uri_obj b;
  l ← lift (getitem permissions "users_with_search_permissions");
  usernames ← lift (py_iter l);
  for_each usernames (λ username,
    e ← user_exists username;
    if e : bool
    then user ← get_user_obj username; search_base_uris_append user base_uri
    else mret ()) ;;
  l ← lift (getitem permissions "users_with_register_permissions");
  usernames ← lift (py_iter l);
  for_each usernames (λ username,
    e ← user_exists username;
    if e : bool
    then user ← get_user_obj username; register_base_uris_append user base_uri
    else mret ()) ;;
  commit.

(** *** Register dataset helper functions *)

Definition dataset_info_is_valid (dataset_info : pydict) : outcome bool :=
  if negb (forallb (λ key, bool_decide (is_Some (dataset_info !! key)))
             DATASET_INFO_REQUIRED_KEYS)
  then Ok false
  else
    match getitem dataset_info "type" with
    | Raise e => Raise e
    | Ok t =>
      if negb (bool_decide (t = VStr "dataset")) then Ok false
      else
        match getitem dataset_info "uuid" with
        | Raise e => Raise e
        | Ok u =>
          match py_len u with
          | Raise e => Raise e
          | Ok n =>
            if negb (n =? 36)%nat then Ok false
            else
              match getitem dataset_info "base_uri" with
              | Raise e => Raise e
              | Ok b =>
                match py_endswith b "/" with
                | Raise e => Raise e
                | Ok true => Ok false
                | Ok false => Ok true
                end
              end
          end
        end
    end.

Definition get_admin_metadata_from_uri (uri : pyval) : M (option pydict) :=
  db ← session;
  match head (filter (λ ds, VStr (Dataset_uri ds) = bound uri) (datasets db)) with
  | None => mret None
  | Some dataset => mret (Some (Dataset_as_dict db dataset))
  end.

Definition register_dataset_admin_metadata (admin_metadata : nat) : M unit :=
  b ← dict_getitem admin_metadata "base_uri";
  base_uri ← get_base_uri_obj b;
  uri ← dict_getitem admin_metadata "uri";
  uuid ← dict_getitem admin_metadata "uuid";
  name ← dict_getitem admin_metadata "name";
  uri ← column_str uri;
  uuid ← column_str uuid;
  name ← column_str name;
  session_add_dataset (mkDataset uri (BaseURI_id base_uri) uuid name) ;;
  commit.

Definition _register_dataset_descriptive_metadata (dataset_info : nat)
  : M (option pyval) :=
  d ← deref dataset_info;
  valid ← lift (dataset_info_is_valid d);
  if negb valid then mret None
  else
    uuid ← dict_getitem dataset_info "uuid";
    uri ← dict_getitem dataset_info "uri";
    let query : pydict := <["uuid" := uuid]> (<["uri" := uri]> ∅) in
    exists_ ← collection_find_one query;
    match exists_ with
    | None => collection_insert_one dataset_info
    | Some _ => collection_find_one_and_replace query dataset_info ;; mret ()
    end ;;
    has_id ← dict_contains dataset_info "_id";
    (if has_id : bool then dict_delitem dataset_info "_id" else mret ()) ;;
    uuid ← dict_getitem dataset_info "uuid";
    mret (Some uuid).

Definition register_dataset_descriptive_metadata (dataset_info : nat) : M unit :=
  b ← dict_getitem dataset_info "base_uri";
  get_base_uri_obj b ;;
  _register_dataset_descriptive_metadata dataset_info ;;
  mret ().

Definition register_dataset (dataset_info : nat) : M pyval :=
  d ← deref dataset_info;
  valid ← lift (dataset_info_is_valid d);
  if negb valid then raise (ValidationError (Dataset_info_not_valid d))
  else
    base_uri ← dict_getitem dataset_info "base_uri";
    registered ← base_uri_exists base_uri;
    if negb registered
    then raise (ValidationError (Base_URI_is_not_registered base_uri))
    else
      uri ← dict_getitem dataset_info "uri";
      admin ← get_admin_metadata_from_uri uri;
      match admin with
      | None => register_dataset_admin_metadata dataset_info
      | Some _ => mret ()
      end ;;
      register_dataset_descriptive_metadata dataset_info ;;
      dict_getitem dataset_info "uri".

(** *** Dataset information retrieval helper functions *)

(** [item["readme"]]: [None] has no items. *)
Definition item_getitem (item : option pydict) (k : string) : outcome pyval :=
  match item with
  | None => Raise TypeError
  | Some d => getitem d k
  end.

Definition get_readme_from_uri (uri : pyval) : M pyval :=
  item ← collection_find_one (<["uri" := uri]> ∅);
  lift (item_getitem item "readme").

Definition list_admin_metadata_in_base_uri (base_uri_str : pyval)
  : M (list pydict) :=
  base_uri ← get_base_uri_obj base_uri_str;
  db ← session;
  mret (Dataset_as_dict db <$> BaseURI_datasets db base_uri).

(** ** The vocabulary of the specification *)

(** The field, when present, holds a string. *)
Definition str_field (d : pydict) (k : string) : bool :=
  match d !! k with
  | Some (VStr _) | None => true
  | Some _ => false
  end.

(** The specification's conditions on a payload (§4.3, step 1). *)
Definition validation_conditions (d : pydict) : Prop :=
  (∀ k, k ∈ DATASET_INFO_REQUIRED_KEYS → is_Some (d !! k))
  ∧ d !! "type" = Some (VStr "dataset")
  ∧ (∃ u, d !! "uuid" = Some (VStr u) ∧ String.length u = 36)
  ∧ (∃ b, d !! "base_uri" = Some (VStr b) ∧ ¬ ∃ p, b = p +:+ "/").

(** The base URI has a row in the admin store. *)
Definition base_uri_registered (db : sql_db) (s : string) : Prop :=
  s ∈ BaseURI_base_uri <$> base_uris db.

(** The key of a descriptive document, as the filter the code builds. *)
Definition dataset_key (uuid uri : pyval) : pydict :=
  <["uuid" := uuid]> (<["uri" := uri]> ∅).

(** The replacement of [old] by [d]: [d] under the [_id] of [old]. *)
Definition keep_id (old d : pydict) : pydict :=
  match doc_id old with
  | Some oid => <["_id" := oid]> d
  | None => d
  end.

(** The specification's [upsert(key, document)] (§4.2): replace the first
    document under the key where it stands, or insert the document as new. *)
Definition upsert (q d : pydict) (coll : list pydict) : list pydict :=
  match list_find (λ x, matches q x) coll with
  | Some (i, old) => <[i := keep_id old d]> coll
  | None => coll ++ [<["_id" := VObjectId (fresh_oid coll)]> d]
  end.

(** The specification's admin reconciliation (§4.3, step 3): insert the
    record unless one with its uri exists. *)
Definition reconcile_admin (ds : Dataset) (db : sql_db) : sql_db :=
  match head (filter (λ x, VStr (Dataset_uri x) = VStr (Dataset_uri ds)) (datasets db)) with
  | Some _ => db
  | None => mkSqlDb (users db) (base_uris db) (datasets db ++ [ds])
              (search_permissions db) (register_permissions db)
  end.

(** What the session has committed after the admin reconciliation: the
    reconciled store when a record was inserted, what it was otherwise. *)
Definition reconcile_committed (ds : Dataset) (db committed : sql_db) : sql_db :=
  match head (filter (λ x, VStr (Dataset_uri x) = VStr (Dataset_uri ds)) (datasets db)) with
  | Some _ => committed
  | None => reconcile_admin ds db
  end.

(** A payload that passes validation, with strings where the admin record
    takes its columns from and without a store identifier of its own. *)
Record registrable (d : pydict) (bs s u n : string) : Prop := {
  reg_valid : dataset_info_is_valid d = Ok true;
  reg_base_uri : d !! "base_uri" = Some (VStr bs);
  reg_uri : d !! "uri" = Some (VStr s);
  reg_uuid : d !! "uuid" = Some (VStr u);
  reg_name : d !! "name" = Some (VStr n);
  reg_no_id : d !! "_id" = None
}.

(** The logical key of a stored document (§3). *)
Definition doc_key (x : pydict) : option pyval * option pyval :=
  (x !! "uuid", x !! "uri").



(** The user a username denotes: the first row with that name. *)
Definition find_user (db : sql_db) (username : pyval) : option User :=
  head (filter (λ u, VStr (User_username u) = username) (users db)).

Definition find_base_uri (db : sql_db) (base_uri : pyval) : option BaseURI :=
  head (filter (λ b, VStr (BaseURI_base_uri b) = base_uri) (base_uris db)).

(** The permission edge between a username and a base URI (§3): the base URI
    is among those related to the user. *)
Definition has_permission (perms : list (nat * nat)) (db : sql_db)
    (username : pyval) (base_uri : string) : Prop :=
  ∃ u, find_user db username = Some u
       ∧ base_uri ∈ BaseURI_base_uri <$> related_base_uris perms db u.

Definition has_search (db : sql_db) : pyval → string → Prop :=
  has_permission (search_permissions db) db.

Definition has_register (db : sql_db) : pyval → string → Prop :=
  has_permission (register_permissions db) db.

(** The rows a loop of [update_permissions] asks for: one for each listed
    username that denotes a user. *)
Definition granted_rows (db : sql_db) (base : BaseURI) (usernames : list pyval)
  : list (nat * nat) :=
  omap (λ username, (λ u, (User_id u, BaseURI_id base)) <$> find_user db username)
       usernames.

(** Unique keys of the admin store (§3). *)
Record unique_keys (db : sql_db) : Prop := {
  unique_user_id : NoDup (User_id <$> users db);
  unique_username : NoDup (User_username <$> users db);
  unique_base_uri_id : NoDup (BaseURI_id <$> base_uris db);
  unique_dataset_uri : NoDup (Dataset_uri <$> datasets db)
}.

(** A permission relation with one more row, unless it holds the row; and
    with the rows of a list, one after the other. *)
Definition add_edge (perms : list (nat * nat)) (e : nat * nat) : list (nat * nat) :=
  if bool_decide (e ∈ perms) then perms else perms ++ [e].

Definition add_edges (perms rows : list (nat * nat)) : list (nat * nat) :=
  foldl add_edge perms rows.

(** The world with more rows in a permission relation. *)
Definition add_search_rows (rows : list (nat * nat)) (w : world) : world :=
  mkWorld (mkSqlDb (users (w_sql w)) (base_uris (w_sql w)) (datasets (w_sql w))
             (add_edges (search_permissions (w_sql w)) rows)
             (register_permissions (w_sql w)))
    (w_committed w) (w_mongo w) (w_heap w).

Definition add_register_rows (rows : list (nat * nat)) (w : world) : world :=
  mkWorld (mkSqlDb (users (w_sql w)) (base_uris (w_sql w)) (datasets (w_sql w))
             (search_permissions (w_sql w))
             (add_edges (register_permissions (w_sql w)) rows))
    (w_committed w) (w_mongo w) (w_heap w).

(** The admin store after [update_permissions] has granted [base] to the
    usernames of its two lists. *)
Definition grant_all (db : sql_db) (base : BaseURI) (S R : list pyval) : sql_db :=
  mkSqlDb (users db) (base_uris db) (datasets db)
    (add_edges (search_permissions db) (granted_rows db base S))
    (add_edges (register_permissions db) (granted_rows db base R)).

(** The dataset's owning base URI is in the user's search scope. *)
Definition in_search_scope (db : sql_db) (u : User) (ds : Dataset) : Prop :=
  Dataset_base_uri_id ds ∈ BaseURI_id <$> User_search_base_uris db u.

#[global] Instance in_search_scope_dec db u ds : Decision (in_search_scope db u ds).
Proof. unfold in_search_scope. apply _. Defined.

(** What [find(q, {"_id": False})] yields on a collection. *)
Definition find_docs (q : pydict) (coll : list pydict) : list pydict :=
  delete "_id" <$> filter (λ d, matches q d) coll.

(** The filter of the search under one base URI: the caller's, with
    [base_uri] set to that base URI. *)
Definition pinned (qd : pydict) (b : BaseURI) : pydict :=
  <["base_uri" := VStr (BaseURI_base_uri b)]> qd.

(** ** The vocabulary of the further properties *)

(** An entry of the list [register_users] takes, well formed: the username
    is a string and [is_admin], when given, a truth value. *)
Definition user_entry (user : pydict) : Prop :=
  (∃ s, user !! "username" = Some (VStr s))
  ∧ (user !! "is_admin" = None ∨ ∃ b, user !! "is_admin" = Some (VBool b)).

(** The truth value of [is_admin] in a well-formed entry. *)
Definition entry_is_admin (user : pydict) : bool :=
  match user !! "is_admin" with
  | Some (VBool b) => b
  | _ => false
  end.

(** The admin store with one more user, unless the name is taken. *)
Definition with_user (db : sql_db) (username : string) (is_admin : bool) : sql_db :=
  if existsb (λ u, bool_decide (VStr (User_username u) = VStr username)) (users db)
  then db
  else mkSqlDb (users db ++ [mkUser (next_id (User_id <$> users db)) username is_admin])
         (base_uris db) (datasets db) (search_permissions db) (register_permissions db).

(** The session after one round of the loop of [register_users]. *)
Definition register_user_step (w : world) (user : pydict) : world :=
  match user !! "username" with
  | Some (VStr s) =>
      mkWorld (with_user (w_sql w) s (entry_is_admin user)) (w_committed w)
        (w_mongo w) (w_heap w)
  | _ => w
  end.

(** A filter without operators that the document [d] satisfies, but for what
    it asks of [base_uri]. *)
Definition plain_filter_of (qd d : pydict) : Prop :=
  ∀ k v, qd !! k = Some v →
    k = "base_uri"
    ∨ (String.prefix "$" k = false ∧ is_dict v = false ∧ d !! k = Some v).

(** The admin record a uri denotes: the first row under that uri. *)
Definition find_dataset (db : sql_db) (uri : pyval) : option Dataset :=
  head (filter (λ ds, VStr (Dataset_uri ds) = bound uri) (datasets db)).

End Model.

(** ** [app/routes.py] *)

(** What Flask makes of a view: the value the view returns is the body of a
    200 response, [abort(code)] raises the HTTP exception that becomes the
    response [code], and any other exception becomes a 500. *)
Record response : Type := mkResponse {
  status : nat;
  body : pyval
}.

Definition abort {A} (code : nat) : M A := raise (HTTPException code).

Definition flask_response (view : M pyval) (w : world) : response * world :=
  match view w with
  | (Ok v, w') => (mkResponse 200 v, w')
  | (Raise (HTTPException code), w') => (mkResponse code VNone, w')
  | (Raise _, w') => (mkResponse 500 VNone, w')
  end.

Module routes.

Section Routes.

(** [utils.register_dataset(app.config["mongo_collection"], dataset_info)]:
    the module [app/utils.py] is not among the sources; the view is written
    over whatever that function is. *)
Variable utils_register_dataset : nat → M (option pyval).

(** [GET /]. *)
Definition index : M pyval :=
  n ← collection_count;
  mret (VStr (pretty n +:+ " registered datasets")).

(** [POST /register_dataset]; [request_json] is [request.get_json()]. *)
Definition register_dataset (request_json : pydict) : M pyval :=
  dataset_info ← new_dict request_json;
  uuid ← utils_register_dataset dataset_info;
  match uuid with
  | None => abort 400
  | Some uuid => mret uuid
  end.

End Routes.

End routes.

(** ** [app/__init__.py] *)

(** What [jsonify] can render: the values of JSON; an [ObjectId] is not one
    of them. *)
Fixpoint json_serializable (v : pyval) : bool :=
  match v with
  | VObjectId _ => false
  | VList l => forallb json_serializable l
  | VDict kvs => forallb (λ kv, json_serializable kv.2) kvs
  | _ => true
  end.

(** [jsonify(d)]: the body of the response, the dict as a JSON object. *)
Definition jsonify (d : pydict) : outcome pyval :=
  if forallb (λ kv, json_serializable kv.2) (map_to_list d)
  then Ok (VDict (map_to_list d))
  else Raise TypeError.

Module app_init.

(** [GET /lookup_dataset_info/<uuid>].  The dict that [find_one] returns is
    the view's own object. *)
Definition lookup_dataset_info (uuid : pyval) : M pyval :=
  item ← collection_find_one_any;
  match item with
  | None => raise TypeError
  | Some d =>
      dataset_info ← new_dict d;
      dict_delitem dataset_info "_id" ;;
      d' ← deref dataset_info;
      lift (jsonify d')
  end.

End app_init.

(** ** Example data *)

(** A store whose filters use no operator. *)
Definition no_operators : string → pyval → pydict → bool := λ _ _ _, false.

(** An admin record as a dict of its columns, the base URI by its name. *)
Definition columns_as_dict (db : sql_db) (ds : Dataset) : pydict :=
  <["base_uri" :=
      match head (filter (λ b, BaseURI_id b = Dataset_base_uri_id ds) (base_uris db)) with
      | Some b => VStr (BaseURI_base_uri b)
      | None => VNone
      end]>
  (<["name" := VStr (Dataset_name ds)]>
  (<["uri" := VStr (Dataset_uri ds)]>
  (<["uuid" := VStr (Dataset_uuid ds)]> ∅))).

Definition example_uuid : string := "aaaaaaaa-bbbb-cccc-dddd-eeeeeeeeeeee".

Definition other_uuid : string := "11111111-2222-3333-4444-555555555555".

(** The payload of the specification's example (§8). *)
Definition example_payload : pydict :=
  <["uuid" := VStr example_uuid]>
  (<["base_uri" := VStr "s3://bucket"]>
  (<["uri" := VStr "s3://bucket/abc"]>
  (<["name" := VStr "n"]>
  (<["type" := VStr "dataset"]>
  (<["readme" := VStr "r"]> ∅))))).

(** Two users and two base URIs; alice may search [s3://bucket]; one dataset,
    under [s3://other]. *)
Definition example_db : sql_db :=
  mkSqlDb [mkUser 1 "alice" false; mkUser 2 "bob" false]
    [mkBaseURI 1 "s3://bucket"; mkBaseURI 2 "s3://other"]
    [mkDataset "s3://other/xyz" 2 other_uuid "elsewhere"]
    [(1, 1)] [].

(** One stored document, under [s3://bucket]. *)
Definition example_document : pydict :=
  <["_id" := VObjectId 7]> example_payload.

(** The caller's dicts of the examples: a payload at 0, a payload that lacks
    its readme at 1, a filter at 2 that asks for a base URI of its own. *)
Definition example_heap : gmap nat pydict :=
  <[0 := example_payload]>
  (<[1 := delete "readme" example_payload]>
  (<[2 := <["base_uri" := VStr "s3://other"]> (<["name" := VStr "n"]> ∅)]> ∅)).

Definition example_world : world :=
  mkWorld example_db example_db [example_document] example_heap.

(** The same admin store before any registration: no document yet. *)
Definition fresh_world : world :=
  mkWorld example_db example_db [] example_heap.

Definition example_permissions (base_uri : string) (search register : list pyval)
  : pydict :=
  <["base_uri" := VStr base_uri]>
  (<["users_with_search_permissions" := VList search]>
  (<["users_with_register_permissions" := VList register]> ∅)).

(** Two registrations under one uri with two uuids, from empty stores. *)
Definition empty_world : world :=
  mkWorld (mkSqlDb [] [] [] [] []) (mkSqlDb [] [] [] [] []) [] ∅.

Definition two_uuids_one_uri : M pyval :=
  register_base_uri (VStr "s3://bucket") ;;
  first ← new_dict example_payload;
  register_dataset no_operators columns_as_dict first ;;
  second ← new_dict (<["uuid" := VStr other_uuid]> example_payload);
  register_dataset no_operators columns_as_dict second.

(** The example of the specification (§8): a base URI and a user are
    registered, the user is granted search, the payload is registered, and
    the user searches by name. *)
Definition specification_example : M (pyval * list pydict) :=
  register_base_uri (VStr "s3://bucket") ;;
  register_users [ <["username" := VStr "alice"]> ∅ ] ;;
  update_permissions (example_permissions "s3://bucket" [VStr "alice"] []) ;;
  dataset_info ← new_dict example_payload;
  token ← register_dataset no_operators columns_as_dict dataset_info;
  query ← new_dict (<["name" := VStr "n"]> ∅);
  found ← search_datasets_by_user no_operators (VStr "alice") query;
  mret (token, found).

(** The world those two registrations leave. *)
Definition two_uuids_world : world := (two_uuids_one_uri empty_world).2.

(** The entries of a call of [register_users]: alice, who is registered, now
    as an administrator, and carol, who is not registered. *)
Definition example_users : list pydict :=
  [ <["username" := VStr "alice"]> (<["is_admin" := VBool true]> ∅);
    <["username" := VStr "carol"]> ∅ ].






(** A payload whose uuid is a number. *)
Definition mistyped_payload : pydict := <["uuid" := VInt 5]> example_payload.

Definition mistyped_world : world :=
  mkWorld example_db example_db [] (<[0 := mistyped_payload]> ∅).

(** Permissions that lack the list of users with register permissions. *)
Definition search_only_permissions : pydict :=
  <["base_uri" := VStr "s3://other"]>
  (<["users_with_search_permissions" := VList [VStr "bob"; VStr "nobody"]]> ∅).


(** A base URI as a dict of its columns. *)
Definition columns_of_base_uri (db : sql_db) (b : BaseURI) : pydict :=
  <["base_uri" := VStr (BaseURI_base_uri b)]> ∅.

Arguments bound !v /.
Arguments raise {A} e w /.
Arguments lift {A} o w /.

(** One step of a run: the monad's operations and the primitives of the
    session and of the heap are unfolded and computed. *)
Ltac run :=
  unfold mbind, M_bind, mret, M_ret, deref, heap_dict, session, collection,
    dict_getitem, dict_contains, getitem, session_add_dataset,
    session_add_base_uri, session_add_user, search_base_uris_append,
    register_base_uris_append, set_session, commit, column_str, column_bool;
  cbn.

(** A decidable proposition about concrete data, settled by evaluation. *)
Ltac by_evaluation :=
  match goal with
  | |- ?P => apply (@bool_decide_unpack P _); vm_compute; exact I
  end.

(** * Properties *)

(** ** Strings *)

Lemma str_endswith_slash_cons c s :
  s ≠ "" → str_endswith (String c s) "/" = str_endswith s "/".
Proof.
  intros Hs. destruct s as [|c' s']; [done|].
  unfold str_endswith. cbn [String.length Nat.leb andb].
  replace (S (S (String.length s')) - 1) with (S (String.length s')) by lia.
  replace (S (String.length s') - 1) with (String.length s') by lia.
  reflexivity.
Qed.

(** [s.endswith("/")] holds exactly of the strings that are some prefix
    followed by a slash. *)
Lemma str_endswith_slash s :
  str_endswith s "/" = true ↔ ∃ p, s = p +:+ "/".
Proof.
  induction s as [|c s IH].
  - split; [done|]. intros [[|c p] Hp]; simplify_eq/=.
  - destruct (decide (s = "")) as [->|Hs].
    + change (str_endswith (String c "") "/") with (String.eqb (String c "") "/").
      rewrite String.eqb_eq. split.
      * intros ->. by exists "".
      * intros [[|c' p] Hp]; cbn in Hp; simplify_eq; try done.
        destruct p; done.
    + rewrite str_endswith_slash_cons by done. rewrite IH. split.
      * intros [p ->]. by exists (String c p).
      * intros [[|c' p] Hp]; cbn in Hp.
        { injection Hp as _ Hp. done. }
        injection Hp as _ Hp. by exists p.
Qed.

(** ** Filters of the descriptive store *)

Section Properties.

Variable mongo_op : string → pyval → pydict → bool.
Variable Dataset_as_dict : sql_db → Dataset → pydict.

Lemma matches_spec (q d : pydict) :
  matches mongo_op q d = true ↔
  ∀ k v, q !! k = Some v → field_match mongo_op k v d = true.
Proof.
  unfold matches. rewrite forallb_forall. split.
  - intros H k v Hkv. apply (H (k, v)).
    apply list_elem_of_In, elem_of_map_to_list, Hkv.
  - intros H [k v] Hin. apply H.
    by apply elem_of_map_to_list, list_elem_of_In.
Qed.

(** A filter entry with a plain field name and a string asks for equality. *)
Lemma field_match_str (k s : string) (d : pydict) :
  String.prefix "$" k = false →
  field_match mongo_op k (VStr s) d = true ↔ d !! k = Some (VStr s).
Proof.
  intros Hk. unfold field_match. rewrite Hk. cbn.
  rewrite (bool_decide_eq_false_2 (_ ∧ _)) by (by intros [? _]).
  by rewrite orb_false_r, bool_decide_eq_true.
Qed.

Lemma head_filter_None {A} (P : A → Prop) `{!∀ x, Decision (P x)} (l : list A) :
  head (filter P l) = None ↔ ∀ x, x ∈ l → ¬ P x.
Proof.
  induction l as [|y l IH].
  - split; [|done]. intros _ x Hx. by apply not_elem_of_nil in Hx.
  - rewrite filter_cons. destruct (decide (P y)) as [Hy|Hy]; cbn.
    + split; [done|]. intros Hall. destruct (Hall y); [left|done].
    + rewrite IH. split.
      * intros Hall x Hx. apply elem_of_cons in Hx as [->|Hx]; auto.
      * intros Hall x Hx. apply Hall. by right.
Qed.

Lemma filter_none {A} (P : A → Prop) `{!∀ x, Decision (P x)} (l : list A) :
  (∀ x, x ∈ l → ¬ P x) → filter P l = [].
Proof.
  intros Hall. induction l as [|y l IH]; [done|].
  rewrite filter_cons_False by (apply Hall; left).
  apply IH. intros x Hx. apply Hall. by right.
Qed.

Lemma head_filter_elem {A} (P : A → Prop) `{!∀ x, Decision (P x)} (l : list A) x :
  head (filter P l) = Some x → x ∈ l ∧ P x.
Proof.
  intros Hx. apply head_Some_elem_of in Hx.
  by apply list_elem_of_filter in Hx as [? ?].
Qed.

(** ** Validation of a registration payload *)

Lemma required_keys_spec (d : pydict) :
  forallb (λ key, bool_decide (is_Some (d !! key))) DATASET_INFO_REQUIRED_KEYS = true
  ↔ ∀ k, k ∈ DATASET_INFO_REQUIRED_KEYS → is_Some (d !! k).
Proof.
  rewrite forallb_forall. split.
  - intros H k Hk. apply list_elem_of_In, H in Hk. by apply bool_decide_eq_true in Hk.
  - intros H k Hk. apply bool_decide_eq_true, H, list_elem_of_In, Hk.
Qed.

(** On payloads whose [uuid] is a string, the validator accepts exactly the
    payloads that meet the specification's conditions. *)
Lemma dataset_info_is_valid_true (d : pydict) :
  str_field d "uuid" = true →
  dataset_info_is_valid d = Ok true ↔ validation_conditions d.
Proof.
  intros Hu. unfold dataset_info_is_valid, validation_conditions.
  destruct (forallb _ DATASET_INFO_REQUIRED_KEYS) eqn:Hkeys; cbn [negb].
  2:{ split; [done|]. intros [Hk _]. apply (proj2 (required_keys_spec d)) in Hk. congruence. }
  pose proof (proj1 (required_keys_spec d) Hkeys) as Hkeys'; clear Hkeys; rename Hkeys' into Hkeys.
  unfold getitem, str_field in *.
  destruct (d !! "type") as [t|] eqn:Ht; [|split; [done|by intros (_&?&_)]].
  destruct (decide (t = VStr "dataset")) as [->|Hne].
  2:{ rewrite bool_decide_eq_false_2 by done. cbn. split; [done|].
      intros (_&?&_). congruence. }
  rewrite bool_decide_eq_true_2 by done. cbn [negb].
  destruct (d !! "uuid") as [u|] eqn:Hu'; [|split; [done|by intros (_&_&(?&?&_)&_)]].
  destruct u as [| | |u| | |]; try done. cbn [py_len].
  destruct (String.length u =? 36)%nat eqn:Hlen; cbn [negb].
  2:{ apply Nat.eqb_neq in Hlen. split; [done|].
      intros (_&_&(?&?&?)&_). congruence. }
  apply Nat.eqb_eq in Hlen.
  destruct (d !! "base_uri") as [b|] eqn:Hb; [|split; [done|by intros (_&_&_&(?&?&_))]].
  destruct b as [| | |b| | |]; cbn [py_endswith];
    try (split; [done|by intros (_&_&_&(?&?&_))]).
  destruct (str_endswith b "/") eqn:Hend.
  - split; [done|]. intros (_&_&_&(b'&?&Hb')). simplify_eq.
    destruct Hb'. by apply str_endswith_slash.
  - split; [|done]. intros _. split_and!; [done|done|by eexists|].
    exists b. split; [done|]. intros Hp%str_endswith_slash. congruence.
Qed.

(** On payloads whose [uuid] and [base_uri] are strings, the validator
    answers; it does not fail. *)
Lemma dataset_info_is_valid_total (d : pydict) :
  str_field d "uuid" = true → str_field d "base_uri" = true →
  ∃ b, dataset_info_is_valid d = Ok b.
Proof.
  intros Hu Hb. unfold dataset_info_is_valid.
  destruct (forallb _ DATASET_INFO_REQUIRED_KEYS) eqn:Hkeys; cbn [negb]; [|by eexists].
  pose proof (proj1 (required_keys_spec d) Hkeys) as Hkeys'; clear Hkeys; rename Hkeys' into Hkeys.
  destruct (Hkeys "type") as [t Ht]; [set_solver|].
  destruct (Hkeys "uuid") as [u Hu']; [set_solver|].
  destruct (Hkeys "base_uri") as [b Hb']; [set_solver|].
  unfold getitem, str_field in *. rewrite Ht, Hu', Hb' in *.
  destruct (bool_decide (t = VStr "dataset")); cbn [negb]; [|by eexists].
  destruct u; try done. cbn [py_len].
  destruct (negb _); [by eexists|].
  destruct b; try done. cbn [py_endswith].
  destruct (str_endswith _ _); by eexists.
Qed.

(** ** Registration: the runs that are refused *)

Lemma register_dataset_invalid (w : world) (dataset_info : nat) :
  dataset_info_is_valid (heap_dict w dataset_info) = Ok false →
  register_dataset mongo_op Dataset_as_dict dataset_info w
  = (Raise (ValidationError (Dataset_info_not_valid (heap_dict w dataset_info))), w).
Proof.
  intros Hv. unfold register_dataset, mbind, M_bind, deref. cbn.
  by rewrite Hv.
Qed.

Lemma register_dataset_unregistered (w : world) (dataset_info : nat) (b : pyval) :
  dataset_info_is_valid (heap_dict w dataset_info) = Ok true →
  heap_dict w dataset_info !! "base_uri" = Some b →
  (∀ row, row ∈ base_uris (w_sql w) → VStr (BaseURI_base_uri row) ≠ b) →
  register_dataset mongo_op Dataset_as_dict dataset_info w
  = (Raise (ValidationError (Base_URI_is_not_registered b)), w).
Proof.
  intros Hv Hb Hrows. unfold register_dataset, mbind, M_bind, deref. cbn.
  rewrite Hv. cbn.
  unfold dict_getitem, base_uri_exists, _get_base_uri_obj, mbind, M_bind, deref,
    getitem, session. cbn.
  rewrite Hb. cbn.
  by rewrite (proj2 (head_filter_None _ _) Hrows).
Qed.

(** X24. Whatever the payload holds, a registration whose validator does
    not answer [True], be it [False] or an exception, ends in an exception
    and leaves the world as it found it. *)
Lemma register_dataset_not_valid (w : world) (dataset_info : nat) :
  dataset_info_is_valid (heap_dict w dataset_info) ≠ Ok true →
  ∃ e, register_dataset mongo_op Dataset_as_dict dataset_info w = (Raise e, w).
Proof.
  intros Hv. unfold register_dataset, mbind, M_bind, deref. cbn.
  destruct (dataset_info_is_valid _) as [[]|e]; [done| |]; by eexists.
Qed.

(** C1, as the code has it. Whatever the payload, with string values under
    [uuid] and [base_uri] where it has them, [register_dataset] raises
    [ValidationError] and leaves the whole world as it found it, admin store
    and descriptive store included, unless the required keys are present, the
    type is ["dataset"], the uuid has 36 characters and the base URI has no
    trailing slash; and it does the same when the payload's base URI is not
    registered. *)
Theorem register_dataset_aborts_before_any_write (w : world) (dataset_info : nat) :
  str_field (heap_dict w dataset_info) "uuid" = true →
  str_field (heap_dict w dataset_info) "base_uri" = true →
  ¬ validation_conditions (heap_dict w dataset_info)
  ∨ (∃ s, heap_dict w dataset_info !! "base_uri" = Some (VStr s)
          ∧ ¬ base_uri_registered (w_sql w) s) →
  ∃ msg, register_dataset mongo_op Dataset_as_dict dataset_info w
         = (Raise (ValidationError msg), w).
Proof.
  intros Hu Hb Hbad.
  destruct (dataset_info_is_valid_total _ Hu Hb) as [[] Hv].
  - destruct Hbad as [Hbad|(s & Hs & Hunreg)].
    + destruct Hbad. by apply dataset_info_is_valid_true.
    + eexists. apply (register_dataset_unregistered _ _ _ Hv Hs).
      intros row Hrow Heq. apply Hunreg. unfold base_uri_registered.
      injection Heq as <-. by apply list_elem_of_fmap_2.
  - eexists. by apply register_dataset_invalid.
Qed.

(** ** Reading a readme *)

(** C10. When no document of the collection has the uri, [find_one] yields
    [None] and the item access on it fails with the interpreter's
    [TypeError]: the function returns no value, [None] or other, and raises
    neither of the package's own errors; the world is as before. *)
Theorem get_readme_from_uri_missing (w : world) (uri : string) :
  (∀ d, d ∈ w_mongo w → d !! "uri" ≠ Some (VStr uri)) →
  collection_find_one mongo_op (<["uri" := VStr uri]> ∅) w = (Ok None, w)
  ∧ ∃ e, get_readme_from_uri mongo_op (VStr uri) w = (Raise e, w)
         ∧ e = TypeError ∧ is_typed_error e = false.
Proof.
  intros Hnone.
  assert (Hfind : collection_find_one mongo_op (<["uri" := VStr uri]> ∅) w = (Ok None, w)).
  { unfold collection_find_one, mbind, M_bind, collection. cbn.
    rewrite (proj2 (head_filter_None _ _)); [done|].
    intros d Hd Hm. apply (Hnone d Hd). apply Is_true_eq_true in Hm.
    apply (field_match_str "uri"); [done|].
    apply (proj1 (matches_spec _ _) Hm). apply lookup_insert_eq. }
  split; [done|]. exists TypeError. split_and!; [|done..].
  unfold get_readme_from_uri, mbind, M_bind. by rewrite Hfind.
Qed.

(** ** Registration: the runs that succeed *)

Lemma head_filter_list_find {A} (P : A → Prop) `{!∀ x, Decision (P x)} (l : list A) :
  head (filter P l) = snd <$> list_find P l.
Proof.
  induction l as [|x l IH]; [done|].
  rewrite filter_cons. cbn. destruct (decide (P x)); [done|].
  rewrite IH. by destruct (list_find P l) as [[]|].
Qed.

Lemma next_id_fresh (ids : list nat) (n : nat) : n ∈ ids → n < next_id ids.
Proof.
  unfold next_id. induction 1 as [|x y ids _ IH]; cbn; lia.
Qed.

Lemma fresh_oid_fresh (coll : list pydict) (d : pydict) :
  d ∈ coll → doc_id d ≠ Some (VObjectId (fresh_oid coll)).
Proof.
  intros Hd Heq.
  assert (fresh_oid coll ∈ oid_numbers coll) as Hin%next_id_fresh.
  { unfold oid_numbers. apply list_elem_of_omap. exists d. by rewrite Heq. }
  unfold fresh_oid in Hin. lia.
Qed.

Lemma insert_one_no_duplicate (coll : list pydict) (d : pydict) :
  existsb (λ stored, bool_decide
             (doc_id stored = doc_id (<["_id" := VObjectId (fresh_oid coll)]> d))) coll
  = false.
Proof.
  apply not_true_is_false. intros (stored & Hin & Heq)%existsb_exists.
  apply bool_decide_eq_true in Heq. apply list_elem_of_In in Hin.
  unfold doc_id at 2 in Heq. rewrite lookup_insert_eq in Heq.
  by apply fresh_oid_fresh in Hin.
Qed.

Lemma descriptive_metadata_run sql committed mongo heap (l : nat) (d : pydict) (u s : pyval) :
  heap !! l = Some d →
  dataset_info_is_valid d = Ok true →
  d !! "uuid" = Some u → d !! "uri" = Some s → d !! "_id" = None →
  _register_dataset_descriptive_metadata mongo_op l (mkWorld sql committed mongo heap)
  = (Ok (Some u), mkWorld sql committed (upsert mongo_op (dataset_key u s) d mongo) heap).
Proof.
  intros Hl Hv Hu Hs Hid.
  unfold _register_dataset_descriptive_metadata, mbind, M_bind, deref, heap_dict.
  cbn. rewrite Hl. cbn. rewrite Hv. cbn.
  unfold dict_getitem, mbind, M_bind, deref, heap_dict, getitem. cbn.
  rewrite Hl. cbn. rewrite Hu, Hs. cbn.
  unfold collection_find_one, mbind, M_bind, collection. cbn.
  fold (dataset_key u s). unfold upsert.
  rewrite head_filter_list_find.
  destruct (list_find _ mongo) as [[i old]|] eqn:Hfind; cbn.
  - unfold collection_find_one_and_replace, mbind, M_bind, deref, heap_dict, collection.
    cbn. rewrite Hl. cbn. rewrite Hfind.
    rewrite bool_decide_eq_true_2 by (by left). cbn.
    unfold dict_contains, mbind, M_bind, deref, heap_dict. cbn.
    rewrite Hl. cbn. rewrite Hid.
    rewrite bool_decide_eq_false_2 by (by intros [? ?]). cbn.
    by rewrite Hl; cbn; rewrite Hu.
  - unfold collection_insert_one, mbind, M_bind, deref, heap_dict, collection.
    cbn. rewrite Hl. cbn. unfold doc_id at 1. rewrite Hid. cbn.
    rewrite insert_one_no_duplicate. cbn.
    unfold dict_contains, mbind, M_bind, deref, heap_dict. cbn.
    rewrite lookup_insert_eq. cbn. rewrite lookup_insert_eq.
    rewrite bool_decide_eq_true_2 by done. cbn.
    unfold dict_delitem, mbind, M_bind, deref, heap_dict. cbn.
    rewrite lookup_insert_eq. cbn. rewrite lookup_insert_eq. cbn.
    rewrite lookup_insert_eq. cbn.
    rewrite insert_insert_eq, delete_insert_id by done.
    rewrite Hu. cbn. by rewrite (insert_id heap l d).
Qed.

Lemma no_record_under_uri (db : sql_db) (s : string) :
  head (filter (λ ds, VStr (Dataset_uri ds) = VStr s) (datasets db)) = None →
  s ∉ Dataset_uri <$> datasets db.
Proof.
  intros Hhead (x & -> & Hx)%list_elem_of_fmap.
  eapply head_filter_None in Hhead; [|done]. by apply Hhead.
Qed.

(** The run of a registration that passes the two checks: the admin store
    is reconciled, the document upserted, the uri returned; the payload's
    dict is what it was. *)
Lemma register_dataset_run sql committed mongo heap (l : nat) (d : pydict)
    (bs s u n : string) (brow : BaseURI) :
  heap !! l = Some d →
  registrable d bs s u n →
  head (filter (λ b, VStr (BaseURI_base_uri b) = VStr bs) (base_uris sql)) = Some brow →
  let ds := mkDataset s (BaseURI_id brow) u n in
  register_dataset mongo_op Dataset_as_dict l (mkWorld sql committed mongo heap)
  = (Ok (VStr s),
     mkWorld (reconcile_admin ds sql) (reconcile_committed ds sql committed)
       (upsert mongo_op (dataset_key (VStr u) (VStr s)) d mongo) heap).
Proof.
  intros Hl [Hv Hb Hs Hu Hn Hid] Hbrow ds. subst ds.
  pose proof (descriptive_metadata_run sql committed mongo heap _ _ _ _
                Hl Hv Hu Hs Hid) as Hdesc.
  unfold reconcile_committed. unfold reconcile_admin. cbn [Dataset_uri].
  unfold register_dataset, base_uri_exists, get_admin_metadata_from_uri,
    register_dataset_admin_metadata, register_dataset_descriptive_metadata,
    get_base_uri_obj, _get_base_uri_obj.
  repeat (progress (run; rewrite ?Hl, ?Hv, ?Hb, ?Hs, ?Hu, ?Hn, ?Hbrow)).
  destruct (head (filter _ (datasets sql))) as [existing|] eqn:Hadmin.
  - repeat (progress (run; rewrite ?Hl, ?Hv, ?Hb, ?Hs, ?Hu, ?Hn, ?Hbrow, ?Hdesc)).
    done.
  - pose proof (no_record_under_uri _ _ Hadmin) as Hfree.
    repeat (progress (run; rewrite ?Hl, ?Hv, ?Hb, ?Hs, ?Hu, ?Hn, ?Hbrow,
                        ?(bool_decide_eq_false_2 _ Hfree))).
    rewrite (descriptive_metadata_run _ _ _ _ _ _ _ _ Hl Hv Hu Hs Hid).
    repeat (progress (run; rewrite ?Hl, ?Hs)). done.
Qed.

(** ** The key of a descriptive document *)

Lemma matches_dataset_key (u s : string) (x : pydict) :
  matches mongo_op (dataset_key (VStr u) (VStr s)) x = true
  ↔ x !! "uuid" = Some (VStr u) ∧ x !! "uri" = Some (VStr s).
Proof.
  rewrite matches_spec. unfold dataset_key. split.
  - intros H. split.
    + apply field_match_str; [done|]. apply H. by rewrite lookup_insert_eq.
    + apply field_match_str; [done|]. apply H.
      rewrite lookup_insert_ne by done. by rewrite lookup_insert_eq.
  - intros [Hu Hs] k v.
    rewrite lookup_insert_Some, lookup_insert_Some, lookup_empty.
    intros [[<- <-]|[_ [[<- <-]|[_ ?]]]]; [| |done];
      by apply field_match_str.
Qed.

Lemma doc_id_keep_id (old d : pydict) :
  doc_id d = None → doc_id (keep_id old d) = doc_id old.
Proof.
  intros Hd. unfold keep_id. destruct (doc_id old) as [oid|] eqn:Hold; [|congruence].
  unfold doc_id. by rewrite lookup_insert_eq.
Qed.

Lemma keep_id_lookup (old d : pydict) (k : string) :
  k ≠ "_id" → keep_id old d !! k = d !! k.
Proof.
  intros Hk. unfold keep_id. destruct (doc_id old); [|done].
  by rewrite lookup_insert_ne.
Qed.

Lemma keep_id_keep_id (old d : pydict) :
  doc_id d = None → keep_id (keep_id old d) d = keep_id old d.
Proof.
  intros Hd. unfold keep_id at 1. rewrite doc_id_keep_id by done.
  by unfold keep_id.
Qed.

(** The stored document is the payload, up to the store's identifier. *)
Lemma delete_id_keep_id (old d : pydict) :
  doc_id d = None → delete "_id" (keep_id old d) = d.
Proof.
  intros Hd. unfold keep_id. destruct (doc_id old).
  - by apply delete_insert_id.
  - by apply delete_id.
Qed.

(** ** Upsert under a dataset key *)

Section Upsert.

Variables (u s : string) (d : pydict).
Hypothesis Hu : d !! "uuid" = Some (VStr u).
Hypothesis Hs : d !! "uri" = Some (VStr s).
Hypothesis Hid : d !! "_id" = None.

Lemma keep_id_matches (old : pydict) : matches mongo_op (dataset_key (VStr u) (VStr s)) (keep_id old d) = true.
Proof.
  apply matches_dataset_key. by rewrite !keep_id_lookup.
Qed.

Lemma new_doc_matches (oid : pyval) : matches mongo_op (dataset_key (VStr u) (VStr s)) (<["_id" := oid]> d) = true.
Proof.
  apply matches_dataset_key. by rewrite !lookup_insert_ne.
Qed.

(** After an upsert the collection is [l1 ++ stored :: l2]: [stored] is the
    payload under an [_id], nothing before it is under the key, and the rest
    is the rest of the collection as it was. *)
Lemma upsert_shape (coll : list pydict) :
  ∃ l1 stored l2,
    upsert mongo_op (dataset_key (VStr u) (VStr s)) d coll = l1 ++ stored :: l2
    ∧ delete "_id" stored = d
    ∧ keep_id stored d = stored
    ∧ matches mongo_op (dataset_key (VStr u) (VStr s)) stored = true
    ∧ Forall (λ x, ¬ matches mongo_op (dataset_key (VStr u) (VStr s)) x) l1
    ∧ ((∃ old, coll = l1 ++ old :: l2 ∧ matches mongo_op (dataset_key (VStr u) (VStr s)) old = true
               ∧ stored = keep_id old d)
       ∨ (coll = l1 ∧ l2 = [] ∧ stored = <["_id" := VObjectId (fresh_oid coll)]> d)).
Proof.
  unfold upsert.
  destruct (list_find _ coll) as [[i old]|] eqn:Hfind.
  - apply list_find_Some in Hfind as (Hi & Hold & Hbefore).
    exists (take i coll), (keep_id old d), (drop (S i) coll).
    assert (Hsplit : coll = take i coll ++ old :: drop (S i) coll).
    { by rewrite <-(take_drop_middle coll i old) at 1. }
    split_and!.
    + rewrite Hsplit at 1. rewrite insert_app_r_alt; [|rewrite length_take; lia].
      rewrite length_take. apply lookup_lt_Some in Hi.
      replace (i - i `min` length coll) with 0 by lia. done.
    + by apply delete_id_keep_id.
    + by apply keep_id_keep_id.
    + apply keep_id_matches.
    + apply Forall_forall. intros x Hx.
      apply list_elem_of_lookup in Hx as [j Hj].
      pose proof (lookup_lt_Some _ _ _ Hj) as Hlt. rewrite length_take in Hlt.
      rewrite lookup_take_lt in Hj by lia. eapply Hbefore; [done|lia].
    + left. exists old. split_and!; [done| |done].
      by apply Is_true_true.
  - apply list_find_None in Hfind.
    exists coll, (<["_id" := VObjectId (fresh_oid coll)]> d), [].
    split_and!; [done| | | |done|by right].
    + by apply delete_insert_id.
    + unfold keep_id, doc_id. by rewrite lookup_insert_eq.
    + apply new_doc_matches.
Qed.




(** An upsert keeps the documents' keys distinct. *)
Lemma upsert_doc_keys (coll : list pydict) :
  NoDup (doc_key <$> coll) →
  NoDup (doc_key <$> upsert mongo_op (dataset_key (VStr u) (VStr s)) d coll).
Proof.
  intros Hnodup.
  destruct (upsert_shape coll)
    as (l1 & stored & l2 & -> & _ & _ & Hm & Hl1 & Hcases).
  apply matches_dataset_key in Hm as [Hsu Hss].
  destruct Hcases as [(old & -> & Hold & _)|(-> & -> & _)].
  - apply matches_dataset_key in Hold as [Hou Hos].
    rewrite fmap_app, fmap_cons in *.
    replace (doc_key stored) with (doc_key old); [done|].
    unfold doc_key. by rewrite Hou, Hos, Hsu, Hss.
  - rewrite fmap_app. apply NoDup_app. split_and!; [done| |apply NoDup_singleton].
    intros k (x & -> & Hx)%list_elem_of_fmap Hk%list_elem_of_singleton.
    rewrite Forall_forall in Hl1. apply (Hl1 x Hx).
    apply Is_true_true, matches_dataset_key.
    unfold doc_key in Hk. injection Hk as Hku Hks.
    split; [by rewrite Hku|by rewrite Hks].
Qed.


End Upsert.

(** ** Admin reconciliation *)


Lemma reconcile_admin_base_uris (ds : Dataset) (db : sql_db) :
  base_uris (reconcile_admin ds db) = base_uris db.
Proof. unfold reconcile_admin. by destruct (head _). Qed.

(** After the reconciliation the uri has a record. *)
Lemma reconcile_admin_found (ds : Dataset) (db : sql_db) :
  is_Some (head (filter (λ x, VStr (Dataset_uri x) = VStr (Dataset_uri ds))
                   (datasets (reconcile_admin ds db)))).
Proof.
  unfold reconcile_admin.
  destruct (head (filter _ (datasets db))) as [existing|] eqn:Hhead;
    [by rewrite Hhead|]. cbn.
  rewrite filter_app, filter_cons_True by done.
  apply head_is_Some. by destruct (filter _ (datasets db)).
Qed.



(** ** Registering twice *)


(** X25. A registration keeps the invariants of the two stores: one admin
    record per uri, one document per key; it does not touch users, base URIs
    or permissions. *)
Lemma register_dataset_keeps_invariants (w w' : world) (dataset_info : nat)
    (d : pydict) (bs s u n : string) (brow : BaseURI) (r : pyval) :
  w_heap w !! dataset_info = Some d →
  registrable d bs s u n →
  _get_base_uri_obj (VStr bs) w = (Ok (Some brow), w) →
  register_dataset mongo_op Dataset_as_dict dataset_info w = (Ok r, w') →
  (NoDup (Dataset_uri <$> datasets (w_sql w)) →
   NoDup (Dataset_uri <$> datasets (w_sql w')))
  ∧ (NoDup (doc_key <$> w_mongo w) → NoDup (doc_key <$> w_mongo w'))
  ∧ users (w_sql w') = users (w_sql w)
  ∧ base_uris (w_sql w') = base_uris (w_sql w)
  ∧ search_permissions (w_sql w') = search_permissions (w_sql w)
  ∧ register_permissions (w_sql w') = register_permissions (w_sql w).
Proof.
  destruct w as [sql committed mongo heap]. cbn [w_heap w_sql w_mongo].
  intros Hl Hreg Hbrow Hrun.
  unfold _get_base_uri_obj, mbind, M_bind, mret, M_ret, session in Hbrow.
  cbn in Hbrow.
  assert (Hrow : head (filter (λ b, VStr (BaseURI_base_uri b) = VStr bs) (base_uris sql))
                 = Some brow) by congruence. clear Hbrow.
  rewrite (register_dataset_run _ _ _ _ _ d bs s u n brow Hl Hreg Hrow) in Hrun.
  injection Hrun as _ <-. cbn [w_heap w_sql w_mongo].
  split_and!.
  - intros Hnodup. unfold reconcile_admin. cbn [Dataset_uri].
    destruct (head (filter _ (datasets sql))) as [existing|] eqn:Hhead; [done|]. cbn.
    rewrite fmap_app. apply NoDup_app. split_and!; [done| |apply NoDup_singleton].
    intros k (x & -> & Hx)%list_elem_of_fmap Hk%list_elem_of_singleton.
    eapply head_filter_None in Hhead; [|done]. apply Hhead. cbn in Hk. congruence.
  - intros Hnodup. apply upsert_doc_keys; [apply Hreg..|done].
  - unfold reconcile_admin. by destruct (head (filter _ (datasets sql))).
  - apply reconcile_admin_base_uris.
  - unfold reconcile_admin. by destruct (head (filter _ (datasets sql))).
  - unfold reconcile_admin. by destruct (head (filter _ (datasets sql))).
Qed.


(** ** What a successful registration has done *)

Lemma bind_Ok_inv {A B} (m : M A) (f : A → M B) (w w' : world) (b : B) :
  (m ≫= f) w = (Ok b, w') →
  ∃ a w1, m w = (Ok a, w1) ∧ f a w1 = (Ok b, w').
Proof.
  unfold mbind, M_bind. destruct (m w) as [[a|e] w1]; [|done]. eauto.
Qed.



Lemma dict_getitem_inv (l : nat) (k : string) (w w' : world) (v : pyval) :
  dict_getitem l k w = (Ok v, w') → w' = w ∧ heap_dict w l !! k = Some v.
Proof.
  unfold dict_getitem, getitem, mbind, M_bind, deref. cbn.
  destruct (heap_dict w l !! k) as [v'|] eqn:Hk; cbn; [|done].
  by intros [= -> <-].
Qed.

Lemma find_one_read_only (q : pydict) (w : world) :
  ∃ o, collection_find_one mongo_op q w = (Ok o, w).
Proof. unfold collection_find_one. run. eauto. Qed.










(** ** The endpoints *)



(** C7, as the code has it. [GET /] answers 200 with the text
    ["<n> registered datasets"], where [n] is the number of documents of the
    descriptive collection; the admin store is not consulted. *)
Theorem index_counts_documents (w : world) :
  routes.index w
  = (Ok (VStr (pretty (length (w_mongo w)) +:+ " registered datasets")), w)
  ∧ flask_response routes.index w
    = (mkResponse 200
         (VStr (pretty (length (w_mongo w)) +:+ " registered datasets")), w).
Proof.
  unfold flask_response, routes.index, collection_count. run. done.
Qed.

(** ** Permissions *)

Lemma user_exists_run (username : pyval) (w : world) :
  user_exists username w = (Ok (bool_decide (is_Some (find_user (w_sql w) username))), w).
Proof.
  unfold user_exists, _get_user_obj, find_user. run.
  by destruct (head _).
Qed.

(** A loop whose body always ends normally is the fold of its steps. *)
Lemma for_each_run {A} (xs : list A) (body : A → M unit) (step : world → A → world) :
  (∀ x w, body x w = (Ok (), step w x)) →
  ∀ w, for_each xs body w = (Ok (), foldl step w xs).
Proof.
  intros Hbody. induction xs as [|x xs IH]; intros w; [done|].
  cbn [for_each foldl]. unfold mbind, M_bind. by rewrite Hbody, IH.
Qed.

Lemma search_step_run (base : BaseURI) (username : pyval) (w : world) :
  (e ← user_exists username;
   if e : bool
   then user ← get_user_obj username; search_base_uris_append user base
   else mret ()) w
  = (Ok (), add_search_rows (granted_rows (w_sql w) base [username]) w).
Proof.
  unfold mbind at 1, M_bind at 1. rewrite user_exists_run.
  unfold granted_rows, add_search_rows, get_user_obj, _get_user_obj, find_user.
  cbn [omap]. run.
  destruct (head _) as [u|] eqn:Hu; run; rewrite ?Hu.
  - unfold search_base_uris_append, add_edges, add_edge. run.
    destruct (bool_decide _); [by destruct w as [[] ? ? ?]|done].
  - by destruct w as [[] ? ? ?].
Qed.

Lemma register_step_run (base : BaseURI) (username : pyval) (w : world) :
  (e ← user_exists username;
   if e : bool
   then user ← get_user_obj username; register_base_uris_append user base
   else mret ()) w
  = (Ok (), add_register_rows (granted_rows (w_sql w) base [username]) w).
Proof.
  unfold mbind at 1, M_bind at 1. rewrite user_exists_run.
  unfold granted_rows, add_register_rows, get_user_obj, _get_user_obj, find_user.
  cbn [omap]. run.
  destruct (head _) as [u|] eqn:Hu; run; rewrite ?Hu.
  - unfold register_base_uris_append, add_edges, add_edge. run.
    destruct (bool_decide _); [by destruct w as [[] ? ? ?]|done].
  - by destruct w as [[] ? ? ?].
Qed.

Lemma add_search_rows_fold (base : BaseURI) (usernames : list pyval) (w : world) :
  foldl (λ w username, add_search_rows (granted_rows (w_sql w) base [username]) w)
    w usernames
  = add_search_rows (granted_rows (w_sql w) base usernames) w.
Proof.
  revert w. induction usernames as [|username usernames IH]; intros w.
  - by destruct w as [[] ? ? ?].
  - cbn [foldl]. rewrite IH. unfold add_search_rows, granted_rows, find_user. cbn.
    by destruct (head _).
Qed.

Lemma add_register_rows_fold (base : BaseURI) (usernames : list pyval) (w : world) :
  foldl (λ w username, add_register_rows (granted_rows (w_sql w) base [username]) w)
    w usernames
  = add_register_rows (granted_rows (w_sql w) base usernames) w.
Proof.
  revert w. induction usernames as [|username usernames IH]; intros w.
  - by destruct w as [[] ? ? ?].
  - cbn [foldl]. rewrite IH. unfold add_register_rows, granted_rows, find_user. cbn.
    by destruct (head _).
Qed.

Lemma update_permissions_run (permissions : pydict) (w : world)
    (b : pyval) (base : BaseURI) (S R : list pyval) :
  permissions !! "base_uri" = Some b →
  find_base_uri (w_sql w) b = Some base →
  permissions !! "users_with_search_permissions" = Some (VList S) →
  permissions !! "users_with_register_permissions" = Some (VList R) →
  update_permissions permissions w
  = (Ok (), mkWorld (grant_all (w_sql w) base S R) (grant_all (w_sql w) base S R)
              (w_mongo w) (w_heap w)).
Proof.
  intros Hb Hbase HS HR. unfold find_base_uri in Hbase.
  unfold update_permissions, get_base_uri_obj, _get_base_uri_obj. run.
  rewrite Hb. run. rewrite Hbase. run. rewrite HS. run.
  rewrite (for_each_run _ _ _ (search_step_run base)), add_search_rows_fold. run.
  rewrite HR. run.
  rewrite (for_each_run _ _ _ (register_step_run base)), add_register_rows_fold. run.
  done.
Qed.

Lemma update_permissions_unregistered (permissions : pydict) (w : world) (b : pyval) :
  permissions !! "base_uri" = Some b →
  find_base_uri (w_sql w) b = None →
  update_permissions permissions w
  = (Raise (ValidationError (Base_URI_not_registered b)), w).
Proof.
  intros Hb Hbase. unfold find_base_uri in Hbase.
  unfold update_permissions, get_base_uri_obj, _get_base_uri_obj. run.
  rewrite Hb. run. by rewrite Hbase.
Qed.

Lemma elem_of_add_edges (perms rows : list (nat * nat)) (e : nat * nat) :
  e ∈ add_edges perms rows ↔ e ∈ perms ∨ e ∈ rows.
Proof.
  unfold add_edges. revert perms. induction rows as [|r rows IH]; intros perms; cbn.
  - split; [by left|]. by intros [?|?%elem_of_nil].
  - rewrite IH. unfold add_edge. rewrite elem_of_cons.
    case_bool_decide as Hr; [|rewrite elem_of_app, list_elem_of_singleton].
    + split; [intros [?|?]; auto|]. intros [?|[->|?]]; auto.
    + split; [intros [[?|?]|?]; auto|]. intros [?|[?|?]]; auto.
Qed.

Lemma add_edges_prefix (perms rows : list (nat * nat)) :
  perms `prefix_of` add_edges perms rows.
Proof.
  unfold add_edges. revert perms. induction rows as [|r rows IH]; intros perms; cbn.
  - done.
  - etrans; [|apply IH]. unfold add_edge. case_bool_decide; [done|].
    by apply prefix_app_r.
Qed.

Lemma add_edges_NoDup (perms rows : list (nat * nat)) :
  NoDup perms → NoDup (add_edges perms rows).
Proof.
  unfold add_edges. revert perms. induction rows as [|r rows IH]; intros perms Hperms; cbn.
  - done.
  - apply IH. unfold add_edge. case_bool_decide as Hr; [done|].
    apply NoDup_app. split_and!; [done| |apply NoDup_singleton].
    by intros x Hx ->%list_elem_of_singleton.
Qed.

Lemma related_base_uris_app (perms1 perms2 : list (nat * nat)) (db : sql_db) (u : User) :
  related_base_uris (perms1 ++ perms2) db u
  = related_base_uris perms1 db u ++ related_base_uris perms2 db u.
Proof. unfold related_base_uris. apply bind_app. Qed.

Lemma elem_of_related_base_uris (perms : list (nat * nat)) (db : sql_db) (u : User)
    (row : BaseURI) :
  row ∈ related_base_uris perms db u
  ↔ row ∈ base_uris db ∧ (User_id u, BaseURI_id row) ∈ perms.
Proof.
  unfold related_base_uris. rewrite list_elem_of_bind. split.
  - intros ([uid bid] & Hrow & Hp). cbn in Hrow. case_bool_decide; [|by apply not_elem_of_nil in Hrow].
    apply list_elem_of_filter in Hrow as [Hid Hin]. cbn in *. by subst.
  - intros [Hin Hp]. exists (User_id u, BaseURI_id row). split; [|done]. cbn.
    rewrite bool_decide_eq_true_2 by done. by apply list_elem_of_filter.
Qed.

Lemma elem_of_granted_rows (db : sql_db) (base : BaseURI) (usernames : list pyval)
    (uid bid : nat) :
  (uid, bid) ∈ granted_rows db base usernames
  ↔ bid = BaseURI_id base
    ∧ ∃ username u, username ∈ usernames ∧ find_user db username = Some u
                    ∧ User_id u = uid.
Proof.
  unfold granted_rows. rewrite list_elem_of_omap. split.
  - intros (username & Hin & Hrow). destruct (find_user db username) as [u|] eqn:Hu; [|done].
    injection Hrow as <- <-. split; [done|]. by exists username, u.
  - intros (-> & username & u & Hin & Hu & <-). exists username. by rewrite Hu.
Qed.

Lemma find_user_elem (db : sql_db) (username : pyval) (u : User) :
  find_user db username = Some u → u ∈ users db ∧ VStr (User_username u) = username.
Proof. unfold find_user. intros Hu. by apply head_filter_elem in Hu. Qed.

Lemma find_base_uri_elem (db : sql_db) (b : pyval) (row : BaseURI) :
  find_base_uri db b = Some row → row ∈ base_uris db ∧ VStr (BaseURI_base_uri row) = b.
Proof. unfold find_base_uri. intros Hb. by apply head_filter_elem in Hb. Qed.

Lemma NoDup_fmap_eq {A B} (f : A → B) (l : list A) (x y : A) :
  NoDup (f <$> l) → x ∈ l → y ∈ l → f x = f y → x = y.
Proof.
  intros Hnodup Hx Hy Hf.
  apply list_elem_of_lookup in Hx as [i Hi]. apply list_elem_of_lookup in Hy as [j Hj].
  assert (i = j) as ->; [|congruence].
  eapply NoDup_lookup; [done| |]; rewrite list_lookup_fmap.
  - by rewrite Hi.
  - rewrite Hj. cbn. by rewrite Hf.
Qed.

(** The edges after a grant: those there were, and one from each listed
    username that denotes a user to the granted base URI. *)
Lemma has_permission_granted (perms : list (nat * nat)) (db db' : sql_db)
    (base : BaseURI) (usernames : list pyval) (username : pyval) (bs : string) :
  users db' = users db → base_uris db' = base_uris db →
  base ∈ base_uris db →
  NoDup (User_id <$> users db) → NoDup (BaseURI_id <$> base_uris db) →
  has_permission (add_edges perms (granted_rows db base usernames)) db' username bs
  ↔ has_permission perms db' username bs
    ∨ (bs = BaseURI_base_uri base ∧ username ∈ usernames
       ∧ is_Some (find_user db username)).
Proof.
  intros Husers Hbases Hbase Huid Hbid. unfold has_permission.
  assert (Hfind : ∀ un, find_user db' un = find_user db un)
    by (intros un; unfold find_user; by rewrite Husers).
  split.
  - intros (u & Hu & Hbs). apply list_elem_of_fmap in Hbs as (row & -> & Hrow).
    apply elem_of_related_base_uris in Hrow as [Hin Hp].
    apply elem_of_add_edges in Hp as [Hp|Hp].
    + left. exists u. split; [done|]. apply list_elem_of_fmap_2.
      by apply elem_of_related_base_uris.
    + right.
      apply elem_of_granted_rows in Hp as (Hid & un0 & u0 & Hun0 & Hu0 & Huid0).
      rewrite Hbases in Hin.
      assert (row = base) as -> by (by eapply NoDup_fmap_eq).
      rewrite Hfind in Hu.
      apply find_user_elem in Hu as [Huin Hname].
      pose proof (find_user_elem _ _ _ Hu0) as [Hu0in Hname0].
      assert (u0 = u) as -> by (by eapply NoDup_fmap_eq).
      split_and!; [done|congruence|]. rewrite <-Hname, Hname0. by eexists.
  - intros [(u & Hu & Hbs)|(-> & Hin & [u Hu])].
    + exists u. split; [done|]. apply list_elem_of_fmap in Hbs as (row & -> & Hrow).
      apply list_elem_of_fmap_2.
      apply elem_of_related_base_uris in Hrow as [Hrow Hp].
      apply elem_of_related_base_uris. split; [done|].
      apply elem_of_add_edges. by left.
    + exists u. rewrite Hfind. split; [done|]. apply list_elem_of_fmap_2.
      apply elem_of_related_base_uris. rewrite Hbases. split; [done|].
      apply elem_of_add_edges. right.
      apply elem_of_granted_rows. split; [done|]. eauto.
Qed.

Lemma has_permission_ext (perms : list (nat * nat)) (db db' : sql_db)
    (username : pyval) (bs : string) :
  users db' = users db → base_uris db' = base_uris db →
  has_permission perms db' username bs ↔ has_permission perms db username bs.
Proof.
  intros Husers Hbases. unfold has_permission, find_user, related_base_uris.
  by rewrite Husers, Hbases.
Qed.

Lemma granted_rows_ext (db db' : sql_db) (base : BaseURI) (usernames : list pyval) :
  users db' = users db → granted_rows db' base usernames = granted_rows db base usernames.
Proof. intros Husers. unfold granted_rows, find_user. by rewrite Husers. Qed.

Lemma registered_find_base_uri (db : sql_db) (bs : string) :
  base_uri_registered db bs →
  ∃ base, find_base_uri db (VStr bs) = Some base ∧ BaseURI_base_uri base = bs.
Proof.
  intros (row & -> & Hrow)%list_elem_of_fmap. unfold find_base_uri.
  destruct (head _) as [base|] eqn:Hhead.
  - exists base. split; [done|]. apply head_filter_elem in Hhead as [_ Heq]. congruence.
  - eapply head_filter_None in Hhead; [|done]. by destruct Hhead.
Qed.

(** The edges of the store after one update. *)
Lemma has_search_grant_all (db : sql_db) (base : BaseURI) (S R : list pyval)
    (username : pyval) (bs : string) :
  base ∈ base_uris db → unique_keys db →
  has_search (grant_all db base S R) username bs
  ↔ has_search db username bs
    ∨ (bs = BaseURI_base_uri base ∧ username ∈ S ∧ is_Some (find_user db username)).
Proof.
  intros Hbase [Huid _ Hbid _]. unfold has_search. cbn [grant_all search_permissions].
  rewrite (has_permission_granted _ db) by done.
  by rewrite (has_permission_ext _ db).
Qed.

Lemma has_register_grant_all (db : sql_db) (base : BaseURI) (S R : list pyval)
    (username : pyval) (bs : string) :
  base ∈ base_uris db → unique_keys db →
  has_register (grant_all db base S R) username bs
  ↔ has_register db username bs
    ∨ (bs = BaseURI_base_uri base ∧ username ∈ R ∧ is_Some (find_user db username)).
Proof.
  intros Hbase [Huid _ Hbid _]. unfold has_register. cbn [grant_all register_permissions].
  rewrite (has_permission_granted _ db) by done.
  by rewrite (has_permission_ext _ db).
Qed.

Lemma unique_keys_grant_all (db : sql_db) (base : BaseURI) (S R : list pyval) :
  unique_keys db → unique_keys (grant_all db base S R).
Proof. by intros []. Qed.

(** C5. [update_permissions] only adds.  For a specification whose base URI
    is registered, the update ends normally whether or not the listed
    usernames exist; after it the search edges are those there were and one
    from each username of the search list that exists to the base URI, and
    likewise for the register edges: every listed user gains its edge, an
    unknown username gains nothing, no edge is lost.  After a second update
    for the same base URI with other lists the edges are the union of what
    the two updates grant and what there was. *)
Theorem update_permissions_additive (w : world) (p1 p2 : pydict) (bs : string)
    (S1 R1 S2 R2 : list pyval) :
  p1 !! "base_uri" = Some (VStr bs) →
  p1 !! "users_with_search_permissions" = Some (VList S1) →
  p1 !! "users_with_register_permissions" = Some (VList R1) →
  p2 !! "base_uri" = Some (VStr bs) →
  p2 !! "users_with_search_permissions" = Some (VList S2) →
  p2 !! "users_with_register_permissions" = Some (VList R2) →
  base_uri_registered (w_sql w) bs →
  unique_keys (w_sql w) →
  ∃ w1 w2,
    update_permissions p1 w = (Ok (), w1)
    ∧ update_permissions p2 w1 = (Ok (), w2)
    ∧ (∀ username b,
         has_search (w_sql w1) username b
         ↔ has_search (w_sql w) username b
           ∨ (b = bs ∧ username ∈ S1 ∧ is_Some (find_user (w_sql w) username)))
    ∧ (∀ username b,
         has_register (w_sql w1) username b
         ↔ has_register (w_sql w) username b
           ∨ (b = bs ∧ username ∈ R1 ∧ is_Some (find_user (w_sql w) username)))
    ∧ (∀ username b,
         has_search (w_sql w2) username b
         ↔ has_search (w_sql w) username b
           ∨ (b = bs ∧ (username ∈ S1 ∨ username ∈ S2)
              ∧ is_Some (find_user (w_sql w) username)))
    ∧ (∀ username b,
         has_register (w_sql w2) username b
         ↔ has_register (w_sql w) username b
           ∨ (b = bs ∧ (username ∈ R1 ∨ username ∈ R2)
              ∧ is_Some (find_user (w_sql w) username)))
    ∧ w_committed w1 = w_sql w1 ∧ w_committed w2 = w_sql w2.
Proof using Type.
  clear mongo_op Dataset_as_dict.
  intros Hb1 HS1 HR1 Hb2 HS2 HR2 (base & Hbase & <-)%registered_find_base_uri Hkeys.
  pose proof (find_base_uri_elem _ _ _ Hbase) as [Hin _].
  assert (Hfind1 : ∀ un, find_user (grant_all (w_sql w) base S1 R1) un
                         = find_user (w_sql w) un) by done.
  eexists _, _. split_and!.
  - by apply (update_permissions_run p1 w (VStr (BaseURI_base_uri base)) base S1 R1).
  - by apply (update_permissions_run p2 _ (VStr (BaseURI_base_uri base)) base S2 R2).
  - intros username b. by apply has_search_grant_all.
  - intros username b. by apply has_register_grant_all.
  - intros username b. cbn [w_sql].
    rewrite (has_search_grant_all (grant_all (w_sql w) base S1 R1)), Hfind1;
      [|done|by apply unique_keys_grant_all].
    rewrite (has_search_grant_all (w_sql w)) by done. tauto.
  - intros username b. cbn [w_sql].
    rewrite (has_register_grant_all (grant_all (w_sql w) base S1 R1)), Hfind1;
      [|done|by apply unique_keys_grant_all].
    rewrite (has_register_grant_all (w_sql w)) by done. tauto.
  - done.
  - done.
Qed.

(** C8, as the code has it.  A grant to a username that does not exist is
    skipped without an error: with a registered base URI and lists of unknown
    usernames only, the update ends normally and the admin store is as it
    was.  A grant to a base URI that is not registered is an error: the
    update raises [ValidationError], "Base URI ... not registered", and
    changes nothing. *)
Theorem grant_skips_unknown_user_rejects_unknown_base_uri
    (w : world) (permissions : pydict) (b : pyval) :
  permissions !! "base_uri" = Some b →
  (find_base_uri (w_sql w) b = None →
   update_permissions permissions w
   = (Raise (ValidationError (Base_URI_not_registered b)), w))
  ∧ (∀ S R,
       is_Some (find_base_uri (w_sql w) b) →
       permissions !! "users_with_search_permissions" = Some (VList S) →
       permissions !! "users_with_register_permissions" = Some (VList R) →
       (∀ username, username ∈ S ∨ username ∈ R →
                    find_user (w_sql w) username = None) →
       update_permissions permissions w
       = (Ok (), mkWorld (w_sql w) (w_sql w) (w_mongo w) (w_heap w))).
Proof.
  intros Hb. split.
  - by apply update_permissions_unregistered.
  - intros S R [base Hbase] HS HR Hunknown.
    rewrite (update_permissions_run permissions w b base S R) by done.
    assert (Hnone : ∀ l, (∀ un, un ∈ l → find_user (w_sql w) un = None) →
                         granted_rows (w_sql w) base l = []).
    { intros l Hl. unfold granted_rows. induction l as [|un l IH]; [done|].
      cbn. rewrite (Hl un) by left. cbn. apply IH. intros un' Hun'. apply Hl. by right. }
    unfold grant_all. rewrite !Hnone by auto. cbn [add_edges foldl].
    by destruct (w_sql w).
Qed.

(** ** Lookup by uuid *)

Lemma bind_nil_all {A B} (g : A → list B) (l : list A) :
  (∀ y, y ∈ l → g y = []) → l ≫= g = [].
Proof.
  intros Hall. induction l as [|y l IH]; [done|].
  cbn. rewrite (Hall y) by left. apply IH. intros y' Hy'. apply Hall. by right.
Qed.

(** A join on a unique key meets one row. *)
Lemma bind_unique {A B C} (f : A → C) (g : A → list B) (l : list A) (x : A) :
  NoDup (f <$> l) → x ∈ l → (∀ y, f y ≠ f x → g y = []) → l ≫= g = g x.
Proof.
  intros Hnodup Hx Hg. apply list_elem_of_split in Hx as (l1 & l2 & ->).
  rewrite fmap_app, fmap_cons in Hnodup.
  apply NoDup_app in Hnodup as (_ & Hl1 & Hnodup).
  apply NoDup_cons in Hnodup as [Hl2 _].
  rewrite bind_app. cbn. rewrite (bind_nil_all g l1), (bind_nil_all g l2).
  - by rewrite app_nil_r.
  - intros y Hy. apply Hg. intros Heq. apply Hl2. rewrite <-Heq.
    by apply list_elem_of_fmap_2.
  - intros y Hy. apply Hg. intros Heq. apply (Hl1 (f y)).
    + by apply list_elem_of_fmap_2.
    + rewrite Heq. left.
Qed.

Lemma in_search_scope_existsb (db : sql_db) (u : User) (ds : Dataset) :
  existsb (λ b, bool_decide (BaseURI_id b = Dataset_base_uri_id ds))
    (User_search_base_uris db u) = true
  ↔ in_search_scope db u ds.
Proof.
  unfold in_search_scope. rewrite existsb_exists, list_elem_of_fmap. split.
  - intros (b & Hb%list_elem_of_In & Hid%bool_decide_eq_true). by exists b.
  - intros (b & Hid & Hb). exists b. split; [by apply list_elem_of_In|].
    by apply bool_decide_eq_true.
Qed.

Lemma in_search_scope_row (db : sql_db) (u : User) (ds : Dataset) :
  in_search_scope db u ds →
  ∃ b, b ∈ base_uris db ∧ BaseURI_id b = Dataset_base_uri_id ds.
Proof.
  intros (b & Hid & Hb)%list_elem_of_fmap.
  apply elem_of_related_base_uris in Hb as [Hb _]. by exists b.
Qed.

(** The rows the query yields for one dataset. *)
Lemma lookup_query_rows (db : sql_db) (username uuid : pyval) (u : User) (ds : Dataset) :
  find_user db username = Some u →
  unique_keys db →
  (λ row : Dataset * BaseURI * User, row.1.1) <$>
    (base_uri ← base_uris db;
     user ← users db;
     if bool_decide (VStr (Dataset_uuid ds) = uuid)
        && bool_decide (VStr (User_username user) = username)
        && bool_decide (BaseURI_id base_uri = Dataset_base_uri_id ds)
        && existsb (λ b, bool_decide (BaseURI_id b = Dataset_base_uri_id ds))
                   (User_search_base_uris db user)
     then [(ds, base_uri, user)]
     else [])
  = if decide (VStr (Dataset_uuid ds) = uuid ∧ in_search_scope db u ds)
    then [ds] else [].
Proof.
  intros Hu [_ Hnames Hbids _].
  apply find_user_elem in Hu as [Huin Hname].
  destruct (decide (_ ∧ _)) as [[Huuid Hscope]|Hnot].
  - destruct (in_search_scope_row _ _ _ Hscope) as (b0 & Hb0 & Hid0).
    rewrite (bind_unique BaseURI_id _ _ b0 Hbids Hb0).
    + rewrite (bind_unique User_username _ _ u Hnames Huin).
      * rewrite !bool_decide_eq_true_2 by done.
        by rewrite (proj2 (in_search_scope_existsb _ _ _) Hscope).
      * intros u' Hne. rewrite (bool_decide_eq_false_2 (VStr (User_username u') = _)).
        -- by rewrite andb_false_r.
        -- rewrite <-Hname. congruence.
    + intros b' Hne. apply bind_nil_all. intros u' _.
      rewrite (bool_decide_eq_false_2 (BaseURI_id b' = _)) by congruence.
      by rewrite andb_false_r.
  - rewrite bind_nil_all; [done|]. intros b' _.
    apply bind_nil_all. intros u' Hu'.
    destruct (decide (VStr (Dataset_uuid ds) = uuid)) as [Huuid|Huuid];
      [|by rewrite (bool_decide_eq_false_2 _ Huuid)].
    destruct (decide (VStr (User_username u') = username)) as [Hname'|Hname'];
      [|by rewrite (bool_decide_eq_false_2 _ Hname'), andb_false_r].
    assert (u' = u) as ->.
    { eapply (NoDup_fmap_eq User_username); [done..|]. rewrite <-Hname in Hname'.
      congruence. }
    destruct (existsb _ _) eqn:Hex; [|by rewrite andb_false_r].
    destruct Hnot. split; [done|]. by apply in_search_scope_existsb.
Qed.

Lemma lookup_query_datasets (db : sql_db) (username uuid : pyval) (u : User) :
  find_user db username = Some u →
  unique_keys db →
  (λ row : Dataset * BaseURI * User, row.1.1) <$> lookup_query db username uuid
  = filter (λ ds, VStr (Dataset_uuid ds) = uuid ∧ in_search_scope db u ds)
      (datasets db).
Proof.
  intros Hu Hkeys. unfold lookup_query.
  induction (datasets db) as [|ds rest IH]; [done|].
  cbn [mbind list_bind]. rewrite fmap_app, IH, filter_cons.
  rewrite (lookup_query_rows db username uuid u ds Hu Hkeys).
  by destruct (decide _).
Qed.

(** C3. For a user that exists, in an admin store with unique keys,
    [lookup_datasets_by_user_and_uuid] returns the admin records, each once
    and in the store's order, whose uuid is the one asked for and whose
    owning base URI is in the user's search scope; a record under a base URI
    outside the scope is not returned, whatever its uuid.  So when the scope
    holds only the base URI [x] and the datasets of that uuid are all under
    another base URI [y], the result is the empty list. *)
Theorem lookup_by_uuid_is_scoped (w : world) (username uuid : pyval) (u : User) :
  find_user (w_sql w) username = Some u →
  unique_keys (w_sql w) →
  lookup_datasets_by_user_and_uuid Dataset_as_dict username uuid w
  = (Ok (Dataset_as_dict (w_sql w) <$>
           filter (λ ds, VStr (Dataset_uuid ds) = uuid
                         ∧ in_search_scope (w_sql w) u ds)
             (datasets (w_sql w))), w)
  ∧ (∀ x y : BaseURI,
       (∀ b, b ∈ User_search_base_uris (w_sql w) u → BaseURI_id b = BaseURI_id x) →
       (∀ ds, ds ∈ datasets (w_sql w) → VStr (Dataset_uuid ds) = uuid →
              Dataset_base_uri_id ds = BaseURI_id y) →
       BaseURI_id y ≠ BaseURI_id x →
       lookup_datasets_by_user_and_uuid Dataset_as_dict username uuid w = (Ok [], w)).
Proof.
  intros Hu Hkeys.
  assert (Hrun : lookup_datasets_by_user_and_uuid Dataset_as_dict username uuid w
                 = (Ok (Dataset_as_dict (w_sql w) <$>
                          filter (λ ds, VStr (Dataset_uuid ds) = uuid
                                        ∧ in_search_scope (w_sql w) u ds)
                            (datasets (w_sql w))), w)).
  { unfold lookup_datasets_by_user_and_uuid, get_user_obj, _get_user_obj. run.
    unfold find_user in Hu. rewrite Hu. run.
    rewrite <-(lookup_query_datasets _ username uuid u) by done.
    by rewrite <-list_fmap_compose. }
  split; [done|]. intros x y Hx Hy Hxy. rewrite Hrun.
  rewrite filter_none; [done|]. intros ds Hds [Huuid Hscope].
  apply list_elem_of_fmap in Hscope as (b & Hid & Hb).
  apply Hxy. rewrite <-(Hy ds), Hid by done. by apply Hx.
Qed.

(** ** Search *)

Lemma get_user_obj_run (w : world) (username : pyval) (u : User) :
  find_user (w_sql w) username = Some u → get_user_obj username w = (Ok u, w).
Proof.
  intros Hu. unfold get_user_obj, _get_user_obj. run.
  unfold find_user in Hu. by rewrite Hu.
Qed.

Lemma get_user_obj_unknown (w : world) (username : pyval) :
  find_user (w_sql w) username = None →
  get_user_obj username w = (Raise AuthenticationError, w).
Proof.
  intros Hu. unfold get_user_obj, _get_user_obj. run.
  unfold find_user in Hu. by rewrite Hu.
Qed.

Lemma search_body_run (query : nat) (qd : pydict) (b : BaseURI)
    (acc : list pydict) (w : world) :
  w_heap w !! query = Some qd →
  (base_uri_query ← dict_copy query;
   dict_setitem base_uri_query "base_uri" (VStr (BaseURI_base_uri b)) ;;
   q ← deref base_uri_query;
   cx ← collection_find mongo_op q;
   mret (acc ++ cx)) w
  = (Ok (acc ++ find_docs mongo_op (pinned qd b) (w_mongo w)),
     mkWorld (w_sql w) (w_committed w) (w_mongo w)
       (<[fresh (dom (w_heap w)) := pinned qd b]> (w_heap w))).
Proof.
  intros Hq. unfold dict_copy, new_dict, dict_setitem, store, collection_find. run.
  rewrite Hq. cbn. rewrite !lookup_insert_eq. cbn. by rewrite insert_insert_eq.
Qed.

Lemma fresh_heap_ne (heap : gmap nat pydict) (l : nat) (d : pydict) :
  heap !! l = Some d → fresh (dom heap) ≠ l.
Proof.
  intros Hl Heq. apply (is_fresh (dom heap)). rewrite Heq.
  apply elem_of_dom. by eexists.
Qed.

(** The loop of the search: the results of the pinned filters, in the order
    of the scope; the stores are not touched, and neither is the caller's
    query, since each round writes to a copy. *)
Lemma search_loop_run (query : nat) (qd : pydict) (scope : list BaseURI) :
  ∀ (acc : list pydict) (w : world),
    w_heap w !! query = Some qd →
    ∃ heap',
      for_fold scope acc (λ datasets base_uri,
        base_uri_query ← dict_copy query;
        dict_setitem base_uri_query "base_uri" (VStr (BaseURI_base_uri base_uri)) ;;
        q ← deref base_uri_query;
        cx ← collection_find mongo_op q;
        mret (datasets ++ cx)) w
      = (Ok (acc ++ (b ← scope; find_docs mongo_op (pinned qd b) (w_mongo w))),
         mkWorld (w_sql w) (w_committed w) (w_mongo w) heap')
      ∧ heap' !! query = Some qd.
Proof.
  induction scope as [|b scope IH]; intros acc w Hq.
  - exists (w_heap w). cbn. rewrite app_nil_r. by destruct w.
  - cbn [for_fold]. unfold mbind at 1, M_bind at 1.
    rewrite (search_body_run query qd b acc w Hq).
    edestruct (IH (acc ++ find_docs mongo_op (pinned qd b) (w_mongo w))
                 (mkWorld (w_sql w) (w_committed w) (w_mongo w)
                    (<[fresh (dom (w_heap w)) := pinned qd b]> (w_heap w))))
      as (heap' & Hrun & Hq').
    { cbn. rewrite lookup_insert_ne; [done|]. by eapply fresh_heap_ne. }
    exists heap'. rewrite Hrun. cbn. by rewrite <-app_assoc.
Qed.

Lemma search_datasets_by_user_run (w : world) (username : pyval) (query : nat)
    (qd : pydict) (u : User) :
  find_user (w_sql w) username = Some u →
  w_heap w !! query = Some qd →
  ∃ heap',
    search_datasets_by_user mongo_op username query w
    = (Ok (b ← User_search_base_uris (w_sql w) u;
           find_docs mongo_op (pinned qd b) (w_mongo w)),
       mkWorld (w_sql w) (w_committed w) (w_mongo w) heap')
    ∧ heap' !! query = Some qd.
Proof.
  intros Hu Hq. unfold search_datasets_by_user.
  unfold mbind at 1, M_bind at 1. rewrite (get_user_obj_run _ _ _ Hu).
  unfold mbind at 1, M_bind at 1, session.
  destruct (search_loop_run query qd (User_search_base_uris (w_sql w) u) [] w Hq)
    as (heap' & Hrun & Hq').
  exists heap'. by rewrite Hrun.
Qed.

Lemma collection_find_run (q : pydict) (w : world) :
  collection_find mongo_op q w = (Ok (find_docs mongo_op q (w_mongo w)), w).
Proof. unfold collection_find. by run. Qed.

Lemma pinned_lookup (qd : pydict) (b : BaseURI) :
  pinned qd b !! "base_uri" = Some (VStr (BaseURI_base_uri b))
  ∧ ∀ k, k ≠ "base_uri" → pinned qd b !! k = qd !! k.
Proof.
  unfold pinned. split; [by rewrite lookup_insert_eq|].
  intros k Hk. by rewrite lookup_insert_ne.
Qed.

(** C4. For a user that exists, [search_datasets_by_user] takes the user's
    search scope and returns, in the order of the scope, the lists that the
    store's [find] yields for the caller's filter with [base_uri] set to each
    base URI of the scope; with an empty scope that is the empty list, not an
    error.  For a username that denotes no user it raises
    [AuthenticationError]. *)
Theorem search_for_user_fans_out (w : world) (username : pyval) (query : nat)
    (qd : pydict) :
  w_heap w !! query = Some qd →
  (∀ u, find_user (w_sql w) username = Some u →
     ∃ w',
       search_datasets_by_user mongo_op username query w
       = (Ok (b ← User_search_base_uris (w_sql w) u;
              find_docs mongo_op (pinned qd b) (w_mongo w)), w')
       ∧ (∀ b, collection_find mongo_op (pinned qd b) w
               = (Ok (find_docs mongo_op (pinned qd b) (w_mongo w)), w))
       ∧ (∀ b, pinned qd b !! "base_uri" = Some (VStr (BaseURI_base_uri b))
               ∧ ∀ k, k ≠ "base_uri" → pinned qd b !! k = qd !! k)
       ∧ (User_search_base_uris (w_sql w) u = [] →
          search_datasets_by_user mongo_op username query w = (Ok [], w')))
  ∧ (find_user (w_sql w) username = None →
     search_datasets_by_user mongo_op username query w
     = (Raise AuthenticationError, w)).
Proof.
  intros Hq. split.
  - intros u Hu.
    destruct (search_datasets_by_user_run w username query qd u Hu Hq)
      as (heap' & Hrun & _).
    eexists. split_and!; [done| | |].
    + intros b. apply collection_find_run.
    + intros b. apply pinned_lookup.
    + intros Hempty. by rewrite Hrun, Hempty.
  - intros Hu. unfold search_datasets_by_user.
    unfold mbind at 1, M_bind at 1. by rewrite (get_user_obj_unknown _ _ Hu).
Qed.

(** A document found under a pinned filter is a stored document of that
    base URI. *)
Lemma find_docs_pinned (qd : pydict) (b : BaseURI) (coll : list pydict) (d : pydict) :
  d ∈ find_docs mongo_op (pinned qd b) coll →
  ∃ stored, stored ∈ coll ∧ d = delete "_id" stored
            ∧ stored !! "base_uri" = Some (VStr (BaseURI_base_uri b))
            ∧ d !! "base_uri" = Some (VStr (BaseURI_base_uri b)).
Proof.
  unfold find_docs. intros (stored & -> & Hin)%list_elem_of_fmap.
  apply list_elem_of_filter in Hin as [Hm Hin]. apply Is_true_true in Hm.
  exists stored. split_and!; [done..| |].
  - rewrite matches_spec in Hm. apply (field_match_str "base_uri"); [done|].
    apply Hm. apply pinned_lookup.
  - rewrite lookup_delete_ne by done.
    rewrite matches_spec in Hm. apply (field_match_str "base_uri"); [done|].
    apply Hm. apply pinned_lookup.
Qed.

(** The pinned filter forgets what the caller put under [base_uri]. *)
Lemma pinned_forgets (qd qd' : pydict) (b : BaseURI) :
  delete "base_uri" qd' = delete "base_uri" qd → pinned qd' b = pinned qd b.
Proof.
  intros Heq. unfold pinned.
  by rewrite <-(insert_delete_eq qd), <-(insert_delete_eq qd'), Heq.
Qed.

(** C9. Whatever the caller's filter holds, under [base_uri] or elsewhere,
    every document a search returns is a stored document whose base URI is
    one the user has a search edge to: the filter sent to the store has its
    [base_uri] overwritten with a base URI of the scope, so two filters that
    differ only under [base_uri] get the same answer.  The overwriting is
    done on a copy: after the search the caller's dict is what it was, and so
    are the two stores. *)
Theorem search_is_confined_to_scope (w : world) (username : pyval) (query : nat)
    (qd : pydict) (u : User) :
  find_user (w_sql w) username = Some u →
  w_heap w !! query = Some qd →
  ∃ res w',
    search_datasets_by_user mongo_op username query w = (Ok res, w')
    ∧ (∀ d, d ∈ res →
         ∃ b stored,
           b ∈ User_search_base_uris (w_sql w) u
           ∧ has_search (w_sql w) username (BaseURI_base_uri b)
           ∧ stored ∈ w_mongo w ∧ d = delete "_id" stored
           ∧ stored !! "base_uri" = Some (VStr (BaseURI_base_uri b))
           ∧ d !! "base_uri" = Some (VStr (BaseURI_base_uri b)))
    ∧ (∀ (w2 : world) (query2 : nat) (qd2 : pydict),
         w_sql w2 = w_sql w → w_mongo w2 = w_mongo w →
         w_heap w2 !! query2 = Some qd2 →
         delete "base_uri" qd2 = delete "base_uri" qd →
         (search_datasets_by_user mongo_op username query2 w2).1 = Ok res)
    ∧ w_heap w' !! query = Some qd
    ∧ w_sql w' = w_sql w ∧ w_committed w' = w_committed w
    ∧ w_mongo w' = w_mongo w.
Proof.
  intros Hu Hq.
  destruct (search_datasets_by_user_run w username query qd u Hu Hq)
    as (heap' & Hrun & Hq').
  eexists _, _. split_and!; [exact Hrun| | |done..].
  - intros d (b & Hd & Hb)%list_elem_of_bind.
    apply find_docs_pinned in Hd as (stored & ? & ? & ? & ?).
    exists b, stored. split_and!; [done| |done..].
    exists u. split; [done|]. by apply list_elem_of_fmap_2.
  - intros w2 query2 qd2 Hsql Hmongo Hq2 Heq.
    rewrite <-Hsql in Hu.
    destruct (search_datasets_by_user_run w2 username query2 qd2 u Hu Hq2)
      as (heap2 & Hrun2 & _).
    rewrite Hrun2, Hsql, Hmongo. cbn. f_equal.
    apply list_bind_ext; [|done]. intros b. by rewrite (pinned_forgets qd qd2).
Qed.

(** * More of the program

    Properties of the functions of [utils.py] and of the views beyond the
    specification's: what they do at their edges, what they keep, and how
    they compose. *)

Section Coverage.

Variable User_as_dict : sql_db → User → pydict.
Variable BaseURI_as_dict : sql_db → BaseURI → pydict.

(** ** The validator *)

(** X1. A payload that lacks one of the required keys is refused with
    [False] and without an exception, whatever its other values are: the
    check of the keys comes before any value is looked at. *)
Theorem dataset_info_is_valid_missing_key (d : pydict) (k : string) :
  k ∈ DATASET_INFO_REQUIRED_KEYS → d !! k = None →
  dataset_info_is_valid d = Ok false.
Proof.
  intros Hk Hd. unfold dataset_info_is_valid.
  destruct (forallb _ _) eqn:Hall; [|done].
  destruct (proj1 (required_keys_spec d) Hall k Hk) as [v Hv]. congruence.
Qed.

(** X2. The validator raises only on a payload that has every required key
    and the type ["dataset"], and only in two ways: a [TypeError] when the
    uuid has no length, an [AttributeError] when the uuid has length 36 and
    the base URI is not a string.  It never raises a [KeyError]. *)
Theorem dataset_info_is_valid_raises (d : pydict) (e : exn) :
  dataset_info_is_valid d = Raise e →
  (∀ k, k ∈ DATASET_INFO_REQUIRED_KEYS → is_Some (d !! k))
  ∧ d !! "type" = Some (VStr "dataset")
  ∧ ((e = TypeError ∧ ∃ v, d !! "uuid" = Some v ∧ py_len v = Raise TypeError)
     ∨ (e = AttributeError
        ∧ (∃ v, d !! "uuid" = Some v ∧ py_len v = Ok 36)
        ∧ ∃ v, d !! "base_uri" = Some v ∧ py_endswith v "/" = Raise AttributeError)).
Proof.
  unfold dataset_info_is_valid, getitem.
  destruct (forallb _ _) eqn:Hall; [|done]. cbn [negb].
  pose proof (proj1 (required_keys_spec d) Hall) as Hkeys. clear Hall.
  assert (is_Some (d !! "type")) as [t Ht]
    by (apply Hkeys; unfold DATASET_INFO_REQUIRED_KEYS; set_solver).
  assert (is_Some (d !! "uuid")) as [u Hu]
    by (apply Hkeys; unfold DATASET_INFO_REQUIRED_KEYS; set_solver).
  assert (is_Some (d !! "base_uri")) as [b Hb]
    by (apply Hkeys; unfold DATASET_INFO_REQUIRED_KEYS; set_solver).
  rewrite Ht, Hu, Hb.
  case_bool_decide as Htype; [|done]. subst t. cbn [negb].
  destruct (py_len u) as [n|e'] eqn:Hlen.
  - destruct (n =? 36)%nat eqn:Hn; [|done]. cbn [negb].
    apply Nat.eqb_eq in Hn as ->.
    destruct (py_endswith b "/") as [[]|e'] eqn:Hends; [done..|].
    intros [= <-]. split_and!; [done..|]. right.
    destruct b; try done. all: cbn in Hends; injection Hends as <-; eauto 10.
  - intros [= <-]. split_and!; [done..|]. left.
    destruct u; try done. all: cbn in Hlen; injection Hlen as <-; eauto.
Qed.

(** X3. Validation looks at the six required keys only: setting or removing
    any other key of the payload never changes its outcome. *)
Theorem dataset_info_is_valid_other_keys (d : pydict) (k : string) (v : pyval) :
  k ∉ DATASET_INFO_REQUIRED_KEYS →
  dataset_info_is_valid (<[k := v]> d) = dataset_info_is_valid d
  ∧ dataset_info_is_valid (delete k d) = dataset_info_is_valid d.
Proof.
  intros Hk. unfold DATASET_INFO_REQUIRED_KEYS in Hk.
  repeat (apply not_elem_of_cons in Hk as [? Hk]).
  unfold dataset_info_is_valid, DATASET_INFO_REQUIRED_KEYS, getitem.
  cbn [forallb].
  by rewrite !lookup_insert_ne, !lookup_delete_ne by done.
Qed.

(** ** Users *)

Lemma for_each_run_Forall {A} (P : A → Prop) (xs : list A) (body : A → M unit)
    (step : world → A → world) :
  (∀ x w, P x → body x w = (Ok (), step w x)) →
  Forall P xs → ∀ w, for_each xs body w = (Ok (), foldl step w xs).
Proof.
  intros Hbody Hall. induction Hall as [|x xs Hx _ IH]; intros w; cbn; [done|].
  unfold mbind, M_bind. rewrite Hbody by done. apply IH.
Qed.

Lemma for_each_app {A} (xs ys : list A) (body : A → M unit) (w : world) :
  for_each (xs ++ ys) body w
  = match for_each xs body w with
    | (Ok _, w1) => for_each ys body w1
    | (Raise e, w1) => (Raise e, w1)
    end.
Proof.
  revert w. induction xs as [|x xs IH]; intros w; cbn; [done|].
  unfold mbind, M_bind. destruct (body x w) as [[[]|e] w1]; [apply IH|done].
Qed.

Lemma username_taken (db : sql_db) (s : string) :
  existsb (λ u, bool_decide (VStr (User_username u) = VStr s)) (users db) = true
  ↔ s ∈ User_username <$> users db.
Proof.
  rewrite existsb_exists, list_elem_of_fmap. split.
  - intros (u & Hu%list_elem_of_In & Heq%bool_decide_eq_true). exists u. split; congruence.
  - intros (u & -> & Hu). exists u. split; [by apply list_elem_of_In|].
    by apply bool_decide_eq_true.
Qed.

Lemma find_user_is_Some (db : sql_db) (s : string) :
  is_Some (find_user db (VStr s)) ↔ s ∈ User_username <$> users db.
Proof.
  unfold find_user. rewrite list_elem_of_fmap. split.
  - intros [u Hu]. apply head_filter_elem in Hu as [Hin Heq].
    exists u. split; congruence.
  - intros (u & -> & Hu).
    destruct (head _) as [u'|] eqn:Hhead; [by eexists|].
    eapply head_filter_None in Hhead; [|done]. by destruct Hhead.
Qed.

(** The loop of [register_users] on entries with a username. *)
Lemma column_bool_entry (user : pydict) (w : world) :
  user_entry user →
  column_bool (get_is_admin user) w = (Ok (entry_is_admin user), w).
Proof.
  intros [_ Hadmin]. unfold get_is_admin, entry_is_admin.
  by destruct Hadmin as [->|[b ->]].
Qed.

Lemma register_users_loop_run (users_in : list pydict) (w : world) :
  Forall user_entry users_in →
  for_each users_in (λ user,
    username ← lift (getitem user "username");
    db ← session;
    if existsb (λ u, bool_decide (VStr (User_username u) = bound username)) (users db)
    then mret ()
    else
      username ← column_str username;
      is_admin ← column_bool (get_is_admin user);
      session_add_user username is_admin) w
  = (Ok (), foldl register_user_step w users_in).
Proof.
  intros Hall. revert w.
  apply (for_each_run_Forall user_entry); [|done].
  intros user w Hentry. pose proof Hentry as [[s Hs] _].
  unfold register_user_step, with_user. rewrite Hs.
  unfold mbind, M_bind, lift, getitem, session. rewrite Hs. cbn.
  destruct (existsb _ _) eqn:Htaken; [by destruct w|].
  rewrite (column_bool_entry user w Hentry).
  unfold session_add_user, mbind, M_bind, session, set_session.
  rewrite bool_decide_eq_false_2; [done|].
  intros Hin%username_taken. congruence.
Qed.

Lemma bind_Raise {A B} (m : M A) (f : A → M B) (w w' : world) (e : exn) :
  m w = (Raise e, w') → (m ≫= f) w = (Raise e, w').
Proof. unfold mbind, M_bind. by intros ->. Qed.

Lemma bind_Ok {A B} (m : M A) (f : A → M B) (w w' : world) (a : A) :
  m w = (Ok a, w') → (m ≫= f) w = f a w'.
Proof. unfold mbind, M_bind. by intros ->. Qed.

Lemma register_users_run (users_in : list pydict) (w : world) :
  Forall user_entry users_in →
  register_users users_in w
  = (Ok (), mkWorld (w_sql (foldl register_user_step w users_in))
              (w_sql (foldl register_user_step w users_in))
              (w_mongo (foldl register_user_step w users_in))
              (w_heap (foldl register_user_step w users_in))).
Proof.
  intros Hall. unfold register_users.
  by rewrite (bind_Ok _ _ _ _ _ (register_users_loop_run _ w Hall)).
Qed.

(** What the rounds of the loop leave: the rows that were there, then the
    new ones. *)
Lemma register_user_steps (users_in : list pydict) :
  Forall user_entry users_in →
  ∀ w, ∃ new,
    users (w_sql (foldl register_user_step w users_in)) = users (w_sql w) ++ new
    ∧ base_uris (w_sql (foldl register_user_step w users_in)) = base_uris (w_sql w)
    ∧ datasets (w_sql (foldl register_user_step w users_in)) = datasets (w_sql w)
    ∧ search_permissions (w_sql (foldl register_user_step w users_in))
      = search_permissions (w_sql w)
    ∧ register_permissions (w_sql (foldl register_user_step w users_in))
      = register_permissions (w_sql w)
    ∧ w_committed (foldl register_user_step w users_in) = w_committed w
    ∧ w_mongo (foldl register_user_step w users_in) = w_mongo w
    ∧ w_heap (foldl register_user_step w users_in) = w_heap w
    ∧ (∀ u, u ∈ new →
         (User_username u ∉ User_username <$> users (w_sql w))
         ∧ ∃ user, user ∈ users_in
             ∧ user !! "username" = Some (VStr (User_username u))
             ∧ (User_is_admin u = true ↔ user !! "is_admin" = Some (VBool true)))
    ∧ (∀ user s, user ∈ users_in → user !! "username" = Some (VStr s) →
         s ∈ User_username <$> (users (w_sql w) ++ new))
    ∧ (NoDup (User_username <$> users (w_sql w)) →
       NoDup (User_username <$> (users (w_sql w) ++ new)))
    ∧ (NoDup (User_id <$> users (w_sql w)) →
       NoDup (User_id <$> (users (w_sql w) ++ new))).
Proof.
  induction 1 as [|user users_in [[s Hs] Hadmin] _ IH]; intros w.
  - exists []. cbn. rewrite app_nil_r. split_and!; try done.
    + intros u Hu. by apply elem_of_nil in Hu.
    + intros user s Hu. by apply elem_of_nil in Hu.
  - cbn [foldl].
    destruct (IH (register_user_step w user))
      as (new & Husers & Hb & Hd & Hsp & Hrp & Hc & Hm & Hh & Hnew & Hall & Hnames & Hids).
    rewrite Husers, Hb, Hd, Hsp, Hrp, Hc, Hm, Hh. clear Husers Hb Hd Hsp Hrp Hc Hm Hh.
    revert Hnew Hall Hnames Hids.
    unfold register_user_step. rewrite Hs. cbn [w_sql w_committed w_mongo w_heap].
    unfold with_user.
    destruct (existsb _ (users (w_sql w))) eqn:Htaken; cbn [users base_uris datasets
      search_permissions register_permissions]; intros Hnew Hall Hnames Hids.
    + apply username_taken in Htaken.
      exists new. split_and!; try done.
      * intros u Hu. destruct (Hnew u Hu) as (Hfresh & user' & Hin & Hrest).
        split; [done|]. exists user'. split; [by right|done].
      * intros user' s' [->|Hin]%elem_of_cons Hs'.
        -- rewrite Hs in Hs'. injection Hs' as <-. rewrite fmap_app.
           apply elem_of_app. by left.
        -- by eapply Hall.
    + assert (Hfree : s ∉ User_username <$> users (w_sql w)).
      { intros Hin%username_taken. congruence. }
      exists (mkUser (next_id (User_id <$> users (w_sql w))) s (entry_is_admin user) :: new).
      rewrite <-!(assoc_L (++)) in *. cbn [app] in *.
      split_and!; try done.
      * intros u [->|Hu]%elem_of_cons.
        -- split; [done|]. exists user. split; [by left|]. split; [done|].
           cbn [User_is_admin]. unfold entry_is_admin.
           destruct Hadmin as [->|[b ->]]; [done|]. split; congruence.
        -- destruct (Hnew u Hu) as (Hfresh & user' & Hin & Hrest). split.
           ++ intros Hin'. apply Hfresh. rewrite fmap_app. apply elem_of_app. by left.
           ++ exists user'. split; [by right|done].
      * intros user' s' [->|Hin]%elem_of_cons Hs'.
        -- rewrite Hs in Hs'. injection Hs' as <-. rewrite fmap_app.
           apply elem_of_app. right. cbn. by left.
        -- by eapply Hall.
      * intros Hnodup. apply Hnames. rewrite fmap_app. apply NoDup_app.
        split_and!; [done| |apply NoDup_singleton].
        intros name Hname ->%list_elem_of_singleton. done.
      * intros Hnodup. apply Hids. rewrite fmap_app. apply NoDup_app.
        split_and!; [done| |apply NoDup_singleton].
        intros n Hn ->%list_elem_of_singleton.
        apply next_id_fresh in Hn. cbn in Hn. lia.
Qed.

(** X4. [register_users], on entries with a string for username and, when
    given, a truth value for is_admin: the rows that were there stay as they
    are, in place; each row added carries a username that was not there, the
    one of an entry, with that entry's is_admin ([False] when not given);
    every listed username exists afterwards; usernames and ids stay unique;
    the session is committed; nothing else changes. *)
Theorem register_users_adds_the_missing (w : world) (users_in : list pydict) :
  Forall user_entry users_in →
  ∃ w' new,
    register_users users_in w = (Ok (), w')
    ∧ users (w_sql w') = users (w_sql w) ++ new
    ∧ (∀ u, u ∈ new →
         (User_username u ∉ User_username <$> users (w_sql w))
         ∧ ∃ user, user ∈ users_in
             ∧ user !! "username" = Some (VStr (User_username u))
             ∧ (User_is_admin u = true ↔ user !! "is_admin" = Some (VBool true)))
    ∧ (∀ user s, user ∈ users_in → user !! "username" = Some (VStr s) →
         user_exists (VStr s) w' = (Ok true, w'))
    ∧ (NoDup (User_username <$> users (w_sql w)) →
       NoDup (User_username <$> users (w_sql w')))
    ∧ (NoDup (User_id <$> users (w_sql w)) → NoDup (User_id <$> users (w_sql w')))
    ∧ w_committed w' = w_sql w'
    ∧ base_uris (w_sql w') = base_uris (w_sql w)
    ∧ datasets (w_sql w') = datasets (w_sql w)
    ∧ search_permissions (w_sql w') = search_permissions (w_sql w)
    ∧ register_permissions (w_sql w') = register_permissions (w_sql w)
    ∧ w_mongo w' = w_mongo w ∧ w_heap w' = w_heap w.
Proof.
  intros Hall.
  destruct (register_user_steps users_in Hall w)
    as (new & Husers & Hb & Hd & Hsp & Hrp & Hc & Hm & Hh & Hnew & Hlisted & Hnames & Hids).
  eexists _, new. split; [by apply register_users_run|].
  cbn [w_sql w_committed w_mongo w_heap]. rewrite Husers.
  split_and!; try done.
  intros user s Hin Hs. rewrite user_exists_run. cbn [w_sql].
  rewrite bool_decide_eq_true_2; [done|].
  apply find_user_is_Some. rewrite Husers. by eapply Hlisted.
Qed.

(** The loop of [register_users] changes nothing when every listed username
    is taken. *)
Lemma register_user_steps_taken (users_in : list pydict) (w : world) :
  (∀ user s, user ∈ users_in → user !! "username" = Some (VStr s) →
     s ∈ User_username <$> users (w_sql w)) →
  foldl register_user_step w users_in = w.
Proof.
  induction users_in as [|user users_in IH]; intros Htaken; cbn [foldl]; [done|].
  assert (Hstep : register_user_step w user = w).
  { unfold register_user_step, with_user.
    destruct (user !! "username") as [[| | |s| | |]|] eqn:Hs; try done.
    rewrite (proj2 (username_taken (w_sql w) s)); [by destruct w|].
    eapply Htaken; [by left|done]. }
  rewrite Hstep. apply IH. intros user' s Hin. apply Htaken. by right.
Qed.

(** X5. [register_users] is idempotent: called again with the same list, it
    ends normally and leaves both the session and the committed store as
    the first call left them. *)
Theorem register_users_twice (w : world) (users_in : list pydict) :
  Forall user_entry users_in →
  ∃ w', register_users users_in w = (Ok (), w')
        ∧ register_users users_in w' = (Ok (), w').
Proof.
  intros Hall.
  destruct (register_user_steps users_in Hall w)
    as (new & Husers & _ & _ & _ & _ & _ & _ & _ & _ & Hlisted & _).
  eexists. split; [by apply register_users_run|].
  rewrite register_users_run by done.
  rewrite register_user_steps_taken; [done|].
  cbn [w_sql]. rewrite Husers. apply Hlisted.
Qed.

(** X6. An entry without a username stops [register_users] with a
    [KeyError]: the entries before it have been added to the session, and
    nothing is committed. *)
Theorem register_users_missing_username (w : world) (before after : list pydict)
    (bad : pydict) :
  Forall user_entry before → bad !! "username" = None →
  ∃ w1 w',
    register_users before w = (Ok (), w1)
    ∧ register_users (before ++ bad :: after) w = (Raise (KeyError "username"), w')
    ∧ w_sql w' = w_sql w1
    ∧ w_committed w' = w_committed w
    ∧ w_mongo w' = w_mongo w ∧ w_heap w' = w_heap w.
Proof.
  intros Hall Hbad.
  destruct (register_user_steps before Hall w)
    as (new & _ & _ & _ & _ & _ & Hc & Hm & Hh & _).
  eexists _, _. split; [by apply register_users_run|].
  split.
  - unfold register_users. apply bind_Raise. rewrite for_each_app.
    rewrite (register_users_loop_run _ w Hall). cbn [for_each].
    apply bind_Raise, bind_Raise. unfold lift, getitem. by rewrite Hbad.
  - done.
Qed.

(** X7. The lookups of a user agree: [get_user_info] answers [None] for
    exactly the usernames for which [get_user_obj] raises
    [AuthenticationError] and [user_exists] answers [False]; for the others
    it renders the row that [get_user_obj] returns, a row of that name, and
    what it renders is among the entries of [list_users].  None of them
    changes the world. *)
Theorem get_user_info_agrees_with_get_user_obj (w : world) (username : pyval) :
  (get_user_info User_as_dict username w = (Ok None, w)
   ∧ get_user_obj username w = (Raise AuthenticationError, w)
   ∧ user_exists username w = (Ok false, w))
  ∨ (∃ u, get_user_info User_as_dict username w
          = (Ok (Some (User_as_dict (w_sql w) u)), w)
          ∧ get_user_obj username w = (Ok u, w)
          ∧ user_exists username w = (Ok true, w)
          ∧ u ∈ users (w_sql w) ∧ VStr (User_username u) = username
          ∧ ∃ listed, list_users User_as_dict w = (Ok listed, w)
                      ∧ User_as_dict (w_sql w) u ∈ listed).
Proof.
  unfold get_user_info, get_user_obj, user_exists, _get_user_obj, list_users. run.
  destruct (head _) as [u|] eqn:Hhead; run; [right|by left].
  exists u. apply head_filter_elem in Hhead as [? ?].
  split_and!; [done..|]. eexists. split; [done|]. by apply list_elem_of_fmap_2.
Qed.

(** ** Base URIs *)

Lemma head_filter_app_Some {A} (P : A → Prop) `{!∀ x, Decision (P x)}
    (l : list A) (x : A) :
  P x → ∃ y, head (filter P (l ++ [x])) = Some y ∧ P y
             ∧ (head (filter P l) = None → y = x).
Proof.
  intros Hx. rewrite filter_app, filter_cons_True, filter_nil by done.
  destruct (filter P l) as [|y l'] eqn:Hl; cbn.
  - by exists x.
  - exists y. split_and!; [done| |done].
    assert (y ∈ filter P l) as Hy by (rewrite Hl; left).
    by apply list_elem_of_filter in Hy as [? _].
Qed.

Lemma no_base_uri_of_name (db : sql_db) (s : string) :
  find_base_uri db (VStr s) = None ↔ s ∉ BaseURI_base_uri <$> base_uris db.
Proof.
  unfold find_base_uri. split.
  - intros Hhead (x & -> & Hx)%list_elem_of_fmap.
    eapply head_filter_None in Hhead; [|done]. by apply Hhead.
  - intros Hfree. destruct (head _) as [row|] eqn:Hhead; [|done].
    apply head_filter_elem in Hhead as [Hin Heq]. destruct Hfree.
    apply list_elem_of_fmap. exists row. split; [congruence|done].
Qed.

Lemma register_base_uri_run (w : world) (s : string) :
  find_base_uri (w_sql w) (VStr s) = None →
  register_base_uri (VStr s) w
  = (Ok (),
     mkWorld
       (mkSqlDb (users (w_sql w))
          (base_uris (w_sql w)
           ++ [mkBaseURI (next_id (BaseURI_id <$> base_uris (w_sql w))) s])
          (datasets (w_sql w)) (search_permissions (w_sql w))
          (register_permissions (w_sql w)))
       (mkSqlDb (users (w_sql w))
          (base_uris (w_sql w)
           ++ [mkBaseURI (next_id (BaseURI_id <$> base_uris (w_sql w))) s])
          (datasets (w_sql w)) (search_permissions (w_sql w))
          (register_permissions (w_sql w)))
       (w_mongo w) (w_heap w)).
Proof.
  intros Hfree%no_base_uri_of_name. unfold register_base_uri. run. run.
  by rewrite bool_decide_eq_false_2.
Qed.

Lemma register_base_uri_again (w : world) (s : string) :
  is_Some (find_base_uri (w_sql w) (VStr s)) →
  register_base_uri (VStr s) w
  = (Raise IntegrityError,
     mkWorld (w_committed w) (w_committed w) (w_mongo w) (w_heap w)).
Proof.
  intros Hsome. unfold register_base_uri, integrity_error. run. run.
  rewrite bool_decide_eq_true_2; [done|].
  destruct (decide (s ∈ BaseURI_base_uri <$> base_uris (w_sql w))) as [|Hfree]; [done|].
  apply no_base_uri_of_name in Hfree. rewrite Hfree in Hsome. by destruct Hsome.
Qed.

Lemma find_base_uri_run (b : pyval) (w : world) :
  _get_base_uri_obj b w = (Ok (find_base_uri (w_sql w) b), w).
Proof. unfold _get_base_uri_obj. by run. Qed.

Lemma base_uri_exists_run (b : pyval) (w : world) :
  base_uri_exists b w = (Ok (bool_decide (is_Some (find_base_uri (w_sql w) b))), w).
Proof.
  unfold base_uri_exists. rewrite (bind_Ok _ _ _ _ _ (find_base_uri_run b w)).
  by destruct (find_base_uri _ _).
Qed.

Lemma get_base_uri_obj_run (b : pyval) (w : world) :
  get_base_uri_obj b w
  = match find_base_uri (w_sql w) b with
    | Some row => (Ok row, w)
    | None => (Raise (ValidationError (Base_URI_not_registered b)), w)
    end.
Proof.
  unfold get_base_uri_obj. rewrite (bind_Ok _ _ _ _ _ (find_base_uri_run b w)).
  by destruct (find_base_uri _ _).
Qed.

(** X8. [register_base_uri] of a string that no base URI of the session has
    for its name adds one row of that name, under an id that no row had,
    after the rows that were there, and commits; the name is registered
    afterwards, and so is every name that was; users, datasets, permissions
    and documents are what they were.  For a name that a base URI of the
    session has, the unique key refuses the row: the call raises
    [IntegrityError], the session is rolled back to the committed store,
    and documents and dicts are what they were. *)
Theorem register_base_uri_registers (w : world) (s : string) :
  (find_base_uri (w_sql w) (VStr s) = None →
   ∃ w' row,
     register_base_uri (VStr s) w = (Ok (), w')
     ∧ base_uris (w_sql w') = base_uris (w_sql w) ++ [row]
     ∧ BaseURI_base_uri row = s
     ∧ (BaseURI_id row ∉ BaseURI_id <$> base_uris (w_sql w))
     ∧ base_uri_exists (VStr s) w' = (Ok true, w')
     ∧ (∃ found, get_base_uri_obj (VStr s) w' = (Ok found, w')
                 ∧ BaseURI_base_uri found = s)
     ∧ (∀ b, base_uri_exists b w = (Ok true, w) →
             base_uri_exists b w' = (Ok true, w'))
     ∧ w_committed w' = w_sql w'
     ∧ users (w_sql w') = users (w_sql w)
     ∧ datasets (w_sql w') = datasets (w_sql w)
     ∧ search_permissions (w_sql w') = search_permissions (w_sql w)
     ∧ register_permissions (w_sql w') = register_permissions (w_sql w)
     ∧ w_mongo w' = w_mongo w ∧ w_heap w' = w_heap w)
  ∧ (is_Some (find_base_uri (w_sql w) (VStr s)) →
     register_base_uri (VStr s) w
     = (Raise IntegrityError,
        mkWorld (w_committed w) (w_committed w) (w_mongo w) (w_heap w))).
Proof.
  split; [|apply register_base_uri_again].
  intros Hfree.
  eexists _, _. split; [by apply register_base_uri_run|].
  cbn [w_sql w_committed w_mongo w_heap base_uris users datasets
         search_permissions register_permissions BaseURI_base_uri BaseURI_id].
  split_and!; try done.
  - cbn [BaseURI_id]. intros Hin%next_id_fresh. lia.
  - rewrite base_uri_exists_run. unfold find_base_uri. cbn [w_sql base_uris].
    edestruct (head_filter_app_Some (λ b, VStr (BaseURI_base_uri b) = VStr s))
      as (y & -> & _); [|by rewrite bool_decide_eq_true_2 by by eexists].
    done.
  - rewrite get_base_uri_obj_run. unfold find_base_uri. cbn [w_sql base_uris].
    edestruct (head_filter_app_Some (λ b, VStr (BaseURI_base_uri b) = VStr s))
      as (y & -> & Hy & _); [done|].
    exists y. split; [done|]. congruence.
  - intros b. rewrite !base_uri_exists_run. unfold find_base_uri. cbn [w_sql base_uris].
    intros [= [row Hrow]%bool_decide_eq_true].
    rewrite bool_decide_eq_true_2; [done|].
    rewrite filter_app. destruct (filter _ (base_uris (w_sql w))); [done|].
    by eexists.
Qed.

(** What a registration that passes the checks leaves in the two stores: a
    record under the uri, and a document that is the payload but for its
    [_id]. *)
Lemma registered_is_stored (sql : sql_db) (mongo : list pydict) (d : pydict)
    (bs s u n : string) (id : nat) :
  registrable d bs s u n →
  (s ∈ Dataset_uri <$> datasets (reconcile_admin (mkDataset s id u n) sql))
  ∧ ∃ stored, stored ∈ upsert mongo_op (dataset_key (VStr u) (VStr s)) d mongo
              ∧ delete "_id" stored = d.
Proof.
  intros [_ _ Hs Hu _ Hid]. split.
  - destruct (reconcile_admin_found (mkDataset s id u n) sql) as [x Hx].
    apply head_filter_elem in Hx as [Hin Heq]. cbn in Heq.
    apply list_elem_of_fmap. exists x. split; [congruence|done].
  - destruct (upsert_shape u s d Hu Hs Hid mongo)
      as (l1 & stored & l2 & -> & Hdel & _).
    exists stored. split; [|done]. apply elem_of_app. right. left.
Qed.


(** X10. The listing and the permissions of base URIs follow the
    registration.  For a name that is not registered, [show_permissions]
    raises [ValidationError]; after [register_base_uri] of that name it
    renders a row of that name, and [list_base_uris] has one entry more,
    with what [show_permissions] renders among its entries. *)
Theorem register_base_uri_is_listed (w : world) (s : string) :
  find_base_uri (w_sql w) (VStr s) = None →
  show_permissions BaseURI_as_dict (VStr s) w
  = (Raise (ValidationError (Base_URI_not_registered (VStr s))), w)
  ∧ ∃ w' found before after,
      register_base_uri (VStr s) w = (Ok (), w')
      ∧ show_permissions BaseURI_as_dict (VStr s) w'
        = (Ok (BaseURI_as_dict (w_sql w') found), w')
      ∧ found ∈ base_uris (w_sql w') ∧ BaseURI_base_uri found = s
      ∧ list_base_uris BaseURI_as_dict w = (Ok before, w)
      ∧ list_base_uris BaseURI_as_dict w' = (Ok after, w')
      ∧ length after = S (length before)
      ∧ BaseURI_as_dict (w_sql w') found ∈ after.
Proof.
  intros Hnone. split.
  - unfold show_permissions.
    apply bind_Raise. by rewrite get_base_uri_obj_run, Hnone.
  - edestruct (head_filter_app_Some (λ b, VStr (BaseURI_base_uri b) = VStr s)
                 (base_uris (w_sql w))
                 (mkBaseURI (next_id (BaseURI_id <$> base_uris (w_sql w))) s))
      as (found & Hfound & Heq & _); [done|].
    eexists _, found, _, _. split; [by apply register_base_uri_run|].
    unfold show_permissions, list_base_uris.
    split_and!.
    + erewrite bind_Ok; [|rewrite get_base_uri_obj_run; unfold find_base_uri;
                           cbn [w_sql base_uris]; by rewrite Hfound].
      by run.
    + apply head_filter_elem in Hfound as [Hin _]. done.
    + congruence.
    + by run.
    + by run.
    + cbn [w_sql base_uris]. rewrite !length_fmap, length_app. cbn. lia.
    + apply head_filter_elem in Hfound as [Hin _]. by apply list_elem_of_fmap_2.
Qed.

(** ** Listing and lookup *)

Lemma list_bind_singleton_fmap {A B} (f : A → B) (l : list A) :
  (x ← l; [f x]) = f <$> l.
Proof. induction l as [|x l IH]; csimpl; by f_equal. Qed.

Lemma list_bind_fmap_out {A B C} (g : A → list B) (f : B → C) (l : list A) :
  (x ← l; y ← g x; [f y]) = f <$> (l ≫= g).
Proof.
  induction l as [|x l IH]; csimpl; [done|].
  by rewrite fmap_app, list_bind_singleton_fmap, IH.
Qed.

(** The rows that [list_datasets_by_user] renders. *)
Lemma list_datasets_by_user_run (w : world) (username : pyval) (u : User) :
  find_user (w_sql w) username = Some u →
  list_datasets_by_user Dataset_as_dict username w
  = (Ok (Dataset_as_dict (w_sql w) <$>
           (User_search_base_uris (w_sql w) u ≫= BaseURI_datasets (w_sql w))), w).
Proof.
  intros Hu. unfold list_datasets_by_user.
  rewrite (bind_Ok _ _ _ _ _ (get_user_obj_run w username u Hu)). run.
  by rewrite list_bind_fmap_out.
Qed.

Lemma elem_of_listed_rows (db : sql_db) (u : User) (ds : Dataset) :
  ds ∈ User_search_base_uris db u ≫= BaseURI_datasets db
  ↔ ds ∈ datasets db ∧ in_search_scope db u ds.
Proof.
  rewrite list_elem_of_bind. unfold BaseURI_datasets, in_search_scope.
  rewrite list_elem_of_fmap. split.
  - intros (b & [Hid Hin]%list_elem_of_filter & Hb). split; [done|]. by exists b.
  - intros (Hin & b & Hid & Hb). exists b. split; [|done].
    by apply list_elem_of_filter.
Qed.

(** X11. [list_datasets_by_user] raises [AuthenticationError] for a username
    that is not registered; for a user it renders the admin records whose
    base URI is among the user's search base URIs, and no other; without
    search base URIs the list is empty.  It changes nothing. *)
Theorem list_datasets_by_user_lists_the_scope (w : world) (username : pyval) :
  (find_user (w_sql w) username = None →
   list_datasets_by_user Dataset_as_dict username w = (Raise AuthenticationError, w))
  ∧ (∀ u, find_user (w_sql w) username = Some u →
       ∃ rows,
         list_datasets_by_user Dataset_as_dict username w
         = (Ok (Dataset_as_dict (w_sql w) <$> rows), w)
         ∧ (∀ ds, ds ∈ rows ↔ ds ∈ datasets (w_sql w) ∧ in_search_scope (w_sql w) u ds)
         ∧ (User_search_base_uris (w_sql w) u = [] → rows = [])).
Proof.
  split.
  - intros Hnone. unfold list_datasets_by_user.
    apply bind_Raise. by apply get_user_obj_unknown.
  - intros u Hu. eexists. split; [by apply list_datasets_by_user_run|].
    split; [apply elem_of_listed_rows|]. by intros ->.
Qed.

(** X12. Lookup agrees with listing: under the unique keys of the admin
    store, the records that [lookup_datasets_by_user_and_uuid] renders are
    exactly those that [list_datasets_by_user] renders for the same user
    and that carry the uuid. *)
Theorem lookup_agrees_with_list (w : world) (username uuid : pyval) (u : User) :
  find_user (w_sql w) username = Some u →
  unique_keys (w_sql w) →
  ∃ listed found,
    list_datasets_by_user Dataset_as_dict username w
    = (Ok (Dataset_as_dict (w_sql w) <$> listed), w)
    ∧ lookup_datasets_by_user_and_uuid Dataset_as_dict username uuid w
      = (Ok (Dataset_as_dict (w_sql w) <$> found), w)
    ∧ ∀ ds, ds ∈ found ↔ ds ∈ listed ∧ VStr (Dataset_uuid ds) = uuid.
Proof.
  intros Hu Hkeys.
  exists (User_search_base_uris (w_sql w) u ≫= BaseURI_datasets (w_sql w)),
    (filter (λ ds, VStr (Dataset_uuid ds) = uuid ∧ in_search_scope (w_sql w) u ds)
       (datasets (w_sql w))).
  split; [by apply list_datasets_by_user_run|]. split.
  - unfold lookup_datasets_by_user_and_uuid.
    rewrite (bind_Ok _ _ _ _ _ (get_user_obj_run w username u Hu)). run.
    rewrite <-(lookup_query_datasets (w_sql w) username uuid u Hu Hkeys).
    by rewrite <-list_fmap_compose.
  - intros ds. rewrite list_elem_of_filter, elem_of_listed_rows.
    split; [intros [[? ?] ?]|intros [[? ?] ?]]; done.
Qed.

(** X13. A grant shows in the listing: after [update_permissions] has named
    a registered user among the users with search permissions on a base
    URI, [list_datasets_by_user] renders for that user every admin record
    of that base URI. *)
Theorem granted_search_lists_the_datasets (w : world) (permissions : pydict)
    (b username : pyval) (base : BaseURI) (S R : list pyval) (u : User) :
  permissions !! "base_uri" = Some b →
  find_base_uri (w_sql w) b = Some base →
  permissions !! "users_with_search_permissions" = Some (VList S) →
  permissions !! "users_with_register_permissions" = Some (VList R) →
  username ∈ S → find_user (w_sql w) username = Some u →
  ∃ w' rows,
    update_permissions permissions w = (Ok (), w')
    ∧ list_datasets_by_user Dataset_as_dict username w'
      = (Ok (Dataset_as_dict (w_sql w') <$> rows), w')
    ∧ datasets (w_sql w') = datasets (w_sql w)
    ∧ ∀ ds, ds ∈ datasets (w_sql w) → Dataset_base_uri_id ds = BaseURI_id base →
            ds ∈ rows.
Proof.
  intros Hb Hbase HS HR Hin Hu.
  eexists _, _. split; [by eapply update_permissions_run|].
  split; [by apply list_datasets_by_user_run|]. split; [done|].
  intros ds Hds Hid. cbn [w_sql]. apply elem_of_listed_rows. split; [done|].
  unfold in_search_scope, User_search_base_uris, grant_all.
  cbn [search_permissions]. apply list_elem_of_fmap. exists base. split; [done|].
  apply elem_of_related_base_uris. cbn [base_uris].
  apply find_base_uri_elem in Hbase as [Hbase _]. split; [done|].
  apply elem_of_add_edges. right.
  apply elem_of_granted_rows. split; [done|]. by exists username, u.
Qed.

(** ** Admin metadata *)

Lemma get_admin_metadata_from_uri_run (uri : pyval) (w : world) :
  get_admin_metadata_from_uri Dataset_as_dict uri w
  = (Ok (Dataset_as_dict (w_sql w) <$> find_dataset (w_sql w) uri), w).
Proof.
  unfold get_admin_metadata_from_uri, find_dataset. cbn [bound column_text] in *. run.
  by destruct (head _).
Qed.

Lemma list_admin_metadata_in_base_uri_run (b : pyval) (w : world) (row : BaseURI) :
  find_base_uri (w_sql w) b = Some row →
  list_admin_metadata_in_base_uri Dataset_as_dict b w
  = (Ok (Dataset_as_dict (w_sql w) <$> BaseURI_datasets (w_sql w) row), w).
Proof.
  intros Hrow. unfold list_admin_metadata_in_base_uri.
  erewrite bind_Ok; [|by rewrite get_base_uri_obj_run, Hrow]. by run.
Qed.

(** X14. [register_dataset_admin_metadata] checks the base URI and nothing
    else: for a payload with strings for uri, uuid and name under a
    registered base URI, valid or not, whose uri has no record, it adds the
    record with the id of the base URI's row and commits;
    [get_admin_metadata_from_uri] then renders that record, and
    [list_admin_metadata_in_base_uri] has it among the records of the base
    URI. *)
Theorem register_dataset_admin_metadata_round_trip (w : world) (l : nat)
    (d : pydict) (b : pyval) (brow : BaseURI) (s u n : string) :
  w_heap w !! l = Some d →
  d !! "base_uri" = Some b → find_base_uri (w_sql w) b = Some brow →
  d !! "uri" = Some (VStr s) → d !! "uuid" = Some (VStr u) →
  d !! "name" = Some (VStr n) →
  find_dataset (w_sql w) (VStr s) = None →
  ∃ w' rows,
    register_dataset_admin_metadata l w = (Ok (), w')
    ∧ datasets (w_sql w') = datasets (w_sql w) ++ [mkDataset s (BaseURI_id brow) u n]
    ∧ w_committed w' = w_sql w'
    ∧ get_admin_metadata_from_uri Dataset_as_dict (VStr s) w
      = (Ok None, w)
    ∧ get_admin_metadata_from_uri Dataset_as_dict (VStr s) w'
      = (Ok (Some (Dataset_as_dict (w_sql w') (mkDataset s (BaseURI_id brow) u n))), w')
    ∧ list_admin_metadata_in_base_uri Dataset_as_dict b w'
      = (Ok (Dataset_as_dict (w_sql w') <$> rows), w')
    ∧ mkDataset s (BaseURI_id brow) u n ∈ rows
    ∧ w_mongo w' = w_mongo w ∧ w_heap w' = w_heap w.
Proof.
  intros Hl Hb Hbrow Hs Hu Hn Hnone.
  assert (Hrun : register_dataset_admin_metadata l w
    = (Ok (), mkWorld
         (mkSqlDb (users (w_sql w)) (base_uris (w_sql w))
            (datasets (w_sql w) ++ [mkDataset s (BaseURI_id brow) u n])
            (search_permissions (w_sql w)) (register_permissions (w_sql w)))
         (mkSqlDb (users (w_sql w)) (base_uris (w_sql w))
            (datasets (w_sql w) ++ [mkDataset s (BaseURI_id brow) u n])
            (search_permissions (w_sql w)) (register_permissions (w_sql w)))
         (w_mongo w) (w_heap w))).
  { unfold register_dataset_admin_metadata, get_base_uri_obj, _get_base_uri_obj.
    unfold find_base_uri in Hbrow.
    repeat (progress (run; rewrite ?Hl; cbn; rewrite ?Hb, ?Hbrow, ?Hs, ?Hu, ?Hn)).
    by rewrite (bool_decide_eq_false_2 _ (no_record_under_uri _ _ Hnone)). }
  eexists _, _. split; [exact Hrun|].
  cbn [w_sql w_committed w_mongo w_heap datasets].
  split_and!; try done.
  - by rewrite get_admin_metadata_from_uri_run, Hnone.
  - rewrite get_admin_metadata_from_uri_run. unfold find_dataset in *. cbn [bound column_text] in *.
    cbn [w_sql datasets].
    edestruct (head_filter_app_Some (λ ds, VStr (Dataset_uri ds) = VStr s)
                 (datasets (w_sql w)) (mkDataset s (BaseURI_id brow) u n))
      as (y & -> & _ & Hy); [done|]. by rewrite (Hy Hnone).
  - by apply list_admin_metadata_in_base_uri_run.
  - unfold BaseURI_datasets. cbn [datasets].
    apply list_elem_of_filter. split; [done|]. apply elem_of_app. right. left.
Qed.


(** ** The readme *)

Lemma matches_uri (s : string) (x : pydict) :
  matches mongo_op (<["uri" := VStr s]> ∅) x = true ↔ x !! "uri" = Some (VStr s).
Proof.
  rewrite matches_spec. split.
  - intros Hq. apply (field_match_str "uri"); [done|].
    apply Hq. apply lookup_insert_eq.
  - intros Hx k v Hk.
    apply lookup_insert_Some in Hk as [[<- <-]|[_ Hk]]; [|by rewrite lookup_empty in Hk].
    by apply field_match_str.
Qed.

Lemma valid_has_required_keys (d : pydict) (k : string) :
  dataset_info_is_valid d = Ok true → k ∈ DATASET_INFO_REQUIRED_KEYS →
  is_Some (d !! k).
Proof.
  unfold dataset_info_is_valid.
  destruct (forallb _ _) eqn:Hall; [|done]. intros _.
  by apply (proj1 (required_keys_spec d)).
Qed.

(** X16. The readme comes back: after [register_dataset] has accepted a
    payload, [get_readme_from_uri] on the payload's uri returns the
    payload's readme, provided the collection held no document under that
    uri with another uuid. *)
Theorem get_readme_from_uri_after_register (w : world) (l : nat) (d : pydict)
    (bs s u n : string) (brow : BaseURI) :
  w_heap w !! l = Some d →
  registrable d bs s u n →
  find_base_uri (w_sql w) (VStr bs) = Some brow →
  (∀ x, x ∈ w_mongo w → x !! "uri" = Some (VStr s) → x !! "uuid" = Some (VStr u)) →
  ∃ w' r,
    register_dataset mongo_op Dataset_as_dict l w = (Ok (VStr s), w')
    ∧ d !! "readme" = Some r
    ∧ get_readme_from_uri mongo_op (VStr s) w' = (Ok r, w').
Proof.
  destruct w as [sql committed mongo heap]. cbn [w_heap w_sql w_mongo w_committed].
  intros Hl Hreg Hbrow Hsame.
  destruct (valid_has_required_keys d "readme" (reg_valid _ _ _ _ _ Hreg)) as [r Hr];
    [by_evaluation|].
  eexists _, r. split; [by apply (register_dataset_run _ _ _ _ _ d bs s u n brow)|].
  split; [done|].
  destruct Hreg as [_ _ Hs Hu _ Hid].
  destruct (upsert_shape u s d Hu Hs Hid mongo)
    as (l1 & stored & l2 & Hshape & Hdel & _ & _ & Hl1 & Hcoll).
  unfold get_readme_from_uri, collection_find_one. run. rewrite Hshape.
  assert (Hin : ∀ x, x ∈ l1 → x ∈ mongo).
  { intros x Hx. destruct Hcoll as [(old & -> & _)|(-> & _)]; [|done].
    apply elem_of_app. by left. }
  rewrite filter_app, filter_none.
  2:{ intros x Hx Hm. apply Is_true_eq_true in Hm.
      pose proof (proj1 (matches_uri s x) Hm) as Hx'.
      rewrite Forall_forall in Hl1. apply (Hl1 x Hx).
      apply Is_true_eq_left. apply (proj2 (matches_dataset_key u s x)).
      split; [|done]. by apply Hsame; [apply Hin|]. }
  assert (Hstored : ∀ k, k ≠ "_id" → stored !! k = d !! k).
  { intros k Hk. by rewrite <-Hdel, lookup_delete_ne. }
  rewrite filter_cons_True.
  2:{ apply Is_true_eq_left. apply (proj2 (matches_uri s stored)).
      by rewrite Hstored. }
  cbn. unfold getitem. by rewrite Hstored, Hr.
Qed.

(** ** Descriptive metadata *)

Lemma insert_one_effect (l : nat) (w w' : world) :
  collection_insert_one l w = (Ok (), w') →
  w_sql w' = w_sql w ∧ w_committed w' = w_committed w
  ∧ delete "_id" (heap_dict w' l) = delete "_id" (heap_dict w l)
  ∧ is_Some (heap_dict w' l !! "_id")
  ∧ (∀ l', l' ≠ l → w_heap w' !! l' = w_heap w !! l')
  ∧ length (w_mongo w') = S (length (w_mongo w)).
Proof.
  destruct w as [sql committed mongo heap].
  unfold collection_insert_one. run.
  destruct (doc_id _) as [oid|] eqn:Hid; run.
  - destruct (existsb _ mongo); [done|]. unfold set_collection.
    intros [= <-]. cbn. rewrite length_app. cbn.
    split_and!; [done|done|done|by eexists|done|lia].
  - unfold store. cbn. destruct (existsb _ mongo); [done|]. unfold set_collection.
    intros [= <-]. cbn. rewrite lookup_insert_eq, length_app. cbn.
    rewrite delete_insert_eq, lookup_insert_eq.
    split_and!; [done|done|done|by eexists| |lia].
    intros l' Hl'. by rewrite lookup_insert_ne.
Qed.

Lemma find_one_and_replace_effect (q : pydict) (l : nat) (w w' : world)
    (r : option pydict) :
  collection_find_one_and_replace mongo_op q l w = (Ok r, w') →
  w_sql w' = w_sql w ∧ w_committed w' = w_committed w ∧ w_heap w' = w_heap w
  ∧ length (w_mongo w') = length (w_mongo w).
Proof.
  destruct w as [sql committed mongo heap].
  unfold collection_find_one_and_replace. run.
  destruct (list_find _ mongo) as [[i old]|]; [|by intros [= _ <-]].
  destruct (bool_decide _); [|done]. unfold set_collection. run.
  intros [= _ <-]. cbn. by rewrite length_insert.
Qed.

(** X17. [_register_dataset_descriptive_metadata] hands the payload back
    without the store's identifier.  When it ends normally, either the
    payload was refused by validation, [None] is returned and nothing has
    changed; or the payload's uuid is returned, the caller's dict is what it
    was without any [_id], no other dict has changed, the admin store is
    untouched, and the collection has the same number of documents or one
    more. *)
Theorem descriptive_metadata_strips_id (l : nat) (w w' : world) (o : option pyval) :
  _register_dataset_descriptive_metadata mongo_op l w = (Ok o, w') →
  (dataset_info_is_valid (heap_dict w l) = Ok false ∧ o = None ∧ w' = w)
  ∨ (dataset_info_is_valid (heap_dict w l) = Ok true
     ∧ is_Some o ∧ o = heap_dict w l !! "uuid"
     ∧ heap_dict w' l = delete "_id" (heap_dict w l)
     ∧ (∀ l', l' ≠ l → w_heap w' !! l' = w_heap w !! l')
     ∧ w_sql w' = w_sql w ∧ w_committed w' = w_committed w
     ∧ (length (w_mongo w') = length (w_mongo w)
        ∨ length (w_mongo w') = S (length (w_mongo w)))).
Proof.
  intros H. unfold _register_dataset_descriptive_metadata in H.
  apply bind_Ok_inv in H as (d & w1 & [= <- <-] & H).
  apply bind_Ok_inv in H as (valid & w1 & Hvalid & H).
  cbn in Hvalid. injection Hvalid as Hvalid <-.
  destruct valid; cbn [negb] in H; [right|left; by injection H as <- <-].
  split; [done|].
  apply bind_Ok_inv in H as (uuid & w1 & [-> Huuid]%dict_getitem_inv & H).
  apply bind_Ok_inv in H as (uri & w1 & [-> Huri]%dict_getitem_inv & H).
  apply bind_Ok_inv in H as (exists_ & w1 & Hfind & H).
  destruct (find_one_read_only (<["uuid":=uuid]> (<["uri":=uri]> ∅)) w) as [o' Hfind'].
  rewrite Hfind' in Hfind. injection Hfind as -> <-.
  apply bind_Ok_inv in H as ([] & w2 & Hwrite & H).
  assert (Hw2 : w_sql w2 = w_sql w ∧ w_committed w2 = w_committed w
                ∧ delete "_id" (heap_dict w2 l) = delete "_id" (heap_dict w l)
                ∧ (heap_dict w2 l !! "_id" = None → heap_dict w2 l = heap_dict w l)
                ∧ (∀ l', l' ≠ l → w_heap w2 !! l' = w_heap w !! l')
                ∧ (length (w_mongo w2) = length (w_mongo w)
                   ∨ length (w_mongo w2) = S (length (w_mongo w)))).
  { destruct exists_ as [old|].
    - apply bind_Ok_inv in Hwrite as (r & w3 & Hrepl & [= <-]).
      apply find_one_and_replace_effect in Hrepl as (? & ? & Hheap & ?).
      unfold heap_dict. rewrite Hheap. split_and!; auto.
    - apply insert_one_effect in Hwrite as (? & ? & ? & [? Hid] & ? & ?).
      split_and!; auto. intros Hnone. by rewrite Hid in Hnone. }
  destruct Hw2 as (Hsql & Hcommitted & Hdel & Hsame & Hothers & Hlen).
  apply bind_Ok_inv in H as (has_id & w3 & [= <- <-] & H).
  apply bind_Ok_inv in H as ([] & w3 & Hstrip & H).
  apply bind_Ok_inv in H as (uuid' & w4 & [-> Huuid']%dict_getitem_inv & [= <- <-]).
  case_bool_decide as Hid.
  - destruct Hid as [oid Hoid]. revert Hstrip Huuid'. unfold dict_delitem. run.
    fold (heap_dict w2 l). rewrite Hoid. unfold store. intros [= <-]. cbn.
    rewrite lookup_insert_eq. cbn. rewrite Hdel. intros Huuid'.
    rewrite lookup_delete_ne in Huuid' by done.
    fold (heap_dict w l).
    split_and!; [by eexists|congruence|done| |done|done|done].
    intros l' Hl'. rewrite lookup_insert_ne by done. by apply Hothers.
  - cbv [mret M_ret] in Hstrip. injection Hstrip as <-.
    assert (heap_dict w2 l !! "_id" = None) as Hnone.
    { destruct (heap_dict w2 l !! "_id") eqn:E; [|done]. destruct Hid. by eexists. }
    pose proof (Hsame Hnone) as Heq. rewrite Heq in Huuid', Hnone |- *.
    rewrite delete_id by done.
    split_and!; [by eexists|congruence|done..].
Qed.

Lemma dict_getitem_run (l : nat) (k : string) (w : world) :
  dict_getitem l k w
  = match heap_dict w l !! k with
    | Some v => (Ok v, w)
    | None => (Raise (KeyError k), w)
    end.
Proof. unfold dict_getitem, getitem. run. by destruct (_ !! k). Qed.

(** X18. [register_dataset_descriptive_metadata] checks the base URI and
    leaves validation to its helper, whose refusal it drops: without a
    [base_uri] key it raises [KeyError]; under a base URI that is not
    registered it raises [ValidationError]; and for a payload that
    validation refuses under a registered base URI it returns normally and
    has written nothing, where [register_dataset] raises
    [ValidationError]. *)
Theorem register_dataset_descriptive_metadata_drops_refusal (w : world) (l : nat) :
  (heap_dict w l !! "base_uri" = None →
   register_dataset_descriptive_metadata mongo_op l w = (Raise (KeyError "base_uri"), w))
  ∧ (∀ b, heap_dict w l !! "base_uri" = Some b →
       find_base_uri (w_sql w) b = None →
       register_dataset_descriptive_metadata mongo_op l w
       = (Raise (ValidationError (Base_URI_not_registered b)), w))
  ∧ (∀ b row, heap_dict w l !! "base_uri" = Some b →
       find_base_uri (w_sql w) b = Some row →
       dataset_info_is_valid (heap_dict w l) = Ok false →
       register_dataset_descriptive_metadata mongo_op l w = (Ok (), w)
       ∧ register_dataset mongo_op Dataset_as_dict l w
         = (Raise (ValidationError (Dataset_info_not_valid (heap_dict w l))), w)).
Proof.
  unfold register_dataset_descriptive_metadata. split_and!.
  - intros Hb. apply bind_Raise. by rewrite dict_getitem_run, Hb.
  - intros b Hb Hnone. erewrite bind_Ok; [|by rewrite dict_getitem_run, Hb].
    apply bind_Raise. by rewrite get_base_uri_obj_run, Hnone.
  - intros b row Hb Hrow Hinvalid. split; [|by apply register_dataset_invalid].
    erewrite bind_Ok; [|by rewrite dict_getitem_run, Hb].
    erewrite bind_Ok; [|by rewrite get_base_uri_obj_run, Hrow].
    unfold _register_dataset_descriptive_metadata. run. fold (heap_dict w l).
    by rewrite Hinvalid.
Qed.

(** ** Permissions *)

Lemma search_loop_grants (base : BaseURI) (usernames : list pyval) (w : world) :
  for_each usernames (λ username,
    e ← user_exists username;
    if e : bool
    then user ← get_user_obj username; search_base_uris_append user base
    else mret ()) w
  = (Ok (), add_search_rows (granted_rows (w_sql w) base usernames) w).
Proof.
  rewrite (for_each_run _ _ (λ w username,
             add_search_rows (granted_rows (w_sql w) base [username]) w)).
  - by rewrite add_search_rows_fold.
  - intros username w0. apply search_step_run.
Qed.

Lemma register_loop_grants (base : BaseURI) (usernames : list pyval) (w : world) :
  for_each usernames (λ username,
    e ← user_exists username;
    if e : bool
    then user ← get_user_obj username; register_base_uris_append user base
    else mret ()) w
  = (Ok (), add_register_rows (granted_rows (w_sql w) base usernames) w).
Proof.
  rewrite (for_each_run _ _ (λ w username,
             add_register_rows (granted_rows (w_sql w) base [username]) w)).
  - by rewrite add_register_rows_fold.
  - intros username w0. apply register_step_run.
Qed.

(** X19. A permissions dict without its list of users with register
    permissions stops [update_permissions] half way: a [KeyError] is raised
    and nothing is committed, but the search permissions it lists have
    reached the session: the rows of the search relation are those there
    were, still in place, and a row for each listed username that denotes a
    user, none of them twice if none was. *)
Theorem update_permissions_missing_register_list (w : world) (permissions : pydict)
    (b : pyval) (base : BaseURI) (S : list pyval) :
  permissions !! "base_uri" = Some b →
  find_base_uri (w_sql w) b = Some base →
  permissions !! "users_with_search_permissions" = Some (VList S) →
  permissions !! "users_with_register_permissions" = None →
  ∃ w',
    update_permissions permissions w
    = (Raise (KeyError "users_with_register_permissions"), w')
    ∧ (∀ row, row ∈ search_permissions (w_sql w')
              ↔ row ∈ search_permissions (w_sql w)
                ∨ row ∈ granted_rows (w_sql w) base S)
    ∧ search_permissions (w_sql w) `prefix_of` search_permissions (w_sql w')
    ∧ (NoDup (search_permissions (w_sql w)) → NoDup (search_permissions (w_sql w')))
    ∧ register_permissions (w_sql w') = register_permissions (w_sql w)
    ∧ w_committed w' = w_committed w
    ∧ users (w_sql w') = users (w_sql w)
    ∧ base_uris (w_sql w') = base_uris (w_sql w)
    ∧ datasets (w_sql w') = datasets (w_sql w)
    ∧ w_mongo w' = w_mongo w ∧ w_heap w' = w_heap w.
Proof.
  intros Hb Hbase HS HR.
  exists (add_search_rows (granted_rows (w_sql w) base S) w). split.
  - unfold update_permissions.
    erewrite bind_Ok; [|by unfold lift, getitem; rewrite Hb].
    erewrite bind_Ok; [|by rewrite get_base_uri_obj_run, Hbase].
    erewrite bind_Ok; [|by unfold lift, getitem; rewrite HS].
    erewrite bind_Ok; [|by unfold lift, py_iter].
    erewrite bind_Ok; [|apply search_loop_grants].
    apply bind_Raise. unfold lift, getitem. by rewrite HR.
  - cbn [add_search_rows w_sql w_committed w_mongo w_heap search_permissions
           register_permissions users base_uris datasets].
    split_and!; try done.
    + intros row. apply elem_of_add_edges.
    + apply add_edges_prefix.
    + apply add_edges_NoDup.
Qed.

Lemma has_permission_app (perms extra : list (nat * nat)) (db : sql_db)
    (username : pyval) (b : string) :
  has_permission perms db username b → has_permission (perms ++ extra) db username b.
Proof.
  intros (u & Hu & Hb). exists u. split; [done|].
  rewrite related_base_uris_app, fmap_app. apply elem_of_app. by left.
Qed.

(** A session that differs from another by rows added to the permission
    relations. *)
Lemma grown_permissions (w w' : world) :
  users (w_sql w') = users (w_sql w) →
  base_uris (w_sql w') = base_uris (w_sql w) →
  search_permissions (w_sql w) `prefix_of` search_permissions (w_sql w') →
  register_permissions (w_sql w) `prefix_of` register_permissions (w_sql w') →
  search_permissions (w_sql w) `prefix_of` search_permissions (w_sql w')
  ∧ register_permissions (w_sql w) `prefix_of` register_permissions (w_sql w')
  ∧ (∀ username b, has_search (w_sql w) username b → has_search (w_sql w') username b)
  ∧ (∀ username b, has_register (w_sql w) username b →
                   has_register (w_sql w') username b).
Proof.
  intros Hu Hb [search Hs] [register Hr]. unfold has_search, has_register.
  rewrite Hs, Hr. split_and!.
  - by eexists.
  - by eexists.
  - intros username b H. apply (has_permission_ext _ (w_sql w)); [done..|].
    by apply has_permission_app.
  - intros username b H. apply (has_permission_ext _ (w_sql w)); [done..|].
    by apply has_permission_app.
Qed.

(** X20. [update_permissions] only ever adds permissions.  However it ends,
    normally or with an exception: users, base URIs, datasets, documents
    and dicts are what they were; the rows of the two permission relations
    that were there are still there, in place, so that whoever could search
    or register under a base URI still can; and the session is committed
    exactly when the call ends normally. *)
Theorem update_permissions_only_appends (w w' : world) (permissions : pydict)
    (r : outcome ()) :
  update_permissions permissions w = (r, w') →
  users (w_sql w') = users (w_sql w)
  ∧ base_uris (w_sql w') = base_uris (w_sql w)
  ∧ datasets (w_sql w') = datasets (w_sql w)
  ∧ w_mongo w' = w_mongo w ∧ w_heap w' = w_heap w
  ∧ (r = Ok () ∧ w_committed w' = w_sql w'
     ∨ (∃ e, r = Raise e) ∧ w_committed w' = w_committed w)
  ∧ search_permissions (w_sql w) `prefix_of` search_permissions (w_sql w')
  ∧ register_permissions (w_sql w) `prefix_of` register_permissions (w_sql w')
  ∧ (∀ username b, has_search (w_sql w) username b → has_search (w_sql w') username b)
  ∧ (∀ username b, has_register (w_sql w) username b →
                   has_register (w_sql w') username b).
Proof.
  match goal with
  | |- _ → ?G => assert (Hsame : ∀ e, (Raise e, w) = (r, w') → G)
  end.
  { intros e [= <- <-]. do 5 (split; [done|]). split; [right; eauto|].
    by apply (grown_permissions w w). }
  unfold update_permissions.
  destruct (permissions !! "base_uri") as [b|] eqn:Hb.
  2:{ rewrite (bind_Raise _ _ w w (KeyError "base_uri"));
        [apply Hsame|by unfold lift, getitem; rewrite Hb]. }
  erewrite bind_Ok; [|by unfold lift, getitem; rewrite Hb].
  destruct (find_base_uri (w_sql w) b) as [base|] eqn:Hbase.
  2:{ rewrite (bind_Raise _ _ w w (ValidationError (Base_URI_not_registered b)));
        [apply Hsame|by rewrite get_base_uri_obj_run, Hbase]. }
  erewrite bind_Ok; [|by rewrite get_base_uri_obj_run, Hbase].
  destruct (permissions !! "users_with_search_permissions") as [ls|] eqn:Hls.
  2:{ rewrite (bind_Raise _ _ w w (KeyError "users_with_search_permissions"));
        [apply Hsame|by unfold lift, getitem; rewrite Hls]. }
  erewrite bind_Ok; [|by unfold lift, getitem; rewrite Hls].
  destruct (py_iter ls) as [S|e] eqn:HS.
  2:{ rewrite (bind_Raise _ _ w w e); [apply Hsame|by unfold lift; rewrite ?HS]. }
  erewrite bind_Ok; [|by unfold lift; rewrite ?HS].
  erewrite bind_Ok; [|apply search_loop_grants].
  clear Hsame.
  set (w1 := add_search_rows (granted_rows (w_sql w) base S) w).
  match goal with
  | |- _ → ?G => assert (Hstopped : ∀ e, (Raise e, w1) = (r, w') → G)
  end.
  { intros e [= <- <-]. do 5 (split; [done|]). split; [right; eauto|].
    apply (grown_permissions w w1); try done. apply add_edges_prefix. }
  destruct (permissions !! "users_with_register_permissions") as [lr|] eqn:Hlr.
  2:{ rewrite (bind_Raise _ _ w1 w1 (KeyError "users_with_register_permissions"));
        [apply Hstopped|by unfold lift, getitem; rewrite Hlr]. }
  erewrite bind_Ok; [|by unfold lift, getitem; rewrite Hlr].
  destruct (py_iter lr) as [R|e] eqn:HR.
  2:{ rewrite (bind_Raise _ _ w1 w1 e); [apply Hstopped|by unfold lift; rewrite ?HR]. }
  erewrite bind_Ok; [|by unfold lift; rewrite ?HR].
  erewrite bind_Ok; [|apply register_loop_grants].
  unfold commit. intros [= <- <-]. cbn [w_sql w_committed w_mongo w_heap].
  do 5 (split; [done|]). split; [by left|].
  apply (grown_permissions w
           (mkWorld (w_sql (add_register_rows (granted_rows (w_sql w1) base R) w1))
              (w_sql (add_register_rows (granted_rows (w_sql w1) base R) w1))
              (w_mongo w) (w_heap w))); try done; apply add_edges_prefix.
Qed.

(** ** Registration seen from the other functions *)

Lemma upsert_length (u s : string) (d : pydict) (coll : list pydict) :
  ((∃ x, x ∈ coll ∧ x !! "uuid" = Some (VStr u) ∧ x !! "uri" = Some (VStr s)) →
   length (upsert mongo_op (dataset_key (VStr u) (VStr s)) d coll) = length coll)
  ∧ ((∀ x, x ∈ coll → ¬ (x !! "uuid" = Some (VStr u) ∧ x !! "uri" = Some (VStr s))) →
     length (upsert mongo_op (dataset_key (VStr u) (VStr s)) d coll) = S (length coll)).
Proof.
  unfold upsert.
  destruct (list_find _ coll) as [[i old]|] eqn:Hfind.
  - apply list_find_Some in Hfind as (Hi & Hm & _).
    apply Is_true_eq_true in Hm. apply (proj1 (matches_dataset_key u s old)) in Hm.
    split; [by rewrite length_insert|].
    intros Hnone. destruct (Hnone old); [|done]. by eapply list_elem_of_lookup_2.
  - apply list_find_None in Hfind. rewrite Forall_forall in Hfind.
    split; [|by rewrite length_app; cbn; lia].
    intros (x & Hx & Hu & Hs). destruct (Hfind x Hx).
    apply Is_true_eq_left. by apply (proj2 (matches_dataset_key u s x)).
Qed.

(** X21. The count that [GET /] shows follows the registrations: after
    [register_dataset] has accepted a payload, the message counts one
    document more when no document was under the payload's uuid and uri,
    and as many as before when one was. *)
Theorem index_after_register_dataset (w : world) (l : nat) (d : pydict)
    (bs s u n : string) (brow : BaseURI) :
  w_heap w !! l = Some d →
  registrable d bs s u n →
  find_base_uri (w_sql w) (VStr bs) = Some brow →
  ∃ w',
    register_dataset mongo_op Dataset_as_dict l w = (Ok (VStr s), w')
    ∧ ((∀ x, x ∈ w_mongo w →
             ¬ (x !! "uuid" = Some (VStr u) ∧ x !! "uri" = Some (VStr s))) →
       routes.index w'
       = (Ok (VStr (pretty (S (length (w_mongo w))) +:+ " registered datasets")), w'))
    ∧ ((∃ x, x ∈ w_mongo w ∧ x !! "uuid" = Some (VStr u)
             ∧ x !! "uri" = Some (VStr s)) →
       routes.index w'
       = (Ok (VStr (pretty (length (w_mongo w)) +:+ " registered datasets")), w')).
Proof.
  destruct w as [sql committed mongo heap]. cbn [w_heap w_sql w_mongo w_committed].
  intros Hl Hreg Hbrow.
  eexists. split; [by apply (register_dataset_run _ _ _ _ _ d bs s u n brow)|].
  destruct (upsert_length u s d mongo) as [Hsame Hmore].
  unfold routes.index, collection_count. run.
  split; intros Hcase; [by rewrite Hmore|by rewrite Hsame].
Qed.

(** X22. What is registered is found: after [register_dataset] has accepted
    a payload, a user with search permission on the payload's base URI who
    searches with a filter of plain fields that the payload has gets the
    payload among the results. *)
Theorem search_finds_the_registered (w : world) (l q : nat) (d qd : pydict)
    (bs s u n : string) (brow : BaseURI) (username : pyval) :
  w_heap w !! l = Some d → w_heap w !! q = Some qd →
  registrable d bs s u n →
  find_base_uri (w_sql w) (VStr bs) = Some brow →
  has_search (w_sql w) username bs →
  plain_filter_of qd d →
  ∃ w1 res w2,
    register_dataset mongo_op Dataset_as_dict l w = (Ok (VStr s), w1)
    ∧ search_datasets_by_user mongo_op username q w1 = (Ok res, w2)
    ∧ d ∈ res.
Proof.
  destruct w as [sql committed mongo heap]. cbn [w_heap w_sql w_mongo w_committed].
  intros Hl Hq Hreg Hbrow (usr & Husr & Hscope) Hplain.
  apply list_elem_of_fmap in Hscope as (b & Hb & Hscope).
  destruct (registered_is_stored sql mongo d bs s u n (BaseURI_id brow) Hreg)
    as (_ & stored & Hstored & Hdel).
  set (ds := mkDataset s (BaseURI_id brow) u n).
  assert (Hadmin : users (reconcile_admin ds sql) = users sql
                   ∧ base_uris (reconcile_admin ds sql) = base_uris sql
                   ∧ search_permissions (reconcile_admin ds sql) = search_permissions sql).
  { unfold reconcile_admin. by destruct (head _). }
  destruct Hadmin as (Husers & Hbase & Hperms).
  edestruct (search_datasets_by_user_run
               (mkWorld (reconcile_admin ds sql) (reconcile_committed ds sql committed)
                  (upsert mongo_op (dataset_key (VStr u) (VStr s)) d mongo) heap)
               username q qd usr) as (heap' & Hsearch & _).
  { unfold find_user in *. cbn [w_sql]. by rewrite Husers. }
  { done. }
  eexists _, _, _. split; [by apply (register_dataset_run _ _ _ _ _ d bs s u n brow)|].
  split; [exact Hsearch|].
  cbn [w_sql w_mongo]. apply list_elem_of_bind. exists b. split.
  2:{ unfold User_search_base_uris, related_base_uris in *.
      by rewrite Hbase, Hperms. }
  unfold find_docs. apply list_elem_of_fmap. exists stored. split; [done|].
  apply list_elem_of_filter. split; [|done].
  assert (Hfields : ∀ k, k ≠ "_id" → stored !! k = d !! k).
  { intros k Hk. by rewrite <-Hdel, lookup_delete_ne. }
  apply Is_true_eq_left. apply (proj2 (matches_spec _ _)).
  intros k v Hk. unfold pinned in Hk.
  apply lookup_insert_Some in Hk as [[<- <-]|[Hne Hk]].
  - apply field_match_str; [done|]. rewrite Hfields by done.
    rewrite <-Hb. apply Hreg.
  - destruct (Hplain k v Hk) as [->|(Hprefix & Hdict & Hd)]; [done|].
    unfold field_match. rewrite Hprefix, Hdict. cbn.
    apply orb_true_iff. left.
    apply bool_decide_eq_true. rewrite Hfields; [done|].
    intros ->. destruct Hreg as [_ _ _ _ _ Hid]. congruence.
Qed.

(** ** The view of a dataset's info *)

(** [find_one()] is [find_one({})]: the empty filter matches every
    document. *)
Lemma find_one_any_empty_filter (w : world) :
  collection_find_one_any w = collection_find_one mongo_op ∅ w.
Proof.
  unfold collection_find_one_any, collection_find_one. run. do 2 f_equal.
  induction (w_mongo w) as [|x coll IH]; [done|].
  rewrite filter_cons_True; [by f_equal|].
  unfold matches. by rewrite map_to_list_empty.
Qed.

(** X23. [GET /lookup_dataset_info/<uuid>] does not look at the uuid: on an
    empty collection the view fails and the response is a 500; otherwise
    the response is the first document of the collection, without its
    [_id], whatever uuid was asked for.  The stores are left as they
    were. *)
Theorem lookup_dataset_info_answers_the_first_document (w : world) (uuid : pyval) :
  (w_mongo w = [] →
   app_init.lookup_dataset_info uuid w = (Raise TypeError, w)
   ∧ flask_response (app_init.lookup_dataset_info uuid) w = (mkResponse 500 VNone, w))
  ∧ (∀ first rest oid body,
       w_mongo w = first :: rest → first !! "_id" = Some oid →
       jsonify (delete "_id" first) = Ok body →
       ∃ w',
         flask_response (app_init.lookup_dataset_info uuid) w = (mkResponse 200 body, w')
         ∧ body = VDict (map_to_list (delete "_id" first))
         ∧ w_mongo w' = w_mongo w ∧ w_sql w' = w_sql w
         ∧ w_committed w' = w_committed w).
Proof.
  unfold flask_response, app_init.lookup_dataset_info, collection_find_one_any.
  split.
  - intros Hempty. run. rewrite Hempty. by cbn.
  - intros first rest oid body Hcoll Hid Hbody. run. rewrite Hcoll. cbn.
    unfold new_dict, dict_delitem, store. run.
    rewrite !lookup_insert_eq. cbn. rewrite Hid. cbn.
    rewrite !lookup_insert_eq. cbn. rewrite Hbody.
    eexists. split; [done|]. cbn. split; [|done].
    revert Hbody. unfold jsonify. destruct (forallb _ _); [|done]. by intros [= <-].
Qed.

End Coverage.

End Properties.

(** * The theorems at work *)

(** The example of the specification runs as it says: the registration
    returns the uri, and the search returns the payload and nothing else. *)
Example specification_example_runs :
  (specification_example empty_world).1
  = Ok (VStr "s3://bucket/abc", [example_payload]).
Proof. vm_compute. reflexivity. Qed.

(** A base URI with a trailing slash is refused although the base URI
    without it is registered (§8). *)
Example trailing_slash_is_refused :
  ((dataset_info ← new_dict (<["base_uri" := VStr "s3://bucket/"]> example_payload);
    register_dataset no_operators columns_as_dict dataset_info) fresh_world).1
  = Raise (ValidationError
             (Dataset_info_not_valid (<["base_uri" := VStr "s3://bucket/"]> example_payload))).
Proof. vm_compute. reflexivity. Qed.

(** Outside the strings, the validator fails as Python does: a number has
    no [len]. *)
Example number_for_uuid_is_a_type_error :
  dataset_info_is_valid (<["uuid" := VInt 5]> example_payload) = Raise TypeError.
Proof. vm_compute. reflexivity. Qed.

(** A number for [is_admin] is the truth value it stands for, and a number
    for a uri is stored as its text. *)
Example one_for_is_admin_is_true :
  users (w_sql (register_users
                  [ <["username" := VStr "dave"]> (<["is_admin" := VInt 1]> ∅) ]
                  fresh_world).2)
  = users example_db ++ [mkUser 3 "dave" true].
Proof. vm_compute. reflexivity. Qed.

Example number_for_uri_is_stored_as_text :
  ((dataset_info ← new_dict (<["uri" := VInt 5]> example_payload);
    register_dataset no_operators columns_as_dict dataset_info) fresh_world).1
  = Ok (VInt 5)
  ∧ datasets (w_sql ((dataset_info ← new_dict (<["uri" := VInt 5]> example_payload);
                      register_dataset no_operators columns_as_dict dataset_info)
                       fresh_world).2)
    = datasets example_db ++ [mkDataset "5" 1 example_uuid "n"].
Proof. split; vm_compute; reflexivity. Qed.

(** Registered again, the number finds the record under its text, and the
    username that is a number its row. *)
Example number_for_uri_registered_twice :
  ((dataset_info ← new_dict (<["uri" := VInt 5]> example_payload);
    register_dataset no_operators columns_as_dict dataset_info ;;
    register_dataset no_operators columns_as_dict dataset_info) fresh_world).1
  = Ok (VInt 5)
  ∧ datasets (w_sql ((dataset_info ← new_dict (<["uri" := VInt 5]> example_payload);
                      register_dataset no_operators columns_as_dict dataset_info ;;
                      register_dataset no_operators columns_as_dict dataset_info)
                       fresh_world).2)
    = datasets example_db ++ [mkDataset "5" 1 example_uuid "n"].
Proof. split; vm_compute; reflexivity. Qed.

Example number_for_username_registered_twice :
  (register_users [ <["username" := VInt 5]> ∅ ] ;;
   register_users [ <["username" := VInt 5]> ∅ ]) fresh_world
  = (Ok (),
     mkWorld
       (mkSqlDb (users example_db ++ [mkUser 3 "5" false]) (base_uris example_db)
          (datasets example_db) (search_permissions example_db)
          (register_permissions example_db))
       (mkSqlDb (users example_db ++ [mkUser 3 "5" false]) (base_uris example_db)
          (datasets example_db) (search_permissions example_db)
          (register_permissions example_db))
       [] example_heap).
Proof. vm_compute. reflexivity. Qed.

(** A permission granted twice is one row of the relation. *)
Example granted_twice_is_one_row :
  search_permissions
    (w_sql ((update_permissions (example_permissions "s3://bucket" [VStr "alice"] []) ;;
             update_permissions (example_permissions "s3://bucket" [VStr "alice"] []))
              fresh_world).2)
  = [(1, 1)].
Proof. vm_compute. reflexivity. Qed.

(** A filter that asks for [None] finds a document without the field. *)
Example none_matches_a_missing_field :
  (collection_find_one no_operators (<["creator" := VNone]> ∅) example_world).1
  = Ok (Some example_document).
Proof. vm_compute. reflexivity. Qed.

Lemma example_db_unique_keys : unique_keys example_db.
Proof.
  split; by_evaluation.
Qed.

(** A payload without its readme is refused, and nothing is written. *)
Lemma refused_without_readme :
  ∃ msg, register_dataset no_operators columns_as_dict 1 example_world
         = (Raise (ValidationError msg), example_world).
Proof.
  apply register_dataset_aborts_before_any_write.
  - reflexivity.
  - reflexivity.
  - left. intros (Hkeys & _).
    destruct (Hkeys "readme") as [v Hv].
    + by_evaluation.
    + vm_compute in Hv. discriminate Hv.
Defined.



(** A payload whose uuid is a number is not valid, and its registration
    ends in the interpreter's [TypeError], not in [ValidationError]; nothing
    is written. *)
Lemma number_for_uuid_is_no_validation_error :
  ¬ validation_conditions (heap_dict mistyped_world 0)
  ∧ register_dataset no_operators columns_as_dict 0 mistyped_world
    = (Raise TypeError, mistyped_world)
  ∧ ¬ ∃ msg, register_dataset no_operators columns_as_dict 0 mistyped_world
             = (Raise (ValidationError msg), mistyped_world).
Proof.
  assert (Hrun : register_dataset no_operators columns_as_dict 0 mistyped_world
                 = (Raise TypeError, mistyped_world)) by (vm_compute; reflexivity).
  split_and!; [|done|].
  - intros (_ & _ & (u & Hu & _) & _). vm_compute in Hu. discriminate Hu.
  - intros [msg Hmsg]. rewrite Hrun in Hmsg. discriminate Hmsg.
Qed.

(** Alice may search [s3://bucket] only; the dataset of [other_uuid] lives
    under [s3://other]: her lookup of that uuid is empty. *)
Lemma lookup_outside_scope_is_empty :
  lookup_datasets_by_user_and_uuid columns_as_dict (VStr "alice") (VStr other_uuid)
    example_world
  = (Ok [], example_world).
Proof.
  apply (proj2 (lookup_by_uuid_is_scoped columns_as_dict example_world
                  (VStr "alice") (VStr other_uuid) (mkUser 1 "alice" false)
                  eq_refl example_db_unique_keys)
           (mkBaseURI 1 "s3://bucket") (mkBaseURI 2 "s3://other")).
  - intros b Hb. vm_compute in Hb. apply list_elem_of_singleton in Hb. by subst b.
  - intros ds Hds _. apply list_elem_of_singleton in Hds. by subst ds.
  - discriminate.
Defined.

(** Alice's search with the filter at 2: one round, for [s3://bucket]. *)
Lemma example_search_fans_out :
  (∀ u, find_user (w_sql example_world) (VStr "alice") = Some u →
     ∃ w',
       search_datasets_by_user no_operators (VStr "alice") 2 example_world
       = (Ok (b ← User_search_base_uris (w_sql example_world) u;
              find_docs no_operators
                (pinned (<["base_uri" := VStr "s3://other"]> (<["name" := VStr "n"]> ∅)) b)
                (w_mongo example_world)), w')
       ∧ (∀ b, collection_find no_operators
                 (pinned (<["base_uri" := VStr "s3://other"]> (<["name" := VStr "n"]> ∅)) b)
                 example_world
               = (Ok (find_docs no_operators
                        (pinned (<["base_uri" := VStr "s3://other"]> (<["name" := VStr "n"]> ∅)) b)
                        (w_mongo example_world)), example_world))
       ∧ (∀ b, pinned (<["base_uri" := VStr "s3://other"]> (<["name" := VStr "n"]> ∅)) b
                 !! "base_uri" = Some (VStr (BaseURI_base_uri b))
               ∧ ∀ k, k ≠ "base_uri" →
                      pinned (<["base_uri" := VStr "s3://other"]> (<["name" := VStr "n"]> ∅)) b !! k
                      = (<["base_uri" := VStr "s3://other"]> (<["name" := VStr "n"]> ∅) : pydict) !! k)
       ∧ (User_search_base_uris (w_sql example_world) u = [] →
          search_datasets_by_user no_operators (VStr "alice") 2 example_world
          = (Ok [], w')))
  ∧ (find_user (w_sql example_world) (VStr "alice") = None →
     search_datasets_by_user no_operators (VStr "alice") 2 example_world
     = (Raise AuthenticationError, example_world)).
Proof.
  apply (search_for_user_fans_out no_operators example_world (VStr "alice") 2).
  reflexivity.
Defined.

(** Bob and a stranger are granted search on [s3://bucket], then alice and
    bob again. *)
Lemma example_grants_add_up :
  ∃ w1 w2,
    update_permissions
      (example_permissions "s3://bucket" [VStr "bob"; VStr "nobody"] []) example_world
    = (Ok (), w1)
    ∧ update_permissions
        (example_permissions "s3://bucket" [VStr "alice"; VStr "bob"] [VStr "bob"]) w1
      = (Ok (), w2)
    ∧ (∀ username b,
         has_search (w_sql w1) username b
         ↔ has_search (w_sql example_world) username b
           ∨ (b = "s3://bucket" ∧ username ∈ [VStr "bob"; VStr "nobody"]
              ∧ is_Some (find_user (w_sql example_world) username)))
    ∧ (∀ username b,
         has_register (w_sql w1) username b
         ↔ has_register (w_sql example_world) username b
           ∨ (b = "s3://bucket" ∧ username ∈ []
              ∧ is_Some (find_user (w_sql example_world) username)))
    ∧ (∀ username b,
         has_search (w_sql w2) username b
         ↔ has_search (w_sql example_world) username b
           ∨ (b = "s3://bucket"
              ∧ (username ∈ [VStr "bob"; VStr "nobody"]
                 ∨ username ∈ [VStr "alice"; VStr "bob"])
              ∧ is_Some (find_user (w_sql example_world) username)))
    ∧ (∀ username b,
         has_register (w_sql w2) username b
         ↔ has_register (w_sql example_world) username b
           ∨ (b = "s3://bucket" ∧ (username ∈ [] ∨ username ∈ [VStr "bob"])
              ∧ is_Some (find_user (w_sql example_world) username)))
    ∧ w_committed w1 = w_sql w1 ∧ w_committed w2 = w_sql w2.
Proof.
  apply update_permissions_additive.
  - reflexivity.
  - reflexivity.
  - reflexivity.
  - reflexivity.
  - reflexivity.
  - reflexivity.
  - unfold base_uri_registered. by_evaluation.
  - exact example_db_unique_keys.
Defined.



(** After two registrations under one uri with two uuids the admin store
    holds one record and the collection two documents: [GET /] says 2. *)
Lemma index_is_not_the_admin_record_count :
  (two_uuids_one_uri empty_world).1 = Ok (VStr "s3://bucket/abc")
  ∧ length (datasets (w_sql two_uuids_world)) = 1
  ∧ length (w_mongo two_uuids_world) = 2
  ∧ routes.index two_uuids_world
    = (Ok (VStr "2 registered datasets"), two_uuids_world)
  ∧ (VStr "2 registered datasets" = VStr "1 registered datasets" → False).
Proof.
  split_and!; [vm_compute; reflexivity..|discriminate].
Qed.

(** A grant to users that do not exist, on a registered base URI. *)
Lemma grant_to_strangers_is_skipped :
  (find_base_uri (w_sql example_world) (VStr "s3://bucket") = None →
   update_permissions
     (example_permissions "s3://bucket" [VStr "nobody"] [VStr "no one"]) example_world
   = (Raise (ValidationError (Base_URI_not_registered (VStr "s3://bucket"))),
      example_world))
  ∧ (∀ S R,
       is_Some (find_base_uri (w_sql example_world) (VStr "s3://bucket")) →
       example_permissions "s3://bucket" [VStr "nobody"] [VStr "no one"]
         !! "users_with_search_permissions" = Some (VList S) →
       example_permissions "s3://bucket" [VStr "nobody"] [VStr "no one"]
         !! "users_with_register_permissions" = Some (VList R) →
       (∀ username, username ∈ S ∨ username ∈ R →
                    find_user (w_sql example_world) username = None) →
       update_permissions
         (example_permissions "s3://bucket" [VStr "nobody"] [VStr "no one"])
         example_world
       = (Ok (), mkWorld (w_sql example_world) (w_sql example_world)
                   (w_mongo example_world) (w_heap example_world))).
Proof.
  apply grant_skips_unknown_user_rejects_unknown_base_uri.
  reflexivity.
Defined.

(** A grant on a base URI that is not registered is an error, although the
    user exists. *)
Lemma grant_on_unregistered_base_uri_raises :
  find_user (w_sql example_world) (VStr "alice") = Some (mkUser 1 "alice" false)
  ∧ update_permissions (example_permissions "s3://nowhere" [VStr "alice"] [])
      example_world
    = (Raise (ValidationError (Base_URI_not_registered (VStr "s3://nowhere"))),
       example_world)
  ∧ (Raise (ValidationError (Base_URI_not_registered (VStr "s3://nowhere")))
     = Ok () → False).
Proof.
  split_and!; [vm_compute; reflexivity..|discriminate].
Qed.

(** Alice asks for the documents of [s3://other]: she gets the document of
    [s3://bucket], and her filter still asks for [s3://other]. *)
Lemma example_search_is_confined :
  (search_datasets_by_user no_operators (VStr "alice") 2 example_world).1
  = Ok [example_payload]
  ∧ ∃ res w',
      search_datasets_by_user no_operators (VStr "alice") 2 example_world = (Ok res, w')
      ∧ (∀ d, d ∈ res →
           ∃ b, has_search (w_sql example_world) (VStr "alice") (BaseURI_base_uri b)
                ∧ d !! "base_uri" = Some (VStr (BaseURI_base_uri b)))
      ∧ w_heap w' !! 2
        = Some (<["base_uri" := VStr "s3://other"]> (<["name" := VStr "n"]> ∅))
      ∧ w_sql w' = w_sql example_world ∧ w_mongo w' = w_mongo example_world.
Proof.
  split; [vm_compute; reflexivity|].
  assert (Hu : find_user (w_sql example_world) (VStr "alice")
               = Some (mkUser 1 "alice" false)) by (vm_compute; reflexivity).
  assert (Hq : w_heap example_world !! 2
               = Some (<["base_uri" := VStr "s3://other"]> (<["name" := VStr "n"]> ∅)))
    by (vm_compute; reflexivity).
  destruct (search_is_confined_to_scope no_operators example_world (VStr "alice") 2
              (<["base_uri" := VStr "s3://other"]> (<["name" := VStr "n"]> ∅))
              (mkUser 1 "alice" false) Hu Hq)
    as (res & w' & Hrun & Hres & _ & Hquery & Hsql & _ & Hmongo).
  exists res, w'. split; [exact Hrun|]. split; [|split; [exact Hquery|split; assumption]].
  intros d Hd. destruct (Hres d Hd) as (b & stored & _ & Hgrant & _ & _ & _ & Hd').
  exists b. split; assumption.
Defined.

(** No document of the example collection has the uri asked for. *)
Lemma example_readme_missing :
  collection_find_one no_operators (<["uri" := VStr "s3://bucket/none"]> ∅) example_world
  = (Ok None, example_world)
  ∧ ∃ e, get_readme_from_uri no_operators (VStr "s3://bucket/none") example_world
         = (Raise e, example_world)
         ∧ e = TypeError ∧ is_typed_error e = false.
Proof.
  apply get_readme_from_uri_missing.
  intros d Hd. apply list_elem_of_singleton in Hd. subst d.
  vm_compute. discriminate.
Defined.

(** ** More of the program, at work *)

Lemma example_payload_registrable :
  registrable example_payload "s3://bucket" "s3://bucket/abc" example_uuid "n".
Proof. split; reflexivity. Qed.

(** A payload without readme whose uuid is a number is refused, not an
    error. *)
Lemma mistyped_and_incomplete_is_refused :
  dataset_info_is_valid (delete "readme" mistyped_payload) = Ok false.
Proof.
  apply (dataset_info_is_valid_missing_key _ "readme").
  - by_evaluation.
  - reflexivity.
Defined.

(** A number for uuid, in a payload that has all its keys, is a
    [TypeError]. *)
Lemma mistyped_raises_type_error :
  (∀ k, k ∈ DATASET_INFO_REQUIRED_KEYS → is_Some (mistyped_payload !! k))
  ∧ mistyped_payload !! "type" = Some (VStr "dataset")
  ∧ ((TypeError = TypeError
      ∧ ∃ v, mistyped_payload !! "uuid" = Some v ∧ py_len v = Raise TypeError)
     ∨ (TypeError = AttributeError
        ∧ (∃ v, mistyped_payload !! "uuid" = Some v ∧ py_len v = Ok 36)
        ∧ ∃ v, mistyped_payload !! "base_uri" = Some v
               ∧ py_endswith v "/" = Raise AttributeError)).
Proof.
  apply (dataset_info_is_valid_raises mistyped_payload TypeError).
  vm_compute. reflexivity.
Defined.

(** A creator, set or removed, is nothing to validation. *)
Lemma creator_is_not_validated :
  dataset_info_is_valid (<["creator" := VStr "alice"]> example_payload)
  = dataset_info_is_valid example_payload
  ∧ dataset_info_is_valid (delete "creator" example_payload)
    = dataset_info_is_valid example_payload.
Proof.
  apply (dataset_info_is_valid_other_keys example_payload "creator").
  by_evaluation.
Defined.

Lemma example_users_well_formed : Forall user_entry example_users.
Proof.
  apply Forall_cons_2; [split; [by exists "alice"|right; by exists true]|].
  apply Forall_cons_2; [split; [by exists "carol"|by left]|].
  apply Forall_nil_2.
Qed.

(** Alice and carol are registered where alice is: carol is added, alice is
    left as she is. *)
Lemma carol_is_added :
  ∃ w' new,
    register_users example_users example_world = (Ok (), w')
    ∧ users (w_sql w') = users (w_sql example_world) ++ new
    ∧ (∀ u, u ∈ new →
         (User_username u ∉ User_username <$> users (w_sql example_world))
         ∧ ∃ user, user ∈ example_users
             ∧ user !! "username" = Some (VStr (User_username u))
             ∧ (User_is_admin u = true ↔ user !! "is_admin" = Some (VBool true)))
    ∧ (∀ user s, user ∈ example_users → user !! "username" = Some (VStr s) →
         user_exists (VStr s) w' = (Ok true, w'))
    ∧ (NoDup (User_username <$> users (w_sql example_world)) →
       NoDup (User_username <$> users (w_sql w')))
    ∧ (NoDup (User_id <$> users (w_sql example_world)) →
       NoDup (User_id <$> users (w_sql w')))
    ∧ w_committed w' = w_sql w'
    ∧ base_uris (w_sql w') = base_uris (w_sql example_world)
    ∧ datasets (w_sql w') = datasets (w_sql example_world)
    ∧ search_permissions (w_sql w') = search_permissions (w_sql example_world)
    ∧ register_permissions (w_sql w') = register_permissions (w_sql example_world)
    ∧ w_mongo w' = w_mongo example_world ∧ w_heap w' = w_heap example_world.
Proof.
  apply (register_users_adds_the_missing example_world example_users).
  apply example_users_well_formed.
Defined.

Lemma example_users_registered_twice :
  ∃ w', register_users example_users example_world = (Ok (), w')
        ∧ register_users example_users w' = (Ok (), w').
Proof.
  apply (register_users_twice example_world example_users).
  apply example_users_well_formed.
Defined.

(** An entry without a username after alice and carol: carol is in the
    session, not in the committed store. *)
Lemma entry_without_username_stops :
  ∃ w1 w',
    register_users example_users example_world = (Ok (), w1)
    ∧ register_users
        (example_users ++ (<["is_admin" := VBool true]> ∅)
                          :: [<["username" := VStr "dave"]> ∅])
        example_world
      = (Raise (KeyError "username"), w')
    ∧ w_sql w' = w_sql w1
    ∧ w_committed w' = w_committed example_world
    ∧ w_mongo w' = w_mongo example_world ∧ w_heap w' = w_heap example_world.
Proof.
  apply (register_users_missing_username example_world example_users).
  - apply example_users_well_formed.
  - reflexivity.
Defined.


(** Alice's lookup of the example's uuid and her listing. *)
Lemma example_lookup_agrees_with_list :
  ∃ listed found,
    list_datasets_by_user columns_as_dict (VStr "alice") example_world
    = (Ok (columns_as_dict (w_sql example_world) <$> listed), example_world)
    ∧ lookup_datasets_by_user_and_uuid columns_as_dict (VStr "alice")
        (VStr example_uuid) example_world
      = (Ok (columns_as_dict (w_sql example_world) <$> found), example_world)
    ∧ ∀ ds, ds ∈ found ↔ ds ∈ listed ∧ VStr (Dataset_uuid ds) = VStr example_uuid.
Proof.
  apply (lookup_agrees_with_list columns_as_dict example_world (VStr "alice")
           (VStr example_uuid) (mkUser 1 "alice" false)).
  - reflexivity.
  - apply example_db_unique_keys.
Defined.

(** Bob is granted search on [s3://other], where the dataset of the example
    store lives. *)
Lemma bob_is_granted_and_lists :
  ∃ w' rows,
    update_permissions (example_permissions "s3://other" [VStr "bob"] []) example_world
    = (Ok (), w')
    ∧ list_datasets_by_user columns_as_dict (VStr "bob") w'
      = (Ok (columns_as_dict (w_sql w') <$> rows), w')
    ∧ datasets (w_sql w') = datasets (w_sql example_world)
    ∧ ∀ ds, ds ∈ datasets (w_sql example_world) →
            Dataset_base_uri_id ds = BaseURI_id (mkBaseURI 2 "s3://other") →
            ds ∈ rows.
Proof.
  apply (granted_search_lists_the_datasets columns_as_dict example_world
           (example_permissions "s3://other" [VStr "bob"] [])
           (VStr "s3://other") (VStr "bob") (mkBaseURI 2 "s3://other")
           [VStr "bob"] [] (mkUser 2 "bob" false)).
  - reflexivity.
  - reflexivity.
  - reflexivity.
  - reflexivity.
  - by_evaluation.
  - reflexivity.
Defined.

(** The admin record of a payload that validation would refuse: it lacks
    its readme. *)
Lemma admin_record_without_validation :
  ∃ w' rows,
    register_dataset_admin_metadata 1 fresh_world = (Ok (), w')
    ∧ datasets (w_sql w')
      = datasets (w_sql fresh_world)
        ++ [mkDataset "s3://bucket/abc" (BaseURI_id (mkBaseURI 1 "s3://bucket"))
              example_uuid "n"]
    ∧ w_committed w' = w_sql w'
    ∧ get_admin_metadata_from_uri columns_as_dict (VStr "s3://bucket/abc") fresh_world
      = (Ok None, fresh_world)
    ∧ get_admin_metadata_from_uri columns_as_dict (VStr "s3://bucket/abc") w'
      = (Ok (Some (columns_as_dict (w_sql w')
                     (mkDataset "s3://bucket/abc"
                        (BaseURI_id (mkBaseURI 1 "s3://bucket")) example_uuid "n"))), w')
    ∧ list_admin_metadata_in_base_uri columns_as_dict (VStr "s3://bucket") w'
      = (Ok (columns_as_dict (w_sql w') <$> rows), w')
    ∧ mkDataset "s3://bucket/abc" (BaseURI_id (mkBaseURI 1 "s3://bucket"))
        example_uuid "n" ∈ rows
    ∧ w_mongo w' = w_mongo fresh_world ∧ w_heap w' = w_heap fresh_world.
Proof.
  apply (register_dataset_admin_metadata_round_trip columns_as_dict fresh_world 1
           (delete "readme" example_payload) (VStr "s3://bucket")
           (mkBaseURI 1 "s3://bucket") "s3://bucket/abc" example_uuid "n");
    reflexivity.
Defined.


(** The readme of the example's payload, registered over the stored
    document. *)
Lemma example_readme_comes_back :
  ∃ w' r,
    register_dataset no_operators columns_as_dict 0 example_world
    = (Ok (VStr "s3://bucket/abc"), w')
    ∧ example_payload !! "readme" = Some r
    ∧ get_readme_from_uri no_operators (VStr "s3://bucket/abc") w' = (Ok r, w').
Proof.
  apply (get_readme_from_uri_after_register no_operators columns_as_dict
           example_world 0 example_payload "s3://bucket" "s3://bucket/abc"
           example_uuid "n" (mkBaseURI 1 "s3://bucket")).
  - reflexivity.
  - apply example_payload_registrable.
  - reflexivity.
  - intros x Hx _. apply list_elem_of_singleton in Hx. subst x. reflexivity.
Defined.

(** The descriptive registration of the example's payload in the fresh
    world: the second case, and the caller's dict has no [_id]. *)
Lemma payload_comes_back_without_id :
  (dataset_info_is_valid (heap_dict fresh_world 0) = Ok false
   ∧ Some (VStr example_uuid) = None
   ∧ (_register_dataset_descriptive_metadata no_operators 0 fresh_world).2 = fresh_world)
  ∨ (dataset_info_is_valid (heap_dict fresh_world 0) = Ok true
     ∧ is_Some (Some (VStr example_uuid))
     ∧ Some (VStr example_uuid) = heap_dict fresh_world 0 !! "uuid"
     ∧ heap_dict (_register_dataset_descriptive_metadata no_operators 0 fresh_world).2 0
       = delete "_id" (heap_dict fresh_world 0)
     ∧ (∀ l', l' ≠ 0 →
          w_heap (_register_dataset_descriptive_metadata no_operators 0 fresh_world).2 !! l'
          = w_heap fresh_world !! l')
     ∧ w_sql (_register_dataset_descriptive_metadata no_operators 0 fresh_world).2
       = w_sql fresh_world
     ∧ w_committed (_register_dataset_descriptive_metadata no_operators 0 fresh_world).2
       = w_committed fresh_world
     ∧ (length (w_mongo (_register_dataset_descriptive_metadata no_operators 0
                           fresh_world).2)
        = length (w_mongo fresh_world)
        ∨ length (w_mongo (_register_dataset_descriptive_metadata no_operators 0
                             fresh_world).2)
          = S (length (w_mongo fresh_world)))).
Proof.
  apply (descriptive_metadata_strips_id no_operators 0 fresh_world
           (_register_dataset_descriptive_metadata no_operators 0 fresh_world).2
           (Some (VStr example_uuid))).
  vm_compute. reflexivity.
Defined.

(** Search permissions are listed and register permissions are not: bob's
    grant reaches the session and goes no further. *)
Lemma bob_is_granted_in_the_session_only :
  ∃ w',
    update_permissions search_only_permissions example_world
    = (Raise (KeyError "users_with_register_permissions"), w')
    ∧ (∀ row, row ∈ search_permissions (w_sql w')
              ↔ row ∈ search_permissions (w_sql example_world)
                ∨ row ∈ granted_rows (w_sql example_world) (mkBaseURI 2 "s3://other")
                          [VStr "bob"; VStr "nobody"])
    ∧ search_permissions (w_sql example_world) `prefix_of` search_permissions (w_sql w')
    ∧ (NoDup (search_permissions (w_sql example_world)) →
       NoDup (search_permissions (w_sql w')))
    ∧ register_permissions (w_sql w') = register_permissions (w_sql example_world)
    ∧ w_committed w' = w_committed example_world
    ∧ users (w_sql w') = users (w_sql example_world)
    ∧ base_uris (w_sql w') = base_uris (w_sql example_world)
    ∧ datasets (w_sql w') = datasets (w_sql example_world)
    ∧ w_mongo w' = w_mongo example_world ∧ w_heap w' = w_heap example_world.
Proof.
  apply (update_permissions_missing_register_list example_world
           search_only_permissions (VStr "s3://other") (mkBaseURI 2 "s3://other")
           [VStr "bob"; VStr "nobody"]); reflexivity.
Defined.

(** The same call, seen from what it leaves: alice can still search
    [s3://bucket]. *)
Lemma nothing_is_revoked :
  users (w_sql (update_permissions search_only_permissions example_world).2)
  = users (w_sql example_world)
  ∧ base_uris (w_sql (update_permissions search_only_permissions example_world).2)
    = base_uris (w_sql example_world)
  ∧ datasets (w_sql (update_permissions search_only_permissions example_world).2)
    = datasets (w_sql example_world)
  ∧ w_mongo (update_permissions search_only_permissions example_world).2
    = w_mongo example_world
  ∧ w_heap (update_permissions search_only_permissions example_world).2
    = w_heap example_world
  ∧ ((Raise (KeyError "users_with_register_permissions") : outcome ()) = Ok ()
     ∧ w_committed (update_permissions search_only_permissions example_world).2
       = w_sql (update_permissions search_only_permissions example_world).2
     ∨ (∃ e, (Raise (KeyError "users_with_register_permissions") : outcome ())
             = Raise e)
       ∧ w_committed (update_permissions search_only_permissions example_world).2
         = w_committed example_world)
  ∧ search_permissions (w_sql example_world)
    `prefix_of` search_permissions
                  (w_sql (update_permissions search_only_permissions example_world).2)
  ∧ register_permissions (w_sql example_world)
    `prefix_of` register_permissions
                  (w_sql (update_permissions search_only_permissions example_world).2)
  ∧ (∀ username b,
       has_search (w_sql example_world) username b →
       has_search (w_sql (update_permissions search_only_permissions example_world).2)
         username b)
  ∧ (∀ username b,
       has_register (w_sql example_world) username b →
       has_register (w_sql (update_permissions search_only_permissions example_world).2)
         username b).
Proof.
  apply (update_permissions_only_appends example_world
           (update_permissions search_only_permissions example_world).2
           search_only_permissions
           (Raise (KeyError "users_with_register_permissions"))).
  vm_compute. reflexivity.
Defined.

(** The count after the example's payload is registered: one more in the
    fresh world. *)
Lemma example_count_grows_by_one :
  ∃ w',
    register_dataset no_operators columns_as_dict 0 fresh_world
    = (Ok (VStr "s3://bucket/abc"), w')
    ∧ ((∀ x, x ∈ w_mongo fresh_world →
             ¬ (x !! "uuid" = Some (VStr example_uuid)
                ∧ x !! "uri" = Some (VStr "s3://bucket/abc"))) →
       routes.index w'
       = (Ok (VStr (pretty (S (length (w_mongo fresh_world)))
                    +:+ " registered datasets")), w'))
    ∧ ((∃ x, x ∈ w_mongo fresh_world ∧ x !! "uuid" = Some (VStr example_uuid)
             ∧ x !! "uri" = Some (VStr "s3://bucket/abc")) →
       routes.index w'
       = (Ok (VStr (pretty (length (w_mongo fresh_world))
                    +:+ " registered datasets")), w')).
Proof.
  apply (index_after_register_dataset no_operators columns_as_dict fresh_world 0
           example_payload "s3://bucket" "s3://bucket/abc" example_uuid "n"
           (mkBaseURI 1 "s3://bucket")).
  - reflexivity.
  - apply example_payload_registrable.
  - reflexivity.
Defined.

(** Alice registers nothing herself, but what is registered under
    [s3://bucket] she finds with the filter of the examples. *)
Lemma alice_finds_the_registered :
  ∃ w1 res w2,
    register_dataset no_operators columns_as_dict 0 fresh_world
    = (Ok (VStr "s3://bucket/abc"), w1)
    ∧ search_datasets_by_user no_operators (VStr "alice") 2 w1 = (Ok res, w2)
    ∧ example_payload ∈ res.
Proof.
  apply (search_finds_the_registered no_operators columns_as_dict fresh_world 0 2
           example_payload
           (<["base_uri" := VStr "s3://other"]> (<["name" := VStr "n"]> ∅))
           "s3://bucket" "s3://bucket/abc" example_uuid "n"
           (mkBaseURI 1 "s3://bucket") (VStr "alice")).
  - reflexivity.
  - reflexivity.
  - apply example_payload_registrable.
  - reflexivity.
  - exists (mkUser 1 "alice" false). split; [reflexivity|by_evaluation].
  - intros k v Hk.
    apply lookup_insert_Some in Hk as [[<- <-]|[_ Hk]]; [by left|].
    apply lookup_insert_Some in Hk as [[<- <-]|[_ Hk]];
      [right; by split_and!|by rewrite lookup_empty in Hk].
Defined.

(** A number for uuid: the registration raises and writes nothing. *)
Lemma mistyped_registration_writes_nothing :
  ∃ e, register_dataset no_operators columns_as_dict 0 mistyped_world
       = (Raise e, mistyped_world).
Proof.
  apply (register_dataset_not_valid no_operators columns_as_dict mistyped_world 0).
  intros Hvalid. vm_compute in Hvalid. discriminate Hvalid.
Defined.

(** The example's registration keeps the invariants of the fresh world. *)
Lemma example_registration_keeps_invariants :
  (NoDup (Dataset_uri <$> datasets (w_sql fresh_world)) →
   NoDup (Dataset_uri <$>
            datasets (w_sql (register_dataset no_operators columns_as_dict 0
                               fresh_world).2)))
  ∧ (NoDup (doc_key <$> w_mongo fresh_world) →
     NoDup (doc_key <$>
              w_mongo (register_dataset no_operators columns_as_dict 0 fresh_world).2))
  ∧ users (w_sql (register_dataset no_operators columns_as_dict 0 fresh_world).2)
    = users (w_sql fresh_world)
  ∧ base_uris (w_sql (register_dataset no_operators columns_as_dict 0 fresh_world).2)
    = base_uris (w_sql fresh_world)
  ∧ search_permissions
      (w_sql (register_dataset no_operators columns_as_dict 0 fresh_world).2)
    = search_permissions (w_sql fresh_world)
  ∧ register_permissions
      (w_sql (register_dataset no_operators columns_as_dict 0 fresh_world).2)
    = register_permissions (w_sql fresh_world).
Proof.
  apply (register_dataset_keeps_invariants no_operators columns_as_dict fresh_world
           (register_dataset no_operators columns_as_dict 0 fresh_world).2 0
           example_payload "s3://bucket" "s3://bucket/abc" example_uuid "n"
           (mkBaseURI 1 "s3://bucket") (VStr "s3://bucket/abc")).
  - reflexivity.
  - apply example_payload_registrable.
  - reflexivity.
  - vm_compute. reflexivity.
Defined.



(** Nobody is not a user; alice is, and her listing is what her scope
    holds. *)
Lemma nobody_lists_nothing_alice_her_scope :
  list_datasets_by_user columns_as_dict (VStr "nobody") example_world
  = (Raise AuthenticationError, example_world)
  ∧ ∃ rows,
      list_datasets_by_user columns_as_dict (VStr "alice") example_world
      = (Ok (columns_as_dict (w_sql example_world) <$> rows), example_world)
      ∧ (∀ ds, ds ∈ rows ↔ ds ∈ datasets (w_sql example_world)
                            ∧ in_search_scope (w_sql example_world)
                                (mkUser 1 "alice" false) ds)
      ∧ (User_search_base_uris (w_sql example_world) (mkUser 1 "alice" false) = [] →
         rows = []).
Proof.
  split.
  - apply (proj1 (list_datasets_by_user_lists_the_scope columns_as_dict
                    example_world (VStr "nobody"))).
    reflexivity.
  - apply (proj2 (list_datasets_by_user_lists_the_scope columns_as_dict
                    example_world (VStr "alice"))).
    reflexivity.
Defined.

(** [s3://nowhere] has no permissions to show before it is registered. *)
Lemma nowhere_is_shown_once_registered :
  show_permissions columns_of_base_uri (VStr "s3://nowhere") example_world
  = (Raise (ValidationError (Base_URI_not_registered (VStr "s3://nowhere"))),
     example_world)
  ∧ ∃ w' found before after,
      register_base_uri (VStr "s3://nowhere") example_world = (Ok (), w')
      ∧ show_permissions columns_of_base_uri (VStr "s3://nowhere") w'
        = (Ok (columns_of_base_uri (w_sql w') found), w')
      ∧ found ∈ base_uris (w_sql w') ∧ BaseURI_base_uri found = "s3://nowhere"
      ∧ list_base_uris columns_of_base_uri example_world = (Ok before, example_world)
      ∧ list_base_uris columns_of_base_uri w' = (Ok after, w')
      ∧ length after = S (length before)
      ∧ columns_of_base_uri (w_sql w') found ∈ after.
Proof.
  apply (register_base_uri_is_listed columns_of_base_uri example_world "s3://nowhere").
  reflexivity.
Defined.

(** A base URI is registered once: a new name gets its row, a name that is
    registered is refused. *)
Lemma base_uri_is_registered_once :
  (∃ w', register_base_uri (VStr "s3://nowhere") example_world = (Ok (), w')
         ∧ base_uri_exists (VStr "s3://nowhere") w' = (Ok true, w')
         ∧ w_committed w' = w_sql w')
  ∧ register_base_uri (VStr "s3://bucket") example_world
    = (Raise IntegrityError, example_world).
Proof.
  split.
  - destruct (proj1 (register_base_uri_registers example_world "s3://nowhere") eq_refl)
      as (w' & row & Hrun & _ & _ & _ & Hexists & _ & _ & Hcommitted & _).
    by exists w'.
  - apply (proj2 (register_base_uri_registers example_world "s3://bucket")).
    by eexists.
Defined.

(** The payload without readme, through the descriptive registration and
    through the registration. *)
Lemma refusal_is_dropped :
  register_dataset_descriptive_metadata no_operators 1 example_world
  = (Ok (), example_world)
  ∧ register_dataset no_operators columns_as_dict 1 example_world
    = (Raise (ValidationError (Dataset_info_not_valid (heap_dict example_world 1))),
       example_world).
Proof.
  apply (proj2 (proj2 (register_dataset_descriptive_metadata_drops_refusal
                         no_operators columns_as_dict example_world 1))
           (VStr "s3://bucket") (mkBaseURI 1 "s3://bucket")); reflexivity.
Defined.

(** The view on the example's collection, asked for a uuid that no document
    has, and on an empty collection. *)
Lemma any_uuid_gets_the_first_document :
  flask_response (app_init.lookup_dataset_info (VStr other_uuid)) fresh_world
  = (mkResponse 500 VNone, fresh_world)
  ∧ ∃ w',
      flask_response (app_init.lookup_dataset_info (VStr other_uuid)) example_world
      = (mkResponse 200 (VDict (map_to_list example_payload)), w')
      ∧ VDict (map_to_list example_payload)
        = VDict (map_to_list (delete "_id" example_document))
      ∧ w_mongo w' = w_mongo example_world ∧ w_sql w' = w_sql example_world
      ∧ w_committed w' = w_committed example_world.
Proof.
  split.
  - apply (proj1 (lookup_dataset_info_answers_the_first_document fresh_world
                    (VStr other_uuid))).
    reflexivity.
  - apply (proj2 (lookup_dataset_info_answers_the_first_document example_world
                    (VStr other_uuid))
             example_document [] (VObjectId 7)).
    + reflexivity.
    + reflexivity.
    + vm_compute. reflexivity.
Defined.
